(** * Emotion-classification training scripts: a shallow embedding

    The development follows the three Python sources of the repository:
    - [scripts/utils.py]          (dataset split, model factory),
    - [scripts/train_test.py]     (the [train] and [test] entry points),
    - [scripts/wav2vec_models.py] (model variants, staged optimizer step).

    Conventions of the embedding.
    - Python [int] is [Z]; floor division [//] is [Z.div], [%] is [Z.modulo]
      with the zero divisor raising [ZeroDivisionError].
    - The product [len(dataset) * split_size], whose rounding decides the
      sizes of a split, is computed on IEEE 754 binary64 values, as Python
      does (the [spec_float] of the Standard Library, precision 53).
    - Losses, accuracies and learning rates are read as exact rationals [Q]:
      their rounding error is outside the model, and equalities between them
      are stated with [==].  Where a loss is compared (the save decision) it
      is a number, an infinity or NaN, with the order of the floats.
    - A raised exception is the left injection of a sum type.
    - Tensors live in a store indexed by locations; a [state_dict] is a
      dictionary of references into that store, as in PyTorch. *)

From Stdlib Require Import QArith Qround Qminmax Lqa Lia ZArith Ascii String.
From Stdlib Require Import SpecFloat.
From stdpp Require Import gmap strings list pretty.

Set Default Proof Using "Type".

(* ################################################################# *)
(** * Python values and exceptions *)

Module Py.

Inductive exn : Type :=
| ZeroDivisionError
| AttributeError (obj attr : string)
| TypeError (msg : string)
| ValueError (msg : string)
| FileNotFoundError (path : string)
| RuntimeError (msg : string)
| OverflowError (msg : string)
| OSError (path : string).

(** Result of a Python expression: an exception or a value. *)
Definition res (A : Type) : Type := (exn + A)%type.

Definition ret {A} (a : A) : res A := inr a.
Definition raise {A} (e : exn) : res A := inl e.
Definition bind {A B} (m : res A) (k : A -> res B) : res B :=
  match m with
  | inl e => inl e
  | inr a => k a
  end.

Definition raises {A} (m : res A) : Prop := exists e, m = inl e.

(** [a // b] and [a % b] on integers. *)
Definition floordiv (a b : Z) : res Z :=
  if (b =? 0)%Z then raise ZeroDivisionError else ret (a / b)%Z.
Definition modulo (a b : Z) : res Z :=
  if (b =? 0)%Z then raise ZeroDivisionError else ret (a mod b)%Z.

(** [a / b] on numbers (true division). *)
Definition truediv (a b : Q) : res Q :=
  if Qeq_bool b 0 then raise ZeroDivisionError else ret (a / b)%Q.

(** [a < b] and [a >= b] on numbers. *)
Definition ltb (a b : Q) : bool :=
  match (a ?= b)%Q with Lt => true | _ => false end.
Definition geb (a b : Q) : bool := negb (ltb a b).

(** [round(x)] with one argument: the nearest integer, ties to even. *)
Definition round (x : Q) : Z :=
  let f := Qfloor x in
  match (x - inject_Z f ?= 1 # 2)%Q with
  | Lt => f
  | Gt => (f + 1)%Z
  | Eq => if Z.even f then f else (f + 1)%Z
  end.

(** [str.lower()] on ASCII strings. *)
Definition lower_ascii (c : ascii) : ascii :=
  let n := nat_of_ascii c in
  if (65 <=? n)%nat && (n <=? 90)%nat then ascii_of_nat (n + 32) else c.
Fixpoint lower (s : string) : string :=
  match s with
  | EmptyString => EmptyString
  | String c s' => String (lower_ascii c) (lower s')
  end.

(** [l[i:j]]: negative bounds count from the end, then both are clamped. *)
Definition slice_bound (n i : Z) : Z :=
  if (i <? 0)%Z then Z.max 0 (i + n) else Z.min i n.
Definition slice {A} (l : list A) (i j : Z) : list A :=
  let n := Z.of_nat (length l) in
  let lo := slice_bound n i in
  let hi := slice_bound n j in
  take (Z.to_nat (hi - lo)) (drop (Z.to_nat lo) l).

(** [itertools.accumulate] on integers (running sums). *)
Fixpoint accumulate_from (acc : Z) (l : list Z) : list Z :=
  match l with
  | [] => []
  | x :: l' => (acc + x)%Z :: accumulate_from (acc + x) l'
  end.
Definition accumulate (l : list Z) : list Z := accumulate_from 0 l.

Definition sum (l : list Z) : Z := foldr Z.add 0%Z l.

(** ** Floats

    A Python [float] is an IEEE 754 binary64 value. *)
Definition float : Type := spec_float.

(** [float(z)] for an integer: the nearest float, ties to even; an integer
    that rounds beyond the largest float is an [OverflowError]. *)
Definition float_of_int (z : Z) : res float :=
  match binary_normalize 53 1024 z 0 false with
  | S754_infinity _ => raise (OverflowError "int too large to convert to float")
  | x => ret x
  end.

(** [x * y] on floats. *)
Definition fmul (x y : float) : float := SFmul 53 1024 x y.

(** The float a decimal literal or a JSON number [n/d] denotes, for [n]
    and [d] below [2^53] in magnitude: the correctly rounded quotient of two
    integers that are floats themselves. *)
Definition float_literal (q : Q) : float :=
  SFdiv 53 1024 (binary_normalize 53 1024 (Qnum q) 0 false)
                (binary_normalize 53 1024 (Zpos (Qden q)) 0 false).

(** The number a finite float stands for. *)
Definition float_value (x : float) : option Q :=
  match x with
  | S754_zero _ => Some 0%Q
  | S754_finite s m e =>
      let n := if s then Zneg m else Zpos m in
      Some (match e with
            | Zneg k => Qmake n (Pos.pow 2 k)
            | _ => inject_Z (n * 2 ^ e)
            end)
  | S754_infinity _ | S754_nan => None
  end.

(** [round(x)] for a float: the integer nearest to its exact value, ties
    to even. *)
Definition round_float (x : float) : res Z :=
  match x with
  | S754_nan => raise (ValueError "cannot convert float NaN to integer")
  | S754_infinity _ =>
      raise (OverflowError "cannot convert float infinity to integer")
  | _ => match float_value x with
         | Some q => ret (round q)
         | None => raise (ValueError "cannot convert float NaN to integer")
         end
  end.

(** A number as JSON and Python have it: an [int] or a [float]. *)
Inductive number : Type :=
| Int (z : Z)
| Float (x : float).

(** [n * x] for an integer [n]: exact on integers, on floats after
    [float(n)]. *)
Definition int_mul (n : Z) (x : number) : res number :=
  match x with
  | Int z => ret (Int (n * z))
  | Float y =>
      match float_of_int n with
      | inl e => inl e
      | inr fn => ret (Float (fmul fn y))
      end
  end.

(** [round(x)] for a number: an integer is its own rounding. *)
Definition round_number (x : number) : res Z :=
  match x with
  | Int z => ret z
  | Float y => round_float y
  end.

(** [0 <= x <= 1] on numbers. *)
Definition in_unit (x : number) : bool :=
  match x with
  | Int z => (0 <=? z)%Z && (z <=? 1)%Z
  | Float y => match float_value y with
               | Some q => Qle_bool 0 q && Qle_bool q 1
               | None => false
               end
  end.

(** A float that is not negative and at most the integer [N]: a zero, or
    [m * 2^e] with [e <= 0] and [m <= N * 2^(-e)]. *)
Definition at_most (N : Z) (x : float) : Prop :=
  match x with
  | S754_zero _ => True
  | S754_finite s m e => s = false /\ (e <= 0)%Z /\ (Zpos m <= N * 2 ^ (- e))%Z
  | _ => False
  end.

(** ** Floats as ordered values

    What a float is once its rounding is left out: a number, an infinity
    or NaN.  Every comparison with NaN is false. *)
Inductive xfloat : Type :=
| Num (q : Q)
| Infinity (negative : bool)
| NaN.

(** [a < b] on floats. *)
Definition xlt (a b : xfloat) : bool :=
  match a, b with
  | NaN, _ | _, NaN => false
  | Num x, Num y => ltb x y
  | Num _, Infinity negative => negb negative
  | Infinity negative, Num _ => negative
  | Infinity na, Infinity nb => na && negb nb
  end.

(** [a <= b] on floats. *)
Definition xle (a b : xfloat) : bool :=
  match a, b with
  | NaN, _ | _, NaN => false
  | Num x, Num y => negb (ltb y x)
  | Num _, Infinity negative => negb negative
  | Infinity negative, Num _ => negative
  | Infinity na, Infinity nb => na || negb nb
  end.

Definition is_nan (a : xfloat) : bool :=
  match a with NaN => true | _ => false end.

End Py.

(* ################################################################# *)
(** * Datasets and the split engine *)

Module Data.

Section Datasets.
(** An item is a feature tensor with an integer label. *)
Context {Item : Type}.

(** [torch.utils.data]: a base dataset, or a [Subset] view of a parent
    dataset through a list of indices. *)
Inductive Dataset : Type :=
| Base (items : list Item)
| Subset (parent : Dataset) (indices : list nat).

(** [len(dataset)] *)
Definition len (d : Dataset) : nat :=
  match d with
  | Base items => length items
  | Subset _ indices => length indices
  end.

(** [dataset[i]] *)
Fixpoint getitem (d : Dataset) (i : nat) : option Item :=
  match d with
  | Base items => items !! i
  | Subset parent indices => indices !! i ≫= getitem parent
  end.

(** The branch of [random_split] (torch 1.13 and later) that reads its
    lengths as fractions of a dataset of [n] items: each fraction must lie
    between 0 and 1; a length is [floor(n * fraction)], and what is left of
    [n] is handed out one by one from the first length on. *)
Definition fraction_lengths (n : Z) (lengths : list Z) : Py.res (list Z) :=
  match list_find (fun frac : Z => (frac < 0)%Z \/ (1 < frac)%Z) lengths with
  | Some (i, _) =>
      Py.raise (Py.ValueError ("Fraction at index " +:+ pretty i
                               +:+ " is not between 0 and 1"))
  | None =>
      let subset_lengths := map (fun frac => (n * frac)%Z) lengths in
      let remainder := (n - Py.sum subset_lengths)%Z in
      Py.ret (foldl (fun l i => alter Z.succ (i mod length l)%nat l)
                    subset_lengths (seq 0 (Z.to_nat remainder)))
  end.

(** [torch.utils.data.random_split(dataset, lengths, generator)] on integer
    lengths.  Lengths that sum to 1 are read as fractions
    ([math.isclose(sum(lengths), 1) and sum(lengths) <= 1]); before torch
    1.13 that branch does not exist.  [perm] is what
    [randperm(sum(lengths), generator)] returned. *)
Definition random_split (perm : list nat) (dataset : Dataset)
    (lengths : list Z) : Py.res (list Dataset) :=
  let n := Z.of_nat (len dataset) in
  match (if (Py.sum lengths =? 1)%Z then fraction_lengths n lengths
         else Py.ret lengths) with
  | inl e => inl e
  | inr lengths =>
      if negb (Py.sum lengths =? n)%Z
      then Py.raise (Py.ValueError
             "Sum of input lengths does not equal the length of the input dataset!")
      else Py.ret (zip_with
             (fun offset length =>
                Subset dataset (Py.slice perm (offset - length) offset))
             (Py.accumulate lengths) lengths)
  end.

(** [round(len(dataset) * split_size)]: the product of an [int] and the
    configured number, a float product when that number is a float. *)
Definition split_point (dataset : Dataset) (split_size : Py.number)
    : Py.res Z :=
  match Py.int_mul (Z.of_nat (len dataset)) split_size with
  | inl e => inl e
  | inr x => Py.round_number x
  end.

(** The length list both [split_dataset] and [_get_dataset_split] pass:
    [[round(len(d) * split_size), len(d) - round(len(d) * split_size)]]. *)
Definition split_lengths (dataset : Dataset) (split_size : Py.number)
    : Py.res (list Z) :=
  match split_point dataset split_size with
  | inl e => inl e
  | inr a => Py.ret [ a; (Z.of_nat (len dataset) - a)%Z ]
  end.

(** [utils.split_dataset(dataset, split_size, seed)] *)
Definition split_dataset (perm : list nat) (dataset : Dataset)
    (split_size : Py.number) : Py.res (Dataset * Dataset) :=
  match Py.bind (split_lengths dataset split_size)
                (random_split perm dataset) with
  | inl e => inl e
  | inr [train_dataset; test_dataset] => Py.ret (train_dataset, test_dataset)
  | inr _ => Py.raise (Py.ValueError "not enough values to unpack")
  end.

(** The [part] argument of [train_test._get_dataset_split]. *)
Inductive Part : Type := PartBoth | PartTest | PartTrain | PartOther.

Inductive SplitResult : Type :=
| Both (train_dataset test_dataset : Dataset)
| One (d : Dataset)
| NoneResult.

(** [train_test._get_dataset_split(data, part, split_size, seed)] *)
Definition _get_dataset_split (perm : list nat) (data : Dataset)
    (part : Part) (split_size : Py.number) : Py.res SplitResult :=
  match Py.bind (split_lengths data split_size) (random_split perm data) with
  | inl e => inl e
  | inr [train_dataset; test_dataset] =>
      match part with
      | PartBoth => Py.ret (Both train_dataset test_dataset)
      | PartTest => Py.ret (One test_dataset)
      | PartTrain => Py.ret (One train_dataset)
      | PartOther => Py.ret NoneResult
      end
  | inr _ => Py.raise (Py.ValueError "not enough values to unpack")
  end.
End Datasets.

Arguments Dataset : clear implicits.
Arguments SplitResult : clear implicits.

End Data.

Notation "'let*' x ':=' m 'in' k" := (Py.bind m (fun x => k))
  (at level 10, x pattern, m at level 100, k at level 200).

(* ################################################################# *)
(** * The staged optimizer step of [Wav2VecCLSPaperFinetuning] *)

Module Sched.

(** One entry of [optimizer.param_groups]. *)
Record ParamGroup : Type := {
  pg_lr : Q;                    (* pg['lr'] *)
  pg_params : list string       (* names of the tensors of pg['params'] *)
}.

(** A [torch.optim.Adam] instance, as far as the hook uses it. *)
Record Optimizer : Type := {
  defaults_lr : Q;              (* optimizer.defaults["lr"] *)
  param_groups : list ParamGroup;
  n_steps : nat                 (* calls of optimizer.step so far *)
}.

(** Names of the parameter collections of the model. *)
Definition feature_extractor : string := "pretrained_model.feature_extractor".
Definition feature_projection : string := "pretrained_model.feature_projection".
Definition encoder : string := "pretrained_model.encoder".
Definition linear_layer : string := "linear_layer".

(** [torch.optim.Adam(params=..., lr=lr)]: a single parameter group. *)
Definition Adam (params : list string) (lr : Q) : Optimizer :=
  {| defaults_lr := lr;
     param_groups := [ {| pg_lr := lr; pg_params := params |} ];
     n_steps := 0 |}.

(** [configure_optimizers]: the head alone, and the head together with
    feature projection and encoder. *)
Definition configure_optimizers (lr : Q) : Optimizer * Optimizer :=
  let optimizer_linear_layer := Adam [linear_layer] lr in
  let params := [feature_projection; encoder; linear_layer] in
  let optimizer_linear_and_encoder := Adam params lr in
  (optimizer_linear_layer, optimizer_linear_and_encoder).

(** [for pg in optimizer.param_groups: pg['lr'] = v] *)
Definition set_lr (v : Q) (optimizer : Optimizer) : Optimizer :=
  {| defaults_lr := defaults_lr optimizer;
     param_groups :=
       map (fun pg => {| pg_lr := v; pg_params := pg_params pg |})
           (param_groups optimizer);
     n_steps := n_steps optimizer |}.

Section Step.
(** Parameter values, and the new value the optimizer writes for a
    named tensor given the learning rate of its group (gradient and
    moment estimates are inside [update]). *)
Context {Tensor : Type}.
Variable update : Q -> string -> Tensor -> Tensor.

Definition step_group (pg : ParamGroup) (w : gmap string Tensor)
    : gmap string Tensor :=
  foldr (fun name w => alter (update (pg_lr pg) name) name w) w (pg_params pg).

(** [optimizer.step(closure=optimizer_closure)] *)
Definition step (optimizer : Optimizer) (w : gmap string Tensor)
    : Optimizer * gmap string Tensor :=
  ({| defaults_lr := defaults_lr optimizer;
      param_groups := param_groups optimizer;
      n_steps := S (n_steps optimizer) |},
   foldr step_group w (param_groups optimizer)).

(** [Wav2VecCLSPaperFinetuning.optimizer_step]; [num_epochs] is
    [self.num_epochs]. *)
Definition optimizer_step (num_epochs : Z) (epoch : Z)
    (optimizer : Optimizer) (optimizer_idx : Z) (w : gmap string Tensor)
    : Py.res (Optimizer * gmap string Tensor) :=
  let* progress := Py.truediv (inject_Z epoch) (inject_Z num_epochs) in
  if (Py.geb (3 # 10) progress && (optimizer_idx =? 0)%Z)
     || (Py.ltb (3 # 10) progress && (optimizer_idx =? 1)%Z)
  then
    let* optimizer :=
      if (epoch <? num_epochs / 10)%Z then
        let* r := Py.truediv (inject_Z (epoch + 1))
                             (inject_Z (num_epochs / 10)) in
        let lr_scale := Qmin 1 r in
        Py.ret (set_lr (lr_scale * defaults_lr optimizer) optimizer)
      else if (epoch >=? num_epochs / 2)%Z then
        let* r := Py.truediv (inject_Z (epoch - num_epochs / 2))
                             (inject_Z (num_epochs - num_epochs / 2)) in
        let lr_scale := Qmin 1 (1 - r) in
        Py.ret (set_lr (lr_scale * defaults_lr optimizer) optimizer)
      else Py.ret optimizer
    in
    Py.ret (step optimizer w)
  else Py.ret (optimizer, w).

(** State of a fit: the two optimizers and the model's tensors. *)
Record FitState : Type := {
  opt0 : Optimizer;
  opt1 : Optimizer;
  weights : gmap string Tensor
}.

(** The batch loop of the PyTorch Lightning trainer calls the hook once
    per optimizer, in the order [configure_optimizers] returned them. *)
Definition training_batch (num_epochs epoch : Z) (st : FitState)
    : Py.res FitState :=
  let* r0 := optimizer_step num_epochs epoch (opt0 st) 0 (weights st) in
  let* r1 := optimizer_step num_epochs epoch (opt1 st) 1 (snd r0) in
  Py.ret {| opt0 := fst r0; opt1 := fst r1; weights := snd r1 |}.

Fixpoint training_epoch (num_epochs epoch : Z) (n_batches : nat)
    (st : FitState) : Py.res FitState :=
  match n_batches with
  | O => Py.ret st
  | S n =>
      let* st := training_batch num_epochs epoch st in
      training_epoch num_epochs epoch n st
  end.

(** Epochs [first, first + 1, ..., first + n - 1] in order. *)
Fixpoint fit_epochs (num_epochs : Z) (n_batches : nat) (first : Z)
    (n : nat) (st : FitState) : Py.res FitState :=
  match n with
  | O => Py.ret st
  | S n' =>
      let* st := training_epoch num_epochs first n_batches st in
      fit_epochs num_epochs n_batches (first + 1) n' st
  end.

Definition fit_init (lr : Q) (w : gmap string Tensor) : FitState :=
  {| opt0 := fst (configure_optimizers lr);
     opt1 := snd (configure_optimizers lr);
     weights := w |}.
End Step.

(** Learning rate of the (single) parameter group of an optimizer. *)
Definition lr_of (optimizer : Optimizer) : list Q :=
  map pg_lr (param_groups optimizer).

(** Which optimizer index the hook lets through at an epoch. *)
Definition active (num_epochs epoch : Z) (optimizer_idx : Z) : bool :=
  if (optimizer_idx =? 0)%Z then (10 * epoch <=? 3 * num_epochs)%Z
  else if (optimizer_idx =? 1)%Z then (3 * num_epochs <? 10 * epoch)%Z
  else false.

(** The schedule in closed form, as a multiple of the base rate. *)
Definition scale (num_epochs epoch : Z) : Q :=
  if (epoch <? num_epochs / 10)%Z
  then inject_Z (epoch + 1) / inject_Z (num_epochs / 10)
  else if (epoch <? num_epochs / 2)%Z then 1
  else 1 - inject_Z (epoch - num_epochs / 2)
           / inject_Z (num_epochs - num_epochs / 2).

(** The learning-rate part of the hook on its own (no division fails
    once [0 <= epoch] and [0 < num_epochs]). *)
Definition scheduled (num_epochs epoch : Z) (optimizer : Optimizer)
    : Optimizer :=
  if (epoch <? num_epochs / 10)%Z then
    set_lr (Qmin 1 (inject_Z (epoch + 1) / inject_Z (num_epochs / 10))
            * defaults_lr optimizer) optimizer
  else if (epoch >=? num_epochs / 2)%Z then
    set_lr (Qmin 1 (1 - inject_Z (epoch - num_epochs / 2)
                        / inject_Z (num_epochs - num_epochs / 2))
            * defaults_lr optimizer) optimizer
  else optimizer.

(** Invariants of a fit started from [fit_init base]: what the two
    learning rates are when epoch [e] starts, and once a batch of epoch
    [e] has been processed. *)
Definition rates {Tensor} (st : @FitState Tensor) (base l0 l1 : Q) : Prop :=
  defaults_lr (opt0 st) = base /\ defaults_lr (opt1 st) = base /\
  lr_of (opt0 st) = [l0] /\ lr_of (opt1 st) = [l1].

Definition epoch_start {Tensor} (base : Q) (E e : Z) (st : @FitState Tensor)
    : Prop :=
  exists l0 l1, rates st base l0 l1 /\
    ((e <= E / 2)%Z -> l1 == base) /\
    ((E / 10 <= e)%Z -> (e <= E / 2)%Z -> l0 == base).

Definition in_epoch {Tensor} (base : Q) (E e : Z) (st : @FitState Tensor)
    : Prop :=
  exists l0 l1, rates st base l0 l1 /\
    (if active E e 0 then l0 else l1) == scale E e * base /\
    ((e < E / 2)%Z -> l1 == base) /\
    ((E / 10 <= e + 1)%Z -> (e < E / 2)%Z -> l0 == base).

(** The parameter lists of the two optimizers, as [configure_optimizers]
    builds them (one group each). *)
Definition group_params (optimizer : Optimizer) : list (list string) :=
  map pg_params (param_groups optimizer).

Definition configured {Tensor} (st : @FitState Tensor) : Prop :=
  group_params (opt0 st) = [[linear_layer]] /\
  group_params (opt1 st) = [[feature_projection; encoder; linear_layer]].

(** Plain gradient descent with a constant unit gradient, used to run the
    hook on concrete numbers. *)
Definition sgd_unit (lr : Q) (_ : string) (v : Q) : Q := Qred (v - lr * 1).

Definition example_weights : gmap string Q :=
  <[feature_extractor := 5%Q]> (<[feature_projection := 5%Q]>
    (<[encoder := 5%Q]> (<[linear_layer := 5%Q]> ∅))).

End Sched.

(* ################################################################# *)
(** * Training and evaluation mode of the model variants *)

Module Modes.

(** An [nn.Module]: its [training] flag and its named children. *)
#[warnings="-register-all"]
Inductive Module : Type :=
| Node (training : bool) (children : list (string * Module)).

Definition training (m : Module) : bool :=
  match m with Node t _ => t end.
Definition children (m : Module) : list (string * Module) :=
  match m with Node _ cs => cs end.

(** [nn.Module.train(mode)]: sets the flag of the module and of all its
    descendants; [nn.Module.eval()] is [train(False)]. *)
Fixpoint nn_train (mode : bool) (m : Module) : Module :=
  match m with
  | Node _ cs =>
      Node mode
        ((fix go (cs : list (string * Module)) : list (string * Module) :=
            match cs with
            | [] => []
            | (name, c) :: cs' => (name, nn_train mode c) :: go cs'
            end) cs)
  end.
Definition nn_eval : Module -> Module := nn_train false.

(** Every module of the tree is in evaluation mode. *)
Fixpoint all_eval (m : Module) : bool :=
  match m with
  | Node t cs =>
      negb t &&
      (fix go (cs : list (string * Module)) : bool :=
         match cs with
         | [] => true
         | (_, c) :: cs' => all_eval c && go cs'
         end) cs
  end.

(** Attribute lookup and in-place change of a child. *)
Fixpoint get_child (name : string) (cs : list (string * Module))
    : option Module :=
  match cs with
  | [] => None
  | (n, c) :: cs' => if String.eqb n name then Some c else get_child name cs'
  end.
Fixpoint update_child (name : string) (f : Module -> Module)
    (cs : list (string * Module)) : list (string * Module) :=
  match cs with
  | [] => []
  | (n, c) :: cs' =>
      if String.eqb n name then (n, f c) :: cs'
      else (n, c) :: update_child name f cs'
  end.

(** [self.a.b.c] and a method call on it. *)
Fixpoint submodule (path : list string) (m : Module) : option Module :=
  match path with
  | [] => Some m
  | name :: path' => get_child name (children m) ≫= submodule path'
  end.
Fixpoint call_at (path : list string) (f : Module -> Module) (m : Module)
    : Module :=
  match path with
  | [] => f m
  | name :: path' =>
      Node (training m) (update_child name (call_at path' f) (children m))
  end.

(** The classes of [wav2vec_models.py]. *)
Inductive Variant : Type :=
| Wav2VecCLSPaperFinetuning
| Wav2VecFeatureExtractor (finetune_pretrained : bool)
| Wav2VecFeatureExtractorGAP (finetune_pretrained : bool)
| Wav2VecCLSToken
| Wav2VecCLSTokenNotPretrained
| Wav2VecComplete (finetune_pretrained : bool)
| Wav2VecFeezingEncoderOnly.

Definition pretrained_model : string := "pretrained_model".
Definition feature_extractor : string := "feature_extractor".
Definition feature_projection : string := "feature_projection".
Definition encoder : string := "encoder".
Definition linear_layer : string := "linear_layer".
Definition linear_projector : string := "linear_projector".
Definition cls_net : string := "cls_net".
Definition softmax_activation : string := "softmax_activation".

Section Construct.
(** The inner structure of the three parts of the speech encoder and of
    the heads is the library's. *)
Variables fe fp enc head : list (string * Module).

(** [Wav2Vec2Model.from_pretrained(...)]: loaded in evaluation mode. *)
Definition from_pretrained : Module :=
  nn_eval (Node true [ (feature_extractor, Node true fe);
                       (feature_projection, Node true fp);
                       (encoder, Node true enc) ]).

(** [Wav2VecModelOverridden(model_config)]: a fresh module. *)
Definition from_config : Module :=
  nn_train true (Node true [ (feature_extractor, Node true fe);
                             (feature_projection, Node true fp);
                             (encoder, Node true enc) ]).

(** The module tree each [__init__] builds. *)
Definition init (v : Variant) : Module :=
  match v with
  | Wav2VecCLSPaperFinetuning | Wav2VecCLSToken =>
      Node true [ (pretrained_model, from_pretrained);
                  (linear_layer, Node true head) ]
  | Wav2VecCLSTokenNotPretrained =>
      Node true [ (pretrained_model, from_config);
                  (linear_layer, Node true head) ]
  | Wav2VecFeatureExtractor _ =>
      Node true [ (pretrained_model, nn_eval (Node true fe));
                  (linear_projector, Node true head) ]
  | Wav2VecFeatureExtractorGAP _ =>
      Node true [ (pretrained_model, nn_eval (Node true fe));
                  (cls_net, Node true head) ]
  | Wav2VecComplete _ | Wav2VecFeezingEncoderOnly =>
      Node true [ (pretrained_model, from_pretrained);
                  (linear_layer, Node true head);
                  (softmax_activation, Node true []) ]
  end.
End Construct.

(** The sub-modules whose parameters [__init__] switches off with
    [param.requires_grad = False]: the whole speech model or feature
    extractor unless [finetune_pretrained]; the feature extractor of the
    paper variant; the encoder (all but its normalisation layers) of
    [Wav2VecFeezingEncoderOnly]. *)
Definition frozen (v : Variant) : list (list string) :=
  match v with
  | Wav2VecCLSPaperFinetuning => [ [pretrained_model; feature_extractor] ]
  | Wav2VecFeatureExtractor ft | Wav2VecFeatureExtractorGAP ft
  | Wav2VecComplete ft =>
      if ft then [] else [ [pretrained_model] ]
  | Wav2VecCLSToken | Wav2VecCLSTokenNotPretrained => []
  | Wav2VecFeezingEncoderOnly => [ [pretrained_model; encoder] ]
  end.

(** [model.train()]: the overrides of [Wav2VecComplete] and
    [Wav2VecFeezingEncoderOnly]; the other classes inherit
    [nn.Module.train]. *)
Definition train (v : Variant) (self : Module) : Module :=
  match v with
  | Wav2VecComplete finetune_pretrained =>
      let self :=
        if finetune_pretrained
        then call_at [pretrained_model] (nn_train true) self
        else call_at [pretrained_model] nn_eval self in
      call_at [linear_layer] (nn_train true) self
  | Wav2VecFeezingEncoderOnly =>
      let self := call_at [pretrained_model; encoder] nn_eval self in
      let self :=
        call_at [pretrained_model; feature_extractor] (nn_train true) self in
      let self :=
        call_at [pretrained_model; feature_projection] (nn_train true) self in
      call_at [linear_layer] (nn_train true) self
  | _ => nn_train true self
  end.

(** [model.eval()] *)
Definition eval (v : Variant) (self : Module) : Module :=
  match v with
  | Wav2VecComplete _ | Wav2VecFeezingEncoderOnly =>
      let self := call_at [pretrained_model] nn_eval self in
      call_at [linear_layer] nn_eval self
  | _ => nn_eval self
  end.

(** Two paths that part ways at some position. *)
Fixpoint diverge (p q : list string) : bool :=
  match p, q with
  | a :: p', b :: q' => if String.eqb b a then diverge p' q' else true
  | _, _ => false
  end.

End Modes.

(* ################################################################# *)
(** * [forward] of the token-pooling variants *)

Module Forward.

Section Forward.
Context {Tensor : Type}.

(** What a sub-module call returns: a tensor or a pair. *)
Inductive Value : Type :=
| VTensor (t : Tensor)
| VPair (a b : Value).

(** A sub-module, seen as the function its call computes. *)
Definition Callable : Type := Value -> Py.res Value.

(** The attributes [__init__] has set on [self]. *)
Abbreviation Object := (gmap string Callable).

(** [self.name] *)
Definition getattr (cls : string) (self : Object) (name : string)
    : Py.res Callable :=
  match self !! name with
  | Some v => Py.ret v
  | None => Py.raise (Py.AttributeError cls name)
  end.

(** Iterating a tensor yields its slices along the first dimension. *)
Variable rows : Tensor -> list Tensor.

(** [a, _ = v] *)
Definition unpack2 (v : Value) : Py.res (Value * Value) :=
  match v with
  | VPair a b => Py.ret (a, b)
  | VTensor t =>
      match rows t with
      | [a; b] => Py.ret (VTensor a, VTensor b)
      | [] | [_] => Py.raise (Py.ValueError "not enough values to unpack")
      | _ => Py.raise (Py.ValueError "too many values to unpack")
      end
  end.

(** [Wav2VecCLSToken.__init__] and
    [Wav2VecCLSTokenNotPretrained.__init__] set the same two
    attributes; [pretrained_model] and [linear_layer] stand for the
    modules built there. *)
Definition init (pretrained_model linear_layer : Callable) : Object :=
  <["linear_layer" := linear_layer]>
    (<["pretrained_model" := pretrained_model]> ∅).

(** [Wav2VecCLSToken.forward] *)
Definition forward_cls_token (self : Object) (x : Value) : Py.res Value :=
  let cls := "Wav2VecCLSToken" in
  let* pretrained_model := getattr cls self "pretrained_model" in
  let* r := pretrained_model x in
  let* p := unpack2 r in
  let cls_token := fst p in
  let* linear_layer := getattr cls self "linear_layer" in
  let* y_pred := linear_layer cls_token in
  Py.ret y_pred.

(** [Wav2VecCLSTokenNotPretrained.forward]; the callee
    [self.softmax_activation] is looked up before its argument is
    evaluated. *)
Definition forward (self : Object) (x : Value) : Py.res Value :=
  let cls := "Wav2VecCLSTokenNotPretrained" in
  let* pretrained_model := getattr cls self "pretrained_model" in
  let* r := pretrained_model x in
  let* p := unpack2 r in
  let cls_token := fst p in
  let* softmax_activation := getattr cls self "softmax_activation" in
  let* linear_layer := getattr cls self "linear_layer" in
  let* h := linear_layer cls_token in
  let* y_pred := softmax_activation h in
  Py.ret y_pred.
End Forward.

Arguments Value : clear implicits.
Arguments Callable : clear implicits.

(** [utils.get_model] for [cfg.model.name = "wav2vec"]: the class chosen
    by [cfg.model.option] ([None] when no branch matches). *)
Definition get_model_wav2vec (model_option : string) (finetuning : bool)
    : option Modes.Variant :=
  if String.eqb model_option "partial" then Some Modes.Wav2VecFeezingEncoderOnly
  else if String.eqb model_option "all" then Some (Modes.Wav2VecComplete finetuning)
  else if String.eqb model_option "cnn"
    then Some (Modes.Wav2VecFeatureExtractor finetuning)
  else if String.eqb model_option "cnn_avg"
    then Some (Modes.Wav2VecFeatureExtractorGAP finetuning)
  else if String.eqb model_option "cls_token" then Some Modes.Wav2VecCLSToken
  else if String.eqb model_option "cls_token_not_pretrained"
    then Some Modes.Wav2VecCLSTokenNotPretrained
  else if String.eqb model_option "paper"
    then Some Modes.Wav2VecCLSPaperFinetuning
  else None.

End Forward.

(* ################################################################# *)
(** * The [train] and [test] entry points *)

Module Train.

(** The keys read from the configuration file. *)
Record Config : Type := {
  simulation_name : string;
  num_epoches : Z;
  model : string;
  model_arch : option string;
  dataset : string;
  audio_size : Z;
  use_spectrogram : bool;
  train_test_split_size : Py.number;
  train_test_split_seed : option Z;
  num_workers : Z;
  training_batches : Z;
  testing_batches : Z;
  server_config : option string
}.

(** [os.path.join] *)
Definition join (a b : string) : string := a +:+ "/" +:+ b.
Definition data_path : string := join (join "." "Assets") "Data".
Definition model_path : string := join (join "." "Assets") "Models".
Definition logs_path : string := join (join "." "Assets") "Logs".

(** What the run does to the outside, in order. *)
Inductive Event : Type :=
| EvServerSetup (file : string)
| EvDatasetLoaded (root_dir : string)
| EvModelBuilt (class : string)
| EvOptimizerCreated
| EvWriterOpened (log_dir : string)
| EvEpochStart (epoch : nat)
| EvOptimizerStep (epoch i : nat)
| EvProgress (epoch i : nat) (percent : Z) (loss : Q)
| EvEpochSummary (epoch : nat) (val_loss accuracy : Q)
| EvSavingModels (epoch : nat) (loss : Py.xfloat) (accuracy : Q)
| EvSaved (path : string)
| EvLoaded (path : string)
| EvTestSummary (loss accuracy : Q).

(** One [add_scalars(main_tag, {tag: value}, step)] entry. *)
Record Scalar : Type := {
  main_tag : string;
  tag : string;
  value : Q;
  global_step : Z
}.

(** The [best_model] dictionary; ["State_Dict"] holds references, and
    ["Loss"] is a float: it can be NaN. *)
Record Checkpoint : Type := {
  State_Dict : list (string * nat);
  Epoch : nat;
  Loss : Py.xfloat;
  Accuracy : Q
}.

(** Lines 122-123 of [train]: the dictionary is replaced when there is none
    yet or the validation loss is strictly below the recorded one, in the
    order of the floats. *)
Definition save_decision (best_model : option Checkpoint)
    (state_dict : list (string * nat)) (epoch : nat)
    (val_loss : Py.xfloat) (accuracy : Q) : option Checkpoint :=
  if match best_model with
     | None => true
     | Some b => Py.xlt val_loss (Loss b)
     end
  then Some {| State_Dict := state_dict; Epoch := epoch;
               Loss := val_loss; Accuracy := accuracy |}
  else best_model.

(** [best_model] after the epochs [first, first + 1, ...] have produced the
    given validation losses and accuracies. *)
Fixpoint best_after (state_dict : list (string * nat)) (first : nat)
    (observed : list (Py.xfloat * Q)) (best_model : option Checkpoint)
    : option Checkpoint :=
  match observed with
  | [] => best_model
  | (val_loss, accuracy) :: rest =>
      best_after state_dict (S first) rest
        (save_decision best_model state_dict first val_loss accuracy)
  end.

(** The accumulation [loss += batch_loss / len(loader)] over a loader. *)
Definition accumulate_loss (len_loader : nat) (batch_losses : list Q) : Q :=
  fold_left (fun loss l : Q => (loss + l / inject_Z (Z.of_nat len_loader))%Q)
            batch_losses 0%Q.


(** Sum of a list of numbers. *)
Definition Qsum (l : list Q) : Q := fold_right Qplus 0%Q l.

(** The names the branches of [_get_model] and [_get_dataset] accept. *)
Definition supported_model (model_name : string) : bool :=
  String.eqb (Py.lower model_name) "cnn"
  || String.eqb (Py.lower model_name) "effnet".
Definition supported_dataset (dataset : string) : bool :=
  String.eqb (Py.lower dataset) "demos"
  || String.eqb (Py.lower dataset) "demos_short_test".

(** Events that precede the loading of any data, and events that precede
    the construction of the model. *)
Definition before_data (ev : Event) : bool :=
  match ev with EvServerSetup _ => true | _ => false end.
Definition before_model (ev : Event) : bool :=
  match ev with EvServerSetup _ | EvDatasetLoaded _ => true | _ => false end.

Section Run.
(** Feature tensors, parameter tensors, and the optimizer's moments. *)
Context {X Tensor OptState : Type}.

(** The numerical parts, which belong to the libraries:
    the permutation [randperm] draws from a seeded generator and from the
    default generator in a given state; the initial parameters of a model
    class; [criterion(model(inputs), labels)] and the number of correct
    predictions for given parameter values; one Adam update. *)
Variable randperm_seeded : Z -> nat -> list nat.
Variable randperm_default : nat -> nat -> list nat.
Variable new_parameters : string -> nat -> list (string * Tensor).
Variable criterion_forward : list Tensor -> list (X * Z) -> Q.
Variable count_correct : list Tensor -> list (X * Z) -> Z.
Variable adam_init : OptState.
Variable adam_step :
  OptState -> list Tensor -> list (X * Z) -> OptState * list Tensor.

(** A dataset directory: its items and its class names. *)
Record WavEmotionDataset : Type := {
  wav_items : list (X * Z);
  wav_classes : list string
}.

(** A model object: its class and its named parameters, each a reference
    to a tensor of the store. *)
Record Model : Type := {
  model_class : string;
  parameters : list (string * nat)
}.

(** [model.state_dict()]: the same references, under the same names. *)
Definition state_dict (m : Model) : list (string * nat) := parameters m.

Record World : Type := {
  disk : gmap string WavEmotionDataset;
  store : gmap nat Tensor;
  next_loc : nat;
  adam : OptState;
  files : gmap string (list (string * Tensor));
  unwritable : gset string;
  scalars : list Scalar;
  trace : list Event;
  default_rng : nat
}.

(** Effectful code: a world transformer that returns a value or raises. *)
Definition M (A : Type) : Type := World -> World * Py.res A.

Definition retM {A} (a : A) : M A := fun w => (w, inr a).
Definition bindM {A B} (m : M A) (k : A -> M B) : M B :=
  fun w =>
    match m w with
    | (w', inl e) => (w', inl e)
    | (w', inr a) => k a w'
    end.
Definition lift {A} (r : Py.res A) : M A := fun w => (w, r).
Definition raiseM {A} (e : Py.exn) : M A := fun w => (w, inl e).

Notation "'let!' x ':=' m 'in' k" := (bindM m (fun x => k))
  (at level 10, x pattern, m at level 100, k at level 200).

Definition emit (ev : Event) : M unit :=
  fun w =>
    ({| disk := disk w; store := store w; next_loc := next_loc w;
        adam := adam w; files := files w;
        unwritable := unwritable w; scalars := scalars w;
        trace := trace w ++ [ev]; default_rng := default_rng w |}, inr tt).

Definition set_store (σ : gmap nat Tensor) (w : World) : World :=
  {| disk := disk w; store := σ; next_loc := next_loc w;
     adam := adam w; files := files w;
        unwritable := unwritable w; scalars := scalars w;
     trace := trace w; default_rng := default_rng w |}.

Definition set_adam (o : OptState) (w : World) : World :=
  {| disk := disk w; store := store w; next_loc := next_loc w;
     adam := o; files := files w;
        unwritable := unwritable w; scalars := scalars w;
     trace := trace w; default_rng := default_rng w |}.

(** Current values of referenced tensors, and writing values in place. *)
Definition read (σ : gmap nat Tensor) (refs : list (string * nat))
    : list Tensor :=
  omap (fun r => σ !! snd r) refs.
Definition write (refs : list (string * nat)) (values : list Tensor)
    (σ : gmap nat Tensor) : gmap nat Tensor :=
  foldr (fun rv σ => <[snd (fst rv) := snd rv]> σ) σ (zip refs values).

(** What [torch.save] writes for a dictionary of references: the values
    the tensors hold when it is called. *)
Definition serialize (σ : gmap nat Tensor) (refs : list (string * nat))
    : list (string * Tensor) :=
  omap (fun r => (fun v => (fst r, v)) <$> σ !! snd r) refs.

(** [torch.save(obj, path)]: a path that cannot be opened for writing (a
    missing directory, no permission, a full disk) is an [OSError], and
    nothing is written. *)
Definition torch_save (refs : list (string * nat)) (path : string) : M unit :=
  fun w =>
    if decide (path ∈ unwritable w) then (w, inl (Py.OSError path))
    else
      ({| disk := disk w; store := store w; next_loc := next_loc w;
          adam := adam w;
          files := <[path := serialize (store w) refs]> (files w);
          unwritable := unwritable w;
          scalars := scalars w; trace := trace w ++ [EvSaved path];
          default_rng := default_rng w |}, inr tt).

(** [model.load_state_dict(torch.load(path))] *)
Definition load_state_dict (m : Model) (path : string) : M unit :=
  fun w =>
    match files w !! path with
    | None => (w, inl (Py.FileNotFoundError path))
    | Some content =>
        if decide (map fst content = map fst (parameters m))
        then ({| disk := disk w;
                 store := write (parameters m) (map snd content) (store w);
                 next_loc := next_loc w; adam := adam w; files := files w;
                 unwritable := unwritable w;
                 scalars := scalars w; trace := trace w ++ [EvLoaded path];
                 default_rng := default_rng w |}, inr tt)
        else (w, inl (Py.RuntimeError "Error(s) in loading state_dict"))
    end.

(** [logs_writer.add_scalars(main_tag, {tag: value, ...}, step)] *)
Definition add_scalars (main : string) (values : list (string * Q))
    (step : Z) : M unit :=
  fun w =>
    ({| disk := disk w; store := store w; next_loc := next_loc w;
        adam := adam w; files := files w; unwritable := unwritable w;
        scalars := scalars w
                   ++ map (fun tv => {| main_tag := main; tag := fst tv;
                                        value := snd tv; global_step := step |})
                          values;
        trace := trace w; default_rng := default_rng w |}, inr tt).

(** [randperm(n, generator=generator)]: a generator seeded afresh, or the
    default generator, whose state advances. *)
Definition randperm (seed : option Z) (n : nat) : M (list nat) :=
  fun w =>
    match seed with
    | Some s => (w, inr (randperm_seeded s n))
    | None =>
        ({| disk := disk w; store := store w; next_loc := next_loc w;
            adam := adam w; files := files w;
        unwritable := unwritable w; scalars := scalars w;
            trace := trace w; default_rng := S (default_rng w) |},
         inr (randperm_default (default_rng w) n))
    end.

(** [WavEmotionDataset(root_dir=..., ...)] *)
Definition load_dataset (root_dir : string) : M WavEmotionDataset :=
  fun w =>
    match disk w !! root_dir with
    | None => (w, inl (Py.FileNotFoundError root_dir))
    | Some d => (fst (emit (EvDatasetLoaded root_dir) w), inr d)
    end.

(** [_get_dataset]: [None] when no branch matches. *)
Definition _get_dataset (dataset : string) : M (option WavEmotionDataset) :=
  if String.eqb (Py.lower dataset) "demos" then
    let! d := load_dataset (join data_path "DEMoS_dataset") in retM (Some d)
  else if String.eqb (Py.lower dataset) "demos_short_test" then
    let! d := load_dataset (join data_path "DEMoS_dataset_short_test") in
    retM (Some d)
  else retM None.

(** [_get_dataset_split]; [len(data)] of [None] is a [TypeError]. *)
Definition _get_dataset_split (data : option (Data.Dataset (X * Z)))
    (part : Data.Part) (split_size : Py.number) (seed : option Z)
    : M (Data.SplitResult (X * Z)) :=
  match data with
  | None => raiseM (Py.TypeError "object of type 'NoneType' has no len()")
  | Some data =>
      let! perm := randperm seed (Data.len data) in
      lift (Data._get_dataset_split perm data part split_size)
  end.

(** A model constructor: its parameters are allocated in the store. *)
Definition build (class : string) (num_classes : nat) : M Model :=
  fun w =>
    let ps := new_parameters class num_classes in
    let locs := seq (next_loc w) (length ps) in
    let refs := zip (map fst ps) locs in
    ({| disk := disk w; store := write refs (map snd ps) (store w);
        next_loc := next_loc w + length ps; adam := adam w;
        files := files w;
        unwritable := unwritable w; scalars := scalars w;
        trace := trace w ++ [EvModelBuilt class];
        default_rng := default_rng w |},
     inr {| model_class := class; parameters := refs |}).

(** [_get_model]: [None] when no branch matches. *)
Definition _get_model (model_name : string) (num_classes : nat)
    (model_arch : option string) : M (option Model) :=
  if String.eqb (Py.lower model_name) "cnn" then
    let! m := build "SpectrogramCNN" num_classes in retM (Some m)
  else if String.eqb (Py.lower model_name) "effnet" then
    let! m := build "EfficientNet" num_classes in retM (Some m)
  else retM None.

(** [model.to(device)] *)
Definition to_device (m : option Model) : M Model :=
  match m with
  | None => raiseM (Py.AttributeError "NoneType" "to")
  | Some m => retM m
  end.

(** [dataset.get_classes()] *)
Definition get_classes (d : option WavEmotionDataset) : M (list string) :=
  match d with
  | None => raiseM (Py.AttributeError "NoneType" "get_classes")
  | Some d => retM (wav_classes d)
  end.

(** [torch.optim.Adam(model.parameters())] *)
Definition Adam : M unit :=
  fun w => emit EvOptimizerCreated (set_adam adam_init w).

(** The items a dataset yields, in index order. *)
Definition items (d : Data.Dataset (X * Z)) : list (X * Z) :=
  omap (Data.getitem d) (seq 0 (Data.len d)).

Fixpoint chunks (fuel batch_size : nat) (l : list (X * Z))
    : list (list (X * Z)) :=
  match fuel, l with
  | S fuel', _ :: _ =>
      take batch_size l :: chunks fuel' batch_size (drop batch_size l)
  | _, _ => []
  end.

(** [DataLoader(dataset, batch_size=...)]: consecutive batches, the last
    one possibly shorter. *)
Definition DataLoader (d : Data.Dataset (X * Z)) (batch_size : Z)
    : Py.res (list (list (X * Z))) :=
  if (batch_size <=? 0)%Z
  then Py.raise (Py.ValueError "batch_size should be a positive integer value")
  else Py.ret (chunks (length (items d)) (Z.to_nat batch_size) (items d)).

(** Lines 86-95: forward pass, loss, backward pass and the in-place
    optimizer step; returns [loss.item()]. *)
Definition training_step (m : Model) (epoch i : nat) (batch : list (X * Z))
    : M Q :=
  fun w =>
    let values := read (store w) (parameters m) in
    let loss := criterion_forward values batch in
    let r := adam_step (adam w) values batch in
    let w' :=
      set_adam (fst r) (set_store (write (parameters m) (snd r) (store w)) w) in
    (fst (emit (EvOptimizerStep epoch i) w'), inr loss).

(** Lines 97-101: the progress message every [len(train_loader)//10]
    batches. *)
Definition report_progress (epoch i len_loader : nat) (loss : Q) : M unit :=
  let! every := lift (Py.floordiv (Z.of_nat len_loader) 10) in
  let! r := lift (Py.modulo (Z.of_nat i) every) in
  if (r =? 0)%Z then
    let! fraction :=
      lift (Py.truediv (inject_Z (Z.of_nat i)) (inject_Z (Z.of_nat len_loader))) in
    emit (EvProgress epoch i (Py.round (fraction * 100)%Q) loss)
  else retM tt.

(** Lines 83-102: the loop over the training batches, from batch [i] on. *)
Fixpoint train_batches (m : Model) (epoch len_loader i : nat)
    (batches : list (list (X * Z))) (train_loss : Q) : M Q :=
  match batches with
  | [] => retM train_loss
  | batch :: rest =>
      let! loss := training_step m epoch i batch in
      let! _ := report_progress epoch i len_loader loss in
      train_batches m epoch len_loader (S i) rest
        (train_loss + loss / inject_Z (Z.of_nat len_loader))%Q
  end.

(** Lines 105-115 of [train] and 189-200 of [test]: [total], [correct] and
    the accumulated loss over a loader, for fixed parameter values. *)
Definition evaluate (values : list Tensor) (loader : list (list (X * Z)))
    : Z * Z * Q :=
  fold_left
    (fun acc batch =>
       match acc with
       | (total, correct, loss) =>
           ((total + Z.of_nat (length batch))%Z,
            (correct + count_correct values batch)%Z,
            (loss + criterion_forward values batch
                    / inject_Z (Z.of_nat (length loader)))%Q)
       end)
    loader (0%Z, 0%Z, 0%Q).

(** Lines 76-119: one epoch; returns [val_loss] and [correct/total]. *)
Definition run_epoch (conf : Config) (train_dataset : Data.Dataset (X * Z))
    (m : Model) (epoch : nat) : M (Q * Q) :=
  let! _ := emit (EvEpochStart epoch) in
  let! sp := _get_dataset_split (Some train_dataset) Data.PartBoth
               (Py.Float (Py.float_literal (8 # 10))) None in
  match sp with
  | Data.Both train_split val_split =>
      let! train_loader := lift (DataLoader train_split (training_batches conf)) in
      let! val_loader := lift (DataLoader val_split (testing_batches conf)) in
      let! train_loss :=
        train_batches m epoch (length train_loader) 0 train_loader 0%Q in
      let! r := (fun w => (w, inr (evaluate (read (store w) (parameters m))
                                            val_loader))) in
      match r with
      | (total, correct, val_loss) =>
          let! _ := add_scalars "Loss" [("Train", train_loss);
                                        ("Validation", val_loss)]
                                (Z.of_nat epoch) in
          let! accuracy := lift (Py.truediv (inject_Z correct) (inject_Z total)) in
          let! _ := add_scalars "Accuracy" [("Validation", accuracy)]
                                (Z.of_nat epoch) in
          let! _ := emit (EvEpochSummary epoch val_loss accuracy) in
          retM (val_loss, accuracy)
      end
  | _ => raiseM (Py.TypeError "cannot unpack non-iterable object")
  end.

(** Lines 75-123: the loop over the epochs with the save decision; the
    body of an epoch returns its validation loss, a float, and its
    accuracy. *)
Fixpoint epochs_loop (body : nat -> M (Py.xfloat * Q)) (m : Model)
    (epochs : list nat) (best_model : option Checkpoint)
    : M (option Checkpoint) :=
  match epochs with
  | [] => retM best_model
  | epoch :: rest =>
      let! r := body epoch in
      epochs_loop body m rest
        (save_decision best_model (state_dict m) epoch (fst r) (snd r))
  end.

(** What the bodies of the epochs return, one epoch after the other. *)
Fixpoint epoch_results (body : nat -> M (Py.xfloat * Q)) (epochs : list nat)
    : M (list (Py.xfloat * Q)) :=
  match epochs with
  | [] => retM []
  | epoch :: rest =>
      let! r := body epoch in
      let! rs := epoch_results body rest in
      retM (r :: rs)
  end.

Definition best_model_path (conf : Config) : string :=
  join model_path (simulation_name conf +:+ "_best_model.pt").
Definition last_model_path (conf : Config) : string :=
  join model_path (simulation_name conf +:+ "_last_model_"
                   +:+ pretty (num_epoches conf) +:+ "epochs.pt").

(** Lines 126-130: the summary line and the two files. *)
Definition finalize (conf : Config) (m : Model)
    (best_model : option Checkpoint) : M unit :=
  match best_model with
  | None => raiseM (Py.TypeError "'NoneType' object is not subscriptable")
  | Some best =>
      let! _ := emit (EvSavingModels (Epoch best) (Loss best) (Accuracy best)) in
      let! _ := torch_save (State_Dict best) (best_model_path conf) in
      torch_save (state_dict m) (last_model_path conf)
  end.

(** Lines 55-72: dataset, train subset, model, optimizer, log writer. *)
Definition setup (conf : Config) : M (Data.Dataset (X * Z) * Model) :=
  let! _ := match server_config conf with
            | Some f => emit (EvServerSetup f)
            | None => retM tt
            end in
  let! dataset := _get_dataset (dataset conf) in
  let! sp := _get_dataset_split
               ((fun d => Data.Base (wav_items d)) <$> dataset) Data.PartTrain
               (train_test_split_size conf) (train_test_split_seed conf) in
  let! classes := get_classes dataset in
  let number_of_classes := length classes in
  let! model := _get_model (model conf) number_of_classes (model_arch conf) in
  let! model := to_device model in
  let! _ := Adam in
  let! _ := emit (EvWriterOpened
                    (join logs_path (simulation_name conf +:+ "_logs"))) in
  match sp with
  | Data.One train_dataset => retM (train_dataset, model)
  | _ => raiseM (Py.TypeError "object of type 'NoneType' has no len()")
  end.

(** [train(conf_file)], from the parsed configuration on. *)
Definition train (conf : Config) : M unit :=
  let! s := setup conf in
  let! best_model :=
    epochs_loop (fun epoch =>
                   let! r := run_epoch conf (fst s) (snd s) epoch in
                   retM (Py.Num (fst r), snd r))
                (snd s) (seq 0 (Z.to_nat (num_epoches conf))) None in
  finalize conf (snd s) best_model.

(** [test(conf_file)], from the parsed configuration on. *)
Definition test (conf : Config) : M unit :=
  let! _ := match server_config conf with
            | Some f => emit (EvServerSetup f)
            | None => retM tt
            end in
  let! dataset := _get_dataset (dataset conf) in
  let! sp := _get_dataset_split
               ((fun d => Data.Base (wav_items d)) <$> dataset) Data.PartTest
               (train_test_split_size conf) (train_test_split_seed conf) in
  match sp with
  | Data.One test_dataset =>
      let! _ := lift (DataLoader test_dataset (testing_batches conf)) in
      let! classes := get_classes dataset in
      let! model := _get_model (model conf) (length classes) (model_arch conf) in
      let! model := to_device model in
      let! _ := load_state_dict model (best_model_path conf) in
      let! _ := emit (EvWriterOpened
                        (join logs_path (simulation_name conf +:+ "_logs"))) in
      let! test_loader := lift (DataLoader test_dataset (testing_batches conf)) in
      let! r := (fun w => (w, inr (evaluate (read (store w) (parameters model))
                                            test_loader))) in
      match r with
      | (total, correct, loss) =>
          let! accuracy := lift (Py.truediv (inject_Z correct) (inject_Z total)) in
          let! _ := add_scalars "Accuracy" [("Test", accuracy)]
                                (num_epoches conf) in
          emit (EvTestSummary loss accuracy)
      end
  | _ => raiseM (Py.TypeError "object of type 'NoneType' has no len()")
  end.

(** The losses the training loop sees, batch after batch, from a given
    store and optimizer state on. *)
Fixpoint training_losses (m : Model) (σ : gmap nat Tensor) (o : OptState)
    (batches : list (list (X * Z))) : list Q :=
  match batches with
  | [] => []
  | batch :: rest =>
      let values := read σ (parameters m) in
      let r := adam_step o values batch in
      criterion_forward values batch
      :: training_losses m (write (parameters m) (snd r) σ) (fst r) rest
  end.

(** A world in which nothing has happened yet. *)
Definition initial_world (d : gmap string WavEmotionDataset) : World :=
  {| disk := d; store := ∅; next_loc := 0; adam := adam_init; files := ∅;
     unwritable := ∅; scalars := []; trace := []; default_rng := 0 |}.

End Run.

Arguments WavEmotionDataset : clear implicits.
Arguments World : clear implicits.
Arguments M : clear implicits.

End Train.

(* ################################################################# *)
(** * A small concrete instance, to run the entry points *)

Module Demo.

(** Features and parameters are integers; the only parameter, [weight],
    starts at 0 and every optimizer step adds 1 to it.  The loss of a batch
    is the mean over its samples of [weight + x]; a prediction counts as
    correct when the label is 0.  Both kinds of [randperm] return the
    identity permutation. *)
Definition randperm_seeded (_ : Z) (n : nat) : list nat := seq 0 n.
Definition randperm_default (_ : nat) (n : nat) : list nat := seq 0 n.
Definition new_parameters (_ : string) (_ : nat) : list (string * Z) :=
  [("weight", 0%Z)].
Definition criterion_forward (values : list Z) (batch : list (Z * Z)) : Q :=
  (inject_Z (Py.sum (map (fun it => (Py.sum values + fst it)%Z) batch))
   / inject_Z (Z.of_nat (length batch)))%Q.
Definition count_correct (values : list Z) (batch : list (Z * Z)) : Z :=
  Z.of_nat (length (filter (fun it => snd it = 0%Z) batch)).
Definition adam_step (o : unit) (values : list Z) (batch : list (Z * Z))
    : unit * list Z :=
  (o, map (Z.add 1) values).

Definition train : Train.Config -> Train.M Z Z unit unit :=
  Train.train randperm_seeded randperm_default new_parameters
    criterion_forward count_correct tt adam_step.
Definition test : Train.Config -> Train.M Z Z unit unit :=
  Train.test randperm_seeded randperm_default new_parameters
    criterion_forward count_correct.

(** [n] items with features [0 .. n-1] and labels alternating 0, 1. *)
Definition samples (n : nat) : list (Z * Z) :=
  map (fun i => (Z.of_nat i, Z.of_nat (i mod 2))) (seq 0 n).

Definition demos_root : string := Train.join Train.data_path "DEMoS_dataset".

(** A world whose only dataset directory holds [n] two-class items. *)
Definition world (n : nat) : Train.World Z Z unit :=
  Train.initial_world tt
    {[ demos_root := {| Train.wav_items := samples n;
                        Train.wav_classes := ["happy"; "sad"] |} ]}.


Definition conf (epochs : Z) (model_name : string) (batch_size : Z)
    : Train.Config :=
  {| Train.simulation_name := "sim";
     Train.num_epoches := epochs;
     Train.model := model_name;
     Train.model_arch := None;
     Train.dataset := "demos";
     Train.audio_size := 16000;
     Train.use_spectrogram := true;
     Train.train_test_split_size := Py.Float (Py.float_literal 1);
     Train.train_test_split_seed := Some 42%Z;
     Train.num_workers := 0;
     Train.training_batches := batch_size;
     Train.testing_batches := batch_size;
     Train.server_config := None |}.

(** The same configuration with half of the samples kept for testing. *)
Definition conf_half (epochs : Z) (batch_size : Z) : Train.Config :=
  {| Train.simulation_name := "sim";
     Train.num_epoches := epochs;
     Train.model := "cnn";
     Train.model_arch := None;
     Train.dataset := "demos";
     Train.audio_size := 16000;
     Train.use_spectrogram := true;
     Train.train_test_split_size := Py.Float (Py.float_literal (1 # 2));
     Train.train_test_split_seed := Some 42%Z;
     Train.num_workers := 0;
     Train.training_batches := batch_size;
     Train.testing_batches := batch_size;
     Train.server_config := None |}.

(** A model with its tensor at location 0, a world that holds it, and ten
    one-sample batches. *)
Definition model : @Train.Model :=
  {| Train.model_class := "SpectrogramCNN";
     Train.parameters := [("weight", 0%nat)] |}.
Definition world_with_model : Train.World Z Z unit :=
  Train.set_store {[ 0%nat := 0%Z ]} (world 0).
Definition ten_batches : list (list (Z * Z)) :=
  map (fun it => [it]) (samples 10).

(** A validation loader with batches of 2, 2 and 1 samples. *)
Definition uneven_loader : list (list (Z * Z)) :=
  [ [(19, 1); (20, 0)]; [(21, 1); (22, 0)]; [(23, 1)] ]%Z.

(** Epochs that end with the given validation losses, in order, and the
    accuracy 1/2, and touch nothing. *)
Definition epochs_with (losses : list Py.xfloat) (epoch : nat)
    : Train.M Z Z unit (Py.xfloat * Q) :=
  Train.retM (nth epoch losses Py.NaN, 1 # 2).

(** Events of a trace that are optimizer steps. *)
Definition is_step (ev : Train.Event) : bool :=
  match ev with Train.EvOptimizerStep _ _ => true | _ => false end.
Definition is_summary (ev : Train.Event) : bool :=
  match ev with Train.EvSavingModels _ _ _ => true | _ => false end.
Definition is_dataset_loaded (ev : Train.Event) : bool :=
  match ev with Train.EvDatasetLoaded _ => true | _ => false end.

End Demo.

(* ################################################################# *)
(** * The Lightning steps of [Wav2VecBase] *)

Module Steps.

(** The flag a [self.log] call passes. *)
Inductive When : Type := on_step | on_epoch.

Section Steps.
Context {Tensor : Type}.
Variable rows : Tensor -> list Tensor.

(** [cross_entropy(y_hat, y)], [torch.argmax(y_hat, dim=1)] and
    [accuracy(y_hat, y)] are the libraries'. *)
Variable cross_entropy :
  Forward.Value Tensor -> Forward.Value Tensor -> Py.res (Forward.Value Tensor).
Variable argmax : Forward.Value Tensor -> Py.res (Forward.Value Tensor).
Variable accuracy :
  Forward.Value Tensor -> Forward.Value Tensor -> Py.res (Forward.Value Tensor).

(** One [self.log(name, value, on_step=True)] or
    [self.log(name, value, on_epoch=True)] call. *)
Record Logged : Type := {
  log_name : string;
  log_value : Forward.Value Tensor;
  log_when : When
}.

(** The body the three steps share, with the names they log under and the
    flag they pass; [self(x)] is the [forward] of the class. *)
Definition step (loss_name acc_name : string) (when : When)
    (forward : Forward.Value Tensor -> Py.res (Forward.Value Tensor))
    (batch : Forward.Value Tensor) (log : list Logged)
    : list Logged * Py.res (Forward.Value Tensor) :=
  match Forward.unpack2 rows batch with
  | inl e => (log, inl e)
  | inr (x, y) =>
      match forward x with
      | inl e => (log, inl e)
      | inr y_hat =>
          match cross_entropy y_hat y with
          | inl e => (log, inl e)
          | inr loss =>
              let log := log ++ [{| log_name := loss_name; log_value := loss;
                                    log_when := when |}] in
              match argmax y_hat with
              | inl e => (log, inl e)
              | inr y_hat =>
                  match accuracy y_hat y with
                  | inl e => (log, inl e)
                  | inr acc =>
                      (log ++ [{| log_name := acc_name; log_value := acc;
                                  log_when := when |}],
                       inr loss)
                  end
              end
          end
      end
  end.

(** [Wav2VecBase.training_step] (the optimizer index is not used),
    [validation_step] and [test_step]. *)
Definition training_step forward batch (batch_idx optimizer_idx : Z) :=
  step "train_loss" "val_acc" on_step forward batch.
Definition validation_step forward batch (batch_idx : Z) :=
  step "val_loss" "val_acc" on_epoch forward batch.
Definition test_step forward batch (batch_idx : Z) :=
  step "test_loss" "test_acc" on_epoch forward batch.

End Steps.

Arguments Logged : clear implicits.

End Steps.

(* ################################################################# *)
(** * [scripts/utils.py] and the server set-up *)

Module Utils.

(** Exceptions of this part: the built-in ones, [KeyError], and a plain
    [Exception] with its message. *)
Inductive exn : Type :=
| Builtin (e : Py.exn)
| KeyError (key : string)
| Exception (msg : string).

Definition res (A : Type) : Type := (exn + A)%type.

(** The classes the two model factories build. *)
Inductive ModelObject : Type :=
| SpectrogramCNN
| EfficientNet (model_name : string)
| Wav2Vec (v : Modes.Variant).

(** [cfg.model] *)
Record ModelCfg : Type := {
  name : string;
  model_option : string;
  finetuning : bool;
  blocks : Z
}.

(** [get_model(cfg)]: falls off the end, returning [None], when no branch
    matches. *)
Definition get_model (cfg : ModelCfg) : option ModelObject :=
  if String.eqb (Py.lower (name cfg)) "cnn" then Some SpectrogramCNN
  else if String.eqb (Py.lower (name cfg)) "efficientnet" then
    Some (EfficientNet ("efficientnet-b" +:+ pretty (blocks cfg)))
  else if String.eqb (Py.lower (name cfg)) "wav2vec" then
    Wav2Vec <$> Forward.get_model_wav2vec (model_option cfg) (finetuning cfg)
  else None.

(** [get_model_from_checkpoint(cfg, checkpoint_path)]; [checkpoints] are
    the paths that hold a checkpoint.  The last branch raises a tuple, which
    is a [TypeError]. *)
Definition get_model_from_checkpoint (checkpoints : gset string)
    (cfg : ModelCfg) (checkpoint_path : string)
    : Py.res (option ModelObject) :=
  let load_from_checkpoint (class : ModelObject) :=
    if decide (checkpoint_path ∈ checkpoints) then Py.ret (Some class)
    else Py.raise (Py.FileNotFoundError checkpoint_path) in
  if String.eqb (Py.lower (name cfg)) "cnn" then
    load_from_checkpoint SpectrogramCNN
  else if String.eqb (Py.lower (name cfg)) "wav2vec" then
    match Forward.get_model_wav2vec (model_option cfg) (finetuning cfg) with
    | Some v => load_from_checkpoint (Wav2Vec v)
    | None => Py.ret None
    end
  else Py.raise (Py.TypeError "exceptions must derive from BaseException").

(** [cfg.dataset] *)
Record DatasetCfg : Type := {
  dataset_name : string;
  dir : string;
  split_size : Py.number;
  split_seed : option Z
}.

Inductive DatasetClass : Type := DEMoSDataset | RAVDESSDataset.

Section GetDataset.
Context {Item : Type}.

(** What [get_dataset] returns: the dataset object, or what the split
    gives for the requested part. *)
Inductive Returned : Type :=
| Whole (class : DatasetClass) (dataset : Data.Dataset Item)
| Part (r : Data.SplitResult Item).

(** The dataset directories, and the permutation [randperm] returns for
    the generator built from a seed. *)
Variable disk : gmap string (list Item).
Variable randperm : option Z -> nat -> list nat.

(** A dataset class constructor on [root_dir]. *)
Definition load (class : DatasetClass) (root_dir : string)
    : res (DatasetClass * Data.Dataset Item) :=
  match disk !! root_dir with
  | Some items => inr (class, Data.Base items)
  | None => inl (Builtin (Py.FileNotFoundError root_dir))
  end.

(** [get_dataset(cfg, data_path, split, part)] *)
Definition get_dataset (cfg : DatasetCfg) (data_path : string)
    (split : bool) (part : Data.Part) : res Returned :=
  match
    (if String.eqb (Py.lower (dataset_name cfg)) "demos"
        || String.eqb (Py.lower (dataset_name cfg)) "demos_test"
     then load DEMoSDataset (Train.join data_path (dir cfg))
     else if String.eqb (Py.lower (dataset_name cfg)) "ravdess"
     then load RAVDESSDataset (Train.join data_path (dir cfg))
     else inl (Exception "Requested dataset, doesn't exist yet"))
  with
  | inl e => inl e
  | inr (class, dataset) =>
      if negb split then inr (Whole class dataset)
      else
        match Data.split_dataset
                (randperm (split_seed cfg) (Data.len dataset))
                dataset (split_size cfg) with
        | inl e => inl (Builtin e)
        | inr (train_dataset, test_dataset) =>
            match part with
            | Data.PartBoth => inr (Part (Data.Both train_dataset test_dataset))
            | Data.PartTest => inr (Part (Data.One test_dataset))
            | Data.PartTrain => inr (Part (Data.One train_dataset))
            | Data.PartOther => inr (Part Data.NoneResult)
            end
        end
  end.

End GetDataset.

(** A configuration value: [cfg.machine.gpu], or a value of the JSON
    server file. *)
Inductive Value : Type :=
| VFalse
| VTrue
| VNone
| VInt (z : Z)
| VStr (s : string).

(** [str(v)] *)
Definition str (v : Value) : string :=
  match v with
  | VFalse => "False"
  | VTrue => "True"
  | VNone => "None"
  | VInt z => pretty z
  | VStr s => s
  end.

(** [os.environ] *)
Abbreviation Environ := (gmap string string).

Definition CUDA_DEVICE_ORDER : string := "CUDA_DEVICE_ORDER".
Definition CUDA_VISIBLE_DEVICES : string := "CUDA_VISIBLE_DEVICES".

(** [server_setup(cfg)], on [cfg.machine.gpu]: the test is
    [is not False]. *)
Definition server_setup (gpu : Value) (environ : Environ) : Environ :=
  match gpu with
  | VFalse => environ
  | _ => <[CUDA_VISIBLE_DEVICES := str gpu]>
           (<[CUDA_DEVICE_ORDER := "PCI_BUS_ID"]> environ)
  end.

(** [type(v).__name__] *)
Definition type_name (v : Value) : string :=
  match v with
  | VFalse | VTrue => "bool"
  | VNone => "NoneType"
  | VInt _ => "int"
  | VStr _ => "str"
  end.

(** [os.environ[key] = value]: only strings are accepted. *)
Definition environ_setitem (environ : Environ) (key : string) (value : Value)
    : res Environ :=
  match value with
  | VStr s => inr (<[key := s]> environ)
  | _ => inl (Builtin (Py.TypeError ("str expected, not " +:+ type_name value)))
  end.

Definition conf_path : string := Train.join (Train.join "." "Assets") "Configs".

(** [train_test._server_setup(server_config_file)]; [configs] are the
    JSON objects of the configuration directory. *)
Definition _server_setup (configs : gmap string (gmap string Value))
    (server_config_file : string) (environ : Environ) : Environ * res unit :=
  match configs !! Train.join conf_path server_config_file with
  | None =>
      (environ,
       inl (Builtin (Py.FileNotFoundError
                       (Train.join conf_path server_config_file))))
  | Some conf =>
      match conf !! CUDA_DEVICE_ORDER with
      | None => (environ, inl (KeyError CUDA_DEVICE_ORDER))
      | Some order =>
          match environ_setitem environ CUDA_DEVICE_ORDER order with
          | inl e => (environ, inl e)
          | inr environ =>
              match conf !! CUDA_VISIBLE_DEVICES with
              | None => (environ, inl (KeyError CUDA_VISIBLE_DEVICES))
              | Some visible =>
                  match environ_setitem environ CUDA_VISIBLE_DEVICES visible with
                  | inl e => (environ, inl e)
                  | inr environ => (environ, inr tt)
                  end
              end
          end
      end
  end.

End Utils.

(* ################################################################# *)
(** * Theorems *)

(** ** Python arithmetic *)

Lemma round_bounds (x : Q) (n : Z) :
  (0 <= x)%Q -> (x <= inject_Z n)%Q -> (0 <= Py.round x <= n)%Z.
Proof.
  intros H0 Hn. unfold Py.round.
  assert (Hf0 : (0 <= Qfloor x)%Z).
  { rewrite <- (Qfloor_Z 0). apply Qfloor_resp_le. exact H0. }
  assert (Hfn : (Qfloor x <= n)%Z).
  { rewrite <- (Qfloor_Z n). apply Qfloor_resp_le. exact Hn. }
  pose proof (Qfloor_le x) as Hle.
  destruct (Qcompare_spec (x - inject_Z (Qfloor x)) (1 # 2)) as [He|Hl|Hg].
  - assert (Hlt : (Qfloor x < n)%Z).
    { apply Z.le_neq. split; [exact Hfn|]. intros Heq.
      rewrite Heq in He. lra. }
    destruct (Z.even (Qfloor x)); lia.
  - lia.
  - assert (Hlt : (Qfloor x < n)%Z).
    { apply Z.le_neq. split; [exact Hfn|]. intros Heq.
      rewrite Heq in Hg. lra. }
    lia.
Qed.

(** ** Float products below [2^53] *)

Section FloatFacts.
Local Open Scope Z_scope.

(** The number of binary digits of a positive integer below [2^j]. *)
Lemma digits2_pos_le (p : positive) (j : Z) :
  0 <= j -> Zpos p < 2 ^ j -> Zpos (digits2_pos p) <= j.
Proof.
  revert j. induction p as [p IH|p IH|]; intros j Hj Hp; cbn [digits2_pos].
  - assert (1 <= j).
    { destruct (Z.eq_dec j 0) as [->|]; [cbn in Hp; lia|lia]. }
    assert (Zpos p < 2 ^ (j - 1)).
    { replace j with (Z.succ (j - 1)) in Hp by lia.
      rewrite Z.pow_succ_r in Hp by lia. lia. }
    specialize (IH (j - 1)). lia.
  - assert (1 <= j).
    { destruct (Z.eq_dec j 0) as [->|]; [cbn in Hp; lia|lia]. }
    assert (Zpos p < 2 ^ (j - 1)).
    { replace j with (Z.succ (j - 1)) in Hp by lia.
      rewrite Z.pow_succ_r in Hp by lia. lia. }
    specialize (IH (j - 1)). lia.
  - destruct (Z.eq_dec j 0) as [->|]; [cbn in Hp; lia|lia].
Qed.

Lemma Zdigits2_le (m j : Z) :
  0 <= m -> 0 <= j -> m < 2 ^ j -> Zdigits2 m <= j.
Proof.
  intros Hm Hj H. destruct m as [|p|p]; cbn [Zdigits2]; [lia| |lia].
  apply digits2_pos_le; assumption.
Qed.

(** One right shift halves the mantissa; it stays exact on an even one. *)
Lemma shr_1_spec (mrs : shr_record) :
  0 <= shr_m mrs ->
  shr_m (shr_1 mrs) = shr_m mrs / 2 /\
  (loc_of_shr_record mrs = loc_Exact -> shr_m mrs mod 2 = 0 ->
   loc_of_shr_record (shr_1 mrs) = loc_Exact).
Proof.
  destruct mrs as [m r s]. cbn [shr_m]. intros Hm.
  destruct m as [|[p|p|]|p]; cbn [shr_1 shr_m]; try lia.
  - split; [reflexivity|]. destruct r, s; cbn; try discriminate; reflexivity.
  - split.
    + rewrite Pos2Z.inj_xI.
      apply (Z.div_unique _ _ _ 1); lia.
    + intros _ H. rewrite Pos2Z.inj_xI in H.
      rewrite Z.add_comm, Z.mul_comm, Z.mod_add in H by lia.
      discriminate H.
  - split.
    + rewrite Pos2Z.inj_xO.
      apply (Z.div_unique _ _ _ 0); lia.
    + destruct r, s; cbn; try discriminate; reflexivity.
  - split; [reflexivity|]. intros _ H. discriminate H.
Qed.

Lemma mod_mul_zero (m a b : Z) :
  0 < a -> 0 < b -> m mod (a * b) = 0 ->
  m mod a = 0 /\ (m / a) mod b = 0.
Proof.
  intros Ha Hb H. rewrite Z.rem_mul_r in H by lia.
  pose proof (Z.mod_pos_bound m a Ha).
  pose proof (Z.mod_pos_bound (m / a) b Hb). nia.
Qed.

(** [n] right shifts divide the mantissa by [2^n], and stay exact when the
    division is. *)
Lemma iter_shr_1_spec (n : positive) (mrs : shr_record) :
  0 <= shr_m mrs ->
  shr_m (SpecFloat.iter_pos shr_1 n mrs) = shr_m mrs / 2 ^ Zpos n /\
  (loc_of_shr_record mrs = loc_Exact -> shr_m mrs mod 2 ^ Zpos n = 0 ->
   loc_of_shr_record (SpecFloat.iter_pos shr_1 n mrs) = loc_Exact).
Proof.
  revert mrs. induction n as [n IH|n IH|]; intros mrs Hm; cbn [SpecFloat.iter_pos].
  - destruct (shr_1_spec mrs Hm) as [H1 E1].
    assert (Hm1 : 0 <= shr_m (shr_1 mrs)) by (rewrite H1; apply Z.div_pos; lia).
    destruct (IH _ Hm1) as [H2 E2].
    assert (Hm2 : 0 <= shr_m (SpecFloat.iter_pos shr_1 n (shr_1 mrs))).
    { rewrite H2. apply Z.div_pos; [lia|]. apply Z.pow_pos_nonneg; lia. }
    destruct (IH _ Hm2) as [H3 E3].
    assert (Hpow : 2 ^ Zpos n~1 = 2 * (2 ^ Zpos n * 2 ^ Zpos n)).
    { assert (Zpos n~1 = 1 + (Zpos n + Zpos n)) as -> by lia.
      rewrite !Z.pow_add_r, Z.pow_1_r by lia. reflexivity. }
    assert (Hp : 0 < 2 ^ Zpos n) by (apply Z.pow_pos_nonneg; lia).
    split.
    + rewrite H3, H2, H1, Hpow, !Zdiv_Zdiv by lia. reflexivity.
    + intros Hex Hmod. rewrite Hpow in Hmod.
      apply mod_mul_zero in Hmod; [|lia|lia]. destruct Hmod as [Ha Hb].
      apply mod_mul_zero in Hb; [|lia|lia]. destruct Hb as [Hb Hc].
      apply E3.
      * apply E2; [apply E1; assumption|]. rewrite H1. exact Hb.
      * rewrite H2, H1. exact Hc.
  - destruct (IH _ Hm) as [H2 E2].
    assert (Hm2 : 0 <= shr_m (SpecFloat.iter_pos shr_1 n mrs)).
    { rewrite H2. apply Z.div_pos; [lia|]. apply Z.pow_pos_nonneg; lia. }
    destruct (IH _ Hm2) as [H3 E3].
    assert (Hpow : 2 ^ Zpos n~0 = 2 ^ Zpos n * 2 ^ Zpos n).
    { assert (Zpos n~0 = Zpos n + Zpos n) as -> by lia.
      rewrite Z.pow_add_r by lia. reflexivity. }
    assert (Hp : 0 < 2 ^ Zpos n) by (apply Z.pow_pos_nonneg; lia).
    split.
    + rewrite H3, H2, Hpow, !Zdiv_Zdiv by lia. reflexivity.
    + intros Hex Hmod. rewrite Hpow in Hmod.
      apply mod_mul_zero in Hmod; [|lia|lia]. destruct Hmod as [Ha Hb].
      apply E3; [apply E2; assumption|]. rewrite H2. exact Hb.
  - change (2 ^ 1) with 2. apply shr_1_spec. exact Hm.
Qed.

(** The shift that brings a mantissa to the format's exponent, for a value
    [m * 2^e] that is at most an integer [N] below [2^53]. *)
Lemma shr_fexp_spec (m e N : Z) :
  0 <= m -> e <= 0 -> 0 <= N < 2 ^ 53 -> m <= N * 2 ^ (- e) ->
  exists n,
    0 <= n /\ e + n <= 0 /\
    snd (shr_fexp 53 1024 m e loc_Exact) = e + n /\
    shr_m (fst (shr_fexp 53 1024 m e loc_Exact)) = m / 2 ^ n /\
    (m mod 2 ^ n = 0 ->
     loc_of_shr_record (fst (shr_fexp 53 1024 m e loc_Exact)) = loc_Exact).
Proof.
  intros Hm He HN Hle.
  assert (Hdig : Zdigits2 m <= 53 - e).
  { apply Zdigits2_le; [lia|lia|].
    replace (53 - e) with (53 + - e) by lia. rewrite Z.pow_add_r by lia.
    assert (0 < 2 ^ (- e)) by (apply Z.pow_pos_nonneg; lia). nia. }
  unfold shr_fexp, shr, fexp, emin. cbn [shr_record_of_loc].
  destruct (Z.max (Zdigits2 m + e - 53) (3 - 1024 - 53) - e) as [|p|p] eqn:Hn.
  - exists 0. cbn [fst snd shr_m loc_of_shr_record].
    rewrite Z.pow_0_r, Z.div_1_r. repeat split; try lia.
  - exists (Zpos p). cbn [fst snd].
    destruct (iter_shr_1_spec p {| shr_m := m; shr_r := false; shr_s := false |})
      as [Hdiv Hex]; [exact Hm|]. cbn [shr_m] in Hdiv, Hex.
    split; [lia|]. split; [lia|]. split; [reflexivity|].
    split; [exact Hdiv|].
    intros Hmod. apply Hex; [reflexivity|exact Hmod].
  - exists 0. cbn [fst snd shr_m loc_of_shr_record].
    rewrite Z.pow_0_r, Z.div_1_r. repeat split; try lia.
Qed.

(** Rounding to nearest of a value that is at most such an [N] gives a
    non-negative float that is at most [N]: [N] is a float itself. *)
Lemma binary_round_aux_at_most (P : positive) (E N : Z) :
  E <= 0 -> 0 <= N < 2 ^ 53 -> Zpos P <= N * 2 ^ (- E) ->
  Py.at_most N (binary_round_aux 53 1024 false (Zpos P) E loc_Exact).
Proof.
  intros HE HN HP. unfold binary_round_aux.
  destruct (shr_fexp_spec (Zpos P) E N) as (n1 & Hn1 & He1 & Hs1 & Hm1 & Hx1);
    [lia|exact HE|exact HN|exact HP|].
  destruct (shr_fexp 53 1024 (Zpos P) E loc_Exact) as [mrs1 e1].
  cbn [fst snd] in Hs1, Hm1, Hx1. subst e1.
  set (K := N * 2 ^ (- (E + n1))).
  assert (Hp1 : 0 < 2 ^ n1) by (apply Z.pow_pos_nonneg; lia).
  assert (HK : N * 2 ^ (- E) = K * 2 ^ n1).
  { unfold K. rewrite <- Z.mul_assoc, <- Z.pow_add_r by lia.
    f_equal. f_equal. lia. }
  assert (Hm1' : 0 <= shr_m mrs1 <= K).
  { rewrite Hm1. split; [apply Z.div_pos; lia|].
    apply Z.div_le_upper_bound; lia. }
  assert (Hup : loc_of_shr_record mrs1 <> loc_Exact -> shr_m mrs1 < K).
  { intros Hloc.
    assert (Hmod : Zpos P mod 2 ^ n1 <> 0) by (intros H; apply Hloc, Hx1, H).
    pose proof (Z.div_mod (Zpos P) (2 ^ n1)) as Hdm.
    pose proof (Z.mod_pos_bound (Zpos P) (2 ^ n1) Hp1) as Hb.
    rewrite <- Hm1 in Hdm. nia. }
  assert (Hr : 0 <= round_nearest_even (shr_m mrs1) (loc_of_shr_record mrs1)
               <= K).
  { unfold round_nearest_even.
    destruct (loc_of_shr_record mrs1) as [|[| |]]; try lia.
    - destruct (Z.even (shr_m mrs1)); [lia|].
      assert (shr_m mrs1 < K) by (apply Hup; discriminate). lia.
    - assert (shr_m mrs1 < K) by (apply Hup; discriminate). lia. }
  set (m2 := round_nearest_even (shr_m mrs1) (loc_of_shr_record mrs1)) in *.
  destruct (shr_fexp_spec m2 (E + n1) N) as (n2 & Hn2 & He2 & Hs2 & Hm2 & _);
    [lia|exact He1|exact HN|exact (proj2 Hr)|].
  destruct (shr_fexp 53 1024 m2 (E + n1) loc_Exact) as [mrs2 e2].
  cbn [fst snd] in Hs2, Hm2. subst e2.
  assert (Hp2 : 0 < 2 ^ n2) by (apply Z.pow_pos_nonneg; lia).
  assert (HK2 : K = N * 2 ^ (- (E + n1 + n2)) * 2 ^ n2).
  { unfold K. rewrite <- Z.mul_assoc, <- Z.pow_add_r by lia.
    f_equal. f_equal. lia. }
  assert (Hm2' : 0 <= shr_m mrs2 <= N * 2 ^ (- (E + n1 + n2))).
  { rewrite Hm2. split; [apply Z.div_pos; lia|].
    apply Z.div_le_upper_bound; lia. }
  destruct (shr_m mrs2) as [|m|m]; cbn [Py.at_most]; [exact I| |lia].
  assert (Hleb : (E + n1 + n2 <=? 1024 - 53) = true) by (apply Z.leb_le; lia).
  rewrite Hleb. cbn [Py.at_most]. split; [reflexivity|]. split; [lia|lia].
Qed.

Lemma iter_xO_pow (n d : positive) :
  Zpos (Pos.iter xO n d) = Zpos n * 2 ^ Zpos d.
Proof.
  rewrite (Pos.iter_swap_gen _ _ Zpos xO (Z.mul 2)) by reflexivity.
  rewrite <- Z.shiftl_mul_pow2 by lia. reflexivity.
Qed.

(** [float(N)] for [0 <= N < 2^53]. *)
Lemma float_of_int_at_most (N : Z) :
  0 <= N < 2 ^ 53 ->
  exists x, Py.float_of_int N = inr x /\ Py.at_most N x.
Proof.
  intros HN. unfold Py.float_of_int, binary_normalize.
  destruct N as [|n|n]; [eexists; split; reflexivity| |lia].
  assert (Hx : Py.at_most (Zpos n) (binary_round 53 1024 false n 0)).
  { unfold binary_round, shl_align.
    destruct (fexp 53 1024 (Zpos (digits2_pos n) + 0) - 0) as [|d|d] eqn:Hd.
    - apply binary_round_aux_at_most; [lia|exact HN|].
      change (2 ^ (- 0)) with 1. lia.
    - apply binary_round_aux_at_most; [lia|exact HN|].
      change (2 ^ (- 0)) with 1. lia.
    - assert (Hf : fexp 53 1024 (Zpos (digits2_pos n) + 0) = Zneg d) by lia.
      rewrite Hf. apply binary_round_aux_at_most; [lia|exact HN|].
      rewrite iter_xO_pow. change (- Zneg d) with (Zpos d).
      apply Z.le_refl. }
  destruct (binary_round 53 1024 false n 0) as [s|s| |s m e];
    cbn [Py.at_most] in Hx; try contradiction.
  - eexists; split; [reflexivity|exact Hx].
  - eexists; split; [reflexivity|exact Hx].
Qed.

Lemma in_unit_float (y : Py.float) :
  Py.in_unit (Py.Float y) = true -> Py.at_most 1 y.
Proof.
  unfold Py.in_unit, Py.float_value.
  destruct y as [s|s| |s m e]; cbn [Py.at_most]; try discriminate; [auto|].
  intros H. apply andb_true_iff in H. destruct H as [H0 H1].
  apply Qle_bool_iff in H0, H1.
  destruct s.
  - exfalso. destruct e as [|k|k]; unfold Qle in H0; cbn in H0; lia.
  - split; [reflexivity|]. destruct e as [|k|k].
    + unfold Qle in H1. cbn in H1. split; [lia|]. cbn. lia.
    + exfalso. unfold Qle in H1. cbn [Qnum Qden inject_Z] in H1.
      assert (2 <= 2 ^ Zpos k).
      { change 2 with (2 ^ 1) at 1. apply Z.pow_le_mono_r; lia. }
      nia.
    + unfold Qle in H1. cbn [Qnum Qden] in H1.
      rewrite Pos2Z.inj_pow in H1. split; [lia|].
      change (- Zneg k) with (Zpos k). lia.
Qed.

Lemma fmul_at_most (N : Z) (x y : Py.float) :
  0 <= N < 2 ^ 53 -> Py.at_most N x -> Py.at_most 1 y ->
  Py.at_most N (Py.fmul x y).
Proof.
  intros HN Hx Hy. unfold Py.fmul, SFmul.
  destruct x as [sx|sx| |sx mx ex], y as [sy|sy| |sy my ey];
    cbn [Py.at_most] in *; try contradiction; try exact I.
  destruct Hx as (-> & Hex & Hmx), Hy as (-> & Hey & Hmy).
  cbn [xorb]. apply binary_round_aux_at_most; [lia|exact HN|].
  replace (- (ex + ey)) with (- ex + - ey) by lia.
  rewrite Z.pow_add_r, Pos2Z.inj_mul by lia.
  assert (0 < 2 ^ (- ex)) by (apply Z.pow_pos_nonneg; lia).
  assert (0 < 2 ^ (- ey)) by (apply Z.pow_pos_nonneg; lia).
  nia.
Qed.

Lemma round_float_at_most (N : Z) (x : Py.float) :
  0 <= N -> Py.at_most N x ->
  exists a, Py.round_float x = inr a /\ 0 <= a <= N.
Proof.
  intros HN Hx. destruct x as [s|s| |s m e]; cbn [Py.at_most] in Hx;
    try contradiction.
  - exists 0. split; [reflexivity|lia].
  - destruct Hx as (-> & He & Hm). unfold Py.round_float, Py.float_value.
    eexists. split; [reflexivity|]. apply round_bounds.
    + destruct e as [|k|k]; unfold Qle; cbn; lia.
    + destruct e as [|k|k]; unfold Qle; cbn [Qnum Qden inject_Z].
      * change (2 ^ (- 0)) with 1 in Hm. change (2 ^ 0) with 1. lia.
      * lia.
      * change (- Zneg k) with (Zpos k) in Hm.
        rewrite Pos2Z.inj_pow. lia.
Qed.

End FloatFacts.

Lemma slice_prefix {A} (l : list A) (a : Z) :
  (0 <= a <= Z.of_nat (length l))%Z ->
  Py.slice l 0 a = take (Z.to_nat a) l.
Proof.
  intros Ha. unfold Py.slice, Py.slice_bound.
  destruct (0 <? 0)%Z eqn:E0; [lia|].
  destruct (a <? 0)%Z eqn:Ea; [lia|].
  rewrite Z.min_l by lia. rewrite Z.min_l by lia.
  rewrite Z.sub_0_r. reflexivity.
Qed.

Lemma slice_suffix {A} (l : list A) (a : Z) :
  (0 <= a <= Z.of_nat (length l))%Z ->
  Py.slice l a (Z.of_nat (length l)) = drop (Z.to_nat a) l.
Proof.
  intros Ha. unfold Py.slice, Py.slice_bound.
  destruct (a <? 0)%Z eqn:Ea; [lia|].
  destruct (Z.of_nat (length l) <? 0)%Z eqn:El; [lia|].
  rewrite Z.min_l by lia. rewrite Z.min_l by lia.
  apply take_ge. rewrite length_drop. lia.
Qed.

(** ** Split engine *)

Lemma slice_partition {A} (l : list A) (a : Z) :
  Py.slice l 0 a ++ Py.slice l a (Z.of_nat (length l)) = l.
Proof.
  unfold Py.slice, Py.slice_bound.
  change (0 <? 0)%Z with false. cbv iota.
  destruct (Z.of_nat (length l) <? 0)%Z eqn:El; [apply Z.ltb_lt in El; lia|].
  rewrite (Z.min_l 0) by lia. rewrite Z.min_id.
  set (k := if (a <? 0)%Z then Z.max 0 (a + Z.of_nat (length l))
            else Z.min a (Z.of_nat (length l))).
  assert (Hk : (0 <= k <= Z.of_nat (length l))%Z).
  { subst k. destruct (a <? 0)%Z eqn:Ea.
    - apply Z.ltb_lt in Ea. lia.
    - apply Z.ltb_ge in Ea. lia. }
  rewrite Z.sub_0_r. cbn [Z.to_nat drop].
  rewrite (take_ge (drop (Z.to_nat k) l)) by (rewrite length_drop; lia).
  apply take_drop.
Qed.

Section SplitFacts.
Context {Item : Type}.
Implicit Types (d : Data.Dataset Item) (f : Py.number) (perm : list nat).

Lemma split_lengths_point d f a :
  Data.split_point d f = inr a ->
  Data.split_lengths d f = inr [a; (Z.of_nat (Data.len d) - a)%Z].
Proof. intros H. unfold Data.split_lengths. rewrite H. reflexivity. Qed.

Lemma split_lengths_inv d f lengths :
  Data.split_lengths d f = inr lengths ->
  exists a, Data.split_point d f = inr a /\
            lengths = [a; (Z.of_nat (Data.len d) - a)%Z].
Proof.
  unfold Data.split_lengths.
  destruct (Data.split_point d f) as [e|a]; [discriminate|].
  intros [= <-]. exists a. split; reflexivity.
Qed.

(** A dataset of one item has lengths that sum to 1, which are read as
    fractions: a split point other than 0 and 1 is refused. *)
Lemma fraction_lengths_unit (a : Z) :
  Data.fraction_lengths 1 [a; (1 - a)%Z]
  = if ((a <? 0) || (1 <? a))%Z
    then inl (Py.ValueError "Fraction at index 0 is not between 0 and 1")
    else inr [a; (1 - a)%Z].
Proof.
  unfold Data.fraction_lengths.
  destruct ((a <? 0) || (1 <? a))%Z eqn:E.
  - cbn [list_find]. rewrite decide_True; [reflexivity|].
    apply orb_true_iff in E. destruct E as [E|E]; apply Z.ltb_lt in E; lia.
  - apply orb_false_iff in E. destruct E as [E0 E1].
    apply Z.ltb_ge in E0. apply Z.ltb_ge in E1.
    assert (Ha : a = 0%Z \/ a = 1%Z) by lia.
    destruct Ha as [-> | ->]; reflexivity.
Qed.

(** What [random_split] returns for the two lengths of a split point
    [a]: the slices [perm[0:a]] and [perm[a:N]], whatever [a] is, unless the
    lengths are read as fractions and refused. *)
Lemma random_split_pair perm d (a : Z) :
  length perm = Data.len d ->
  Data.random_split perm d [a; (Z.of_nat (Data.len d) - a)%Z]
  = if ((Z.of_nat (Data.len d) =? 1) && ((a <? 0) || (1 <? a)))%Z
    then inl (Py.ValueError "Fraction at index 0 is not between 0 and 1")
    else inr [ Data.Subset d (Py.slice perm 0 a);
               Data.Subset d (Py.slice perm a (Z.of_nat (length perm))) ].
Proof.
  intros Hperm. unfold Data.random_split.
  assert (Hsum : Py.sum [a; (Z.of_nat (Data.len d) - a)%Z]
                 = Z.of_nat (Data.len d)).
  { unfold Py.sum. cbn [foldr]. lia. }
  assert (Hzip : zip_with
                   (fun offset length =>
                      Data.Subset d (Py.slice perm (offset - length) offset))
                   (Py.accumulate [a; (Z.of_nat (Data.len d) - a)%Z])
                   [a; (Z.of_nat (Data.len d) - a)%Z]
                 = [ Data.Subset d (Py.slice perm 0 a);
                     Data.Subset d (Py.slice perm a (Z.of_nat (length perm))) ]).
  { cbn [Py.accumulate Py.accumulate_from zip_with].
    replace (0 + a - a)%Z with 0%Z by lia.
    replace (0 + a + (Z.of_nat (Data.len d) - a)
             - (Z.of_nat (Data.len d) - a))%Z with a by lia.
    replace (0 + a + (Z.of_nat (Data.len d) - a))%Z
      with (Z.of_nat (length perm)) by lia.
    rewrite Z.add_0_l. reflexivity. }
  rewrite Hsum.
  destruct (Z.of_nat (Data.len d) =? 1)%Z eqn:E1.
  - apply Z.eqb_eq in E1. rewrite E1 in *.
    rewrite fraction_lengths_unit. cbn [andb].
    destruct ((a <? 0) || (1 <? a))%Z; [reflexivity|].
    cbv beta iota. rewrite Hsum. cbn [Z.eqb Pos.eqb negb].
    rewrite Hzip. reflexivity.
  - cbn [andb]. unfold Py.ret at 1. rewrite Hsum, Z.eqb_refl. cbn [negb].
    rewrite Hzip. reflexivity.
Qed.

Lemma split_dataset_point perm d f a :
  length perm = Data.len d -> Data.split_point d f = inr a ->
  Data.split_dataset perm d f
  = (if ((Z.of_nat (Data.len d) =? 1) && ((a <? 0) || (1 <? a)))%Z
     then inl (Py.ValueError "Fraction at index 0 is not between 0 and 1")
     else inr (Data.Subset d (Py.slice perm 0 a),
               Data.Subset d (Py.slice perm a (Z.of_nat (length perm))))) /\
  forall part,
    Data._get_dataset_split perm d part f
    = if ((Z.of_nat (Data.len d) =? 1) && ((a <? 0) || (1 <? a)))%Z
      then inl (Py.ValueError "Fraction at index 0 is not between 0 and 1")
      else inr (match part with
                | Data.PartBoth =>
                    Data.Both (Data.Subset d (Py.slice perm 0 a))
                      (Data.Subset d (Py.slice perm a (Z.of_nat (length perm))))
                | Data.PartTest =>
                    Data.One
                      (Data.Subset d (Py.slice perm a (Z.of_nat (length perm))))
                | Data.PartTrain => Data.One (Data.Subset d (Py.slice perm 0 a))
                | Data.PartOther => Data.NoneResult
                end).
Proof.
  intros Hperm Ha.
  unfold Data.split_dataset, Data._get_dataset_split.
  rewrite (split_lengths_point d f a Ha). cbn [Py.bind].
  rewrite random_split_pair by exact Hperm.
  destruct ((Z.of_nat (Data.len d) =? 1) && ((a <? 0) || (1 <? a)))%Z.
  - split; [reflexivity|]. intros part. reflexivity.
  - split; [reflexivity|]. intros []; reflexivity.
Qed.

(** The split point of a fraction between 0 and 1, for a dataset of fewer
    than [2^53] items: [round(len(d) * f)] evaluates, to a number between 0
    and the length of the dataset. *)
Lemma split_point_unit d f :
  (Z.of_nat (Data.len d) < 2 ^ 53)%Z -> Py.in_unit f = true ->
  exists a, Data.split_point d f = inr a /\
            (0 <= a <= Z.of_nat (Data.len d))%Z.
Proof.
  intros HN Hf. unfold Data.split_point, Py.int_mul.
  destruct f as [z|y].
  - cbn [Py.in_unit] in Hf. apply andb_true_iff in Hf.
    destruct Hf as [H0 H1]. apply Z.leb_le in H0, H1.
    eexists. split; [reflexivity|]. nia.
  - destruct (float_of_int_at_most (Z.of_nat (Data.len d))) as (x & -> & Hx);
      [lia|].
    cbn [Py.ret Py.round_number]. apply round_float_at_most; [lia|].
    apply fmul_at_most; [lia|exact Hx|]. apply in_unit_float, Hf.
Qed.

(** C7 (amended). Let [a] be what [round(len(d) * f)] evaluates to, the
    product being a float product when [f] is a float.  When [a] lies
    between 0 and [N = len(d)], [split_dataset] and [_get_dataset_split]
    (with [part = "both"]) return a first subset of [a] items and a second
    subset of [N - a] items.  That is the case for every [f] between 0 and
    1 when [N] is below [2^53].  And whatever [f] is, when the split
    returns two subsets their sizes add up to [N].  [perm] is the
    permutation of the [N] indices drawn by [random_split]. *)
Theorem C7_split_sizes perm d :
  length perm = Data.len d ->
  (forall f a,
     Data.split_point d f = inr a ->
     (0 <= a <= Z.of_nat (Data.len d))%Z ->
     exists A B,
       Data.split_dataset perm d f = inr (A, B) /\
       Data._get_dataset_split perm d Data.PartBoth f
       = inr (Data.Both A B) /\
       Z.of_nat (Data.len A) = a /\
       Z.of_nat (Data.len B) = (Z.of_nat (Data.len d) - a)%Z /\
       (Data.len A + Data.len B = Data.len d)%nat) /\
  (forall f,
     Py.in_unit f = true -> (Z.of_nat (Data.len d) < 2 ^ 53)%Z ->
     exists a, Data.split_point d f = inr a /\
               (0 <= a <= Z.of_nat (Data.len d))%Z) /\
  (forall f A B,
     Data.split_dataset perm d f = inr (A, B) ->
     (Data.len A + Data.len B = Data.len d)%nat).
Proof.
  intros Hperm. split; [|split].
  - intros f a Hpoint Ha.
    destruct (split_dataset_point perm d f a Hperm Hpoint) as [Hs Hg].
    specialize (Hg Data.PartBoth).
    assert (Hin : ((Z.of_nat (Data.len d) =? 1) && ((a <? 0) || (1 <? a)))%Z
                  = false).
    { destruct (Z.of_nat (Data.len d) =? 1)%Z eqn:E1; [|reflexivity].
      apply Z.eqb_eq in E1. cbn [andb]. apply orb_false_iff.
      split; apply Z.ltb_ge; lia. }
    rewrite Hin in Hs, Hg. eexists _, _.
    split; [exact Hs|]. split; [exact Hg|].
    cbn [Data.len]. rewrite slice_prefix by lia.
    rewrite slice_suffix by lia. rewrite length_take, length_drop. lia.
  - intros f Hf HN. apply split_point_unit; assumption.
  - intros f A B Hs.
    destruct (Data.split_point d f) as [e|a] eqn:Hp.
    { unfold Data.split_dataset, Data.split_lengths in Hs. rewrite Hp in Hs.
      discriminate. }
    destruct (split_dataset_point perm d f a Hperm Hp) as [Hs' _].
    rewrite Hs' in Hs.
    destruct ((Z.of_nat (Data.len d) =? 1) && ((a <? 0) || (1 <? a)))%Z;
      [discriminate|].
    injection Hs as <- <-. cbn [Data.len].
    rewrite <- length_app, slice_partition. exact Hperm.
Qed.
End SplitFacts.

(** ** Staged optimizer step *)

Lemma inject_Z_pos (z : Z) : (0 < z)%Z -> (0 < inject_Z z)%Q.
Proof. intros H. change 0%Q with (inject_Z 0). rewrite <- Zlt_Qlt. exact H. Qed.

Lemma inject_Z_nonzero (z : Z) : z <> 0%Z -> Qeq_bool (inject_Z z) 0 = false.
Proof.
  intros H. destruct (Qeq_bool (inject_Z z) 0) eqn:E; [|reflexivity].
  apply Qeq_bool_eq in E. unfold Qeq, inject_Z in E. simpl in E. lia.
Qed.

Lemma truediv_Z (a b : Z) :
  b <> 0%Z ->
  Py.truediv (inject_Z a) (inject_Z b) = inr (inject_Z a / inject_Z b)%Q.
Proof. intros H. unfold Py.truediv. rewrite inject_Z_nonzero by exact H. reflexivity. Qed.

Lemma ltb_lt (a b : Q) : Py.ltb a b = true <-> (a < b)%Q.
Proof.
  unfold Py.ltb. rewrite Qlt_alt. destruct (a ?= b)%Q; split; congruence.
Qed.

Lemma progress_lt (E e : Z) :
  (0 < E)%Z -> ((3 # 10) < inject_Z e / inject_Z E)%Q <-> (3 * E < 10 * e)%Z.
Proof.
  intros HE. pose proof (inject_Z_pos E HE) as HQ.
  assert (Hq : (inject_Z e / inject_Z E * inject_Z E == inject_Z e)%Q).
  { field. intros E0. rewrite E0 in HQ. apply (Qlt_irrefl 0). exact HQ. }
  split; intros H.
  - assert (Hm : ((3 # 10) * inject_Z E < inject_Z e)%Q).
    { rewrite <- Hq. apply Qmult_lt_r; [exact HQ|exact H]. }
    revert Hm. unfold Qlt, Qmult, inject_Z. simpl. lia.
  - apply Qlt_shift_div_l; [exact HQ|].
    unfold Qlt, Qmult, inject_Z. simpl. lia.
Qed.

Lemma progress_ltb (E e : Z) :
  (0 < E)%Z ->
  Py.ltb (3 # 10) (inject_Z e / inject_Z E) = (3 * E <? 10 * e)%Z.
Proof.
  intros HE. apply eq_true_iff_eq.
  rewrite ltb_lt, Z.ltb_lt. apply progress_lt. exact HE.
Qed.

Lemma progress_geb (E e : Z) :
  (0 < E)%Z ->
  Py.geb (3 # 10) (inject_Z e / inject_Z E) = (10 * e <=? 3 * E)%Z.
Proof.
  intros HE. unfold Py.geb. rewrite progress_ltb by exact HE.
  rewrite Z.leb_antisym. reflexivity.
Qed.

Section StepFacts.
Context {Tensor : Type}.
Variable update : Q -> string -> Tensor -> Tensor.
Implicit Types (o : Sched.Optimizer) (w : gmap string Tensor) (E e idx : Z).

(** The hook never fails for a positive epoch count, and it steps exactly
    the optimizer that [active] selects, after rescheduling its rate. *)
Lemma optimizer_step_eq E e o idx w :
  (0 < E)%Z -> (0 <= e)%Z ->
  Sched.optimizer_step update E e o idx w
  = inr (if Sched.active E e idx
         then Sched.step update (Sched.scheduled E e o) w
         else (o, w)).
Proof.
  intros HE He. unfold Sched.optimizer_step.
  rewrite truediv_Z by lia. cbn [Py.bind].
  rewrite progress_geb, progress_ltb by exact HE.
  unfold Sched.active, Sched.scheduled.
  assert (Hc : ((10 * e <=? 3 * E)%Z && (idx =? 0)%Z
                || (3 * E <? 10 * e)%Z && (idx =? 1)%Z)
               = (if (idx =? 0)%Z then (10 * e <=? 3 * E)%Z
                  else if (idx =? 1)%Z then (3 * E <? 10 * e)%Z else false)).
  { destruct (idx =? 0)%Z eqn:E0, (idx =? 1)%Z eqn:E1;
      rewrite ?andb_true_r, ?andb_false_r, ?orb_false_r, ?orb_false_l;
      try reflexivity.
    apply Z.eqb_eq in E0, E1. lia. }
  rewrite Hc. clear Hc.
  destruct (if (idx =? 0)%Z then _ else _); [|reflexivity].
  destruct (e <? E / 10)%Z eqn:Hw.
  - apply Z.ltb_lt in Hw. rewrite truediv_Z by lia. reflexivity.
  - destruct (e >=? E / 2)%Z eqn:Hd; [|reflexivity].
    assert (E / 2 < E)%Z by (apply Z.div_lt; lia).
    rewrite truediv_Z by lia. reflexivity.
Qed.

Lemma scheduled_params E e o :
  Sched.group_params (Sched.scheduled E e o) = Sched.group_params o.
Proof.
  unfold Sched.scheduled, Sched.group_params, Sched.set_lr.
  destruct (e <? E / 10)%Z; [|destruct (e >=? E / 2)%Z];
    cbn [Sched.param_groups]; rewrite ?map_map; reflexivity.
Qed.

Lemma step_group_other pg w name :
  name ∉ Sched.pg_params pg -> Sched.step_group update pg w !! name = w !! name.
Proof.
  unfold Sched.step_group. induction (Sched.pg_params pg) as [|p ps IH];
    intros Hn; [reflexivity|].
  cbn [foldr]. rewrite lookup_alter_ne by (intros ->; apply Hn; left).
  apply IH. intros Hin. apply Hn. right. exact Hin.
Qed.

(** A step leaves every tensor outside the optimizer's lists alone. *)
Lemma step_other o w name :
  name ∉ concat (Sched.group_params o) ->
  snd (Sched.step update o w) !! name = w !! name.
Proof.
  unfold Sched.step, Sched.group_params. cbn [snd].
  induction (Sched.param_groups o) as [|pg pgs IH]; intros Hn; [reflexivity|].
  cbn [foldr map concat] in *. rewrite step_group_other.
  - apply IH. intros Hin. apply Hn. apply elem_of_app. right. exact Hin.
  - intros Hin. apply Hn. apply elem_of_app. left. exact Hin.
Qed.

(** A step of the head-and-encoder optimizer rewrites the head. *)
Lemma step_head o w :
  Sched.group_params o
  = [[Sched.feature_projection; Sched.encoder; Sched.linear_layer]] ->
  exists l, Sched.lr_of o = [l] /\
    snd (Sched.step update o w) !! Sched.linear_layer
    = update l Sched.linear_layer <$> w !! Sched.linear_layer.
Proof.
  unfold Sched.group_params, Sched.lr_of, Sched.step. cbn [snd].
  destruct (Sched.param_groups o) as [|pg [|? ?]]; try discriminate.
  intros [= Hp]. exists (Sched.pg_lr pg). split; [reflexivity|].
  cbn [foldr]. unfold Sched.step_group. rewrite Hp. cbn [foldr].
  rewrite !lookup_alter_ne by discriminate.
  rewrite lookup_alter_eq. reflexivity.
Qed.

Lemma scheduled_defaults E e o :
  Sched.defaults_lr (Sched.scheduled E e o) = Sched.defaults_lr o.
Proof.
  unfold Sched.scheduled.
  destruct (e <? E / 10)%Z; [reflexivity|].
  destruct (e >=? E / 2)%Z; reflexivity.
Qed.

(** Rate of a one-group optimizer after rescheduling. *)
Lemma scheduled_rate E e o l :
  (0 < E)%Z -> (0 <= e)%Z -> Sched.lr_of o = [l] ->
  exists l', Sched.lr_of (Sched.scheduled E e o) = [l'] /\
    (((e < E / 10)%Z \/ (E / 2 <= e)%Z) ->
       l' == Sched.scale E e * Sched.defaults_lr o) /\
    ((E / 10 <= e)%Z -> (e < E / 2)%Z -> l' = l).
Proof.
  intros HE He Hl. unfold Sched.scheduled, Sched.scale.
  assert (Hhalf : (E / 2 < E)%Z) by (apply Z.div_lt; lia).
  assert (Hten : (E / 10 <= E / 2)%Z).
  { apply Z.div_le_lower_bound; [lia|].
    pose proof (Z.mul_div_le E 10 ltac:(lia)). lia. }
  unfold Sched.lr_of in *.
  destruct (e <? E / 10)%Z eqn:Hw.
  - apply Z.ltb_lt in Hw. unfold Sched.set_lr. cbn [Sched.param_groups].
    destruct (Sched.param_groups o) as [|pg [|? ?]]; try discriminate.
    eexists. split; [reflexivity|]. split; [|lia].
    intros _. apply Qmult_comp; [|reflexivity].
    apply Q.min_r. apply Qle_shift_div_r.
    + apply inject_Z_pos. lia.
    + rewrite Qmult_1_l. rewrite <- Zle_Qle. lia.
  - apply Z.ltb_ge in Hw. destruct (e >=? E / 2)%Z eqn:Hd.
    + assert (E / 2 <= e)%Z by (apply Z.geb_le; exact Hd).
      destruct (e <? E / 2)%Z eqn:Hd'; [apply Z.ltb_lt in Hd'; lia|].
      unfold Sched.set_lr. cbn [Sched.param_groups].
      destruct (Sched.param_groups o) as [|pg [|? ?]]; try discriminate.
      eexists. split; [reflexivity|]. split; [|lia].
      intros _. apply Qmult_comp; [|reflexivity].
      apply Q.min_r.
      assert (0 <= inject_Z (e - E / 2) / inject_Z (E - E / 2))%Q.
      { apply Qle_shift_div_l; [apply inject_Z_pos; lia|].
        rewrite Qmult_0_l. change 0%Q with (inject_Z 0).
        rewrite <- Zle_Qle. lia. }
      lra.
    + assert (e < E / 2)%Z.
      { rewrite Z.geb_leb in Hd. apply Z.leb_gt in Hd. exact Hd. }
      exists l. split; [exact Hl|]. split; [lia|reflexivity].
Qed.

Lemma scale_constant E e :
  (E / 10 <= e)%Z -> (e < E / 2)%Z -> Sched.scale E e = 1%Q.
Proof.
  intros H1 H2. unfold Sched.scale.
  destruct (e <? E / 10)%Z eqn:Hw; [apply Z.ltb_lt in Hw; lia|].
  destruct (e <? E / 2)%Z eqn:Hd; [reflexivity|apply Z.ltb_ge in Hd; lia].
Qed.

Lemma scale_warm_up_end E e :
  (0 <= e)%Z -> (e + 1 = E / 10)%Z -> Sched.scale E e == 1.
Proof.
  intros He H. unfold Sched.scale.
  destruct (e <? E / 10)%Z eqn:Hw; [|apply Z.ltb_ge in Hw; lia].
  rewrite H. apply Qmult_inv_r. intros E0.
  pose proof (inject_Z_pos (E / 10) ltac:(lia)) as Hp.
  rewrite E0 in Hp. apply (Qlt_irrefl 0). exact Hp.
Qed.

(** One batch of epoch [e], from the start of the epoch or from within. *)
Lemma training_batch_rates base E e (st : @Sched.FitState Tensor) :
  (0 < E)%Z -> (0 <= e)%Z ->
  Sched.epoch_start base E e st \/ Sched.in_epoch base E e st ->
  exists st', Sched.training_batch update E e st = inr st' /\
              Sched.in_epoch base E e st'.
Proof.
  intros HE He Hpre. unfold Sched.training_batch.
  rewrite optimizer_step_eq by assumption. cbn [Py.bind].
  rewrite optimizer_step_eq by assumption. cbn [Py.bind].
  eexists. split; [reflexivity|].
  assert (Hten : (10 * (E / 10) <= E)%Z) by (apply Z.mul_div_le; lia).
  assert (Hhalf : (E / 10 <= E / 2)%Z).
  { apply Z.div_le_lower_bound; lia. }
  assert (Hpre' : exists l0 l1, Sched.rates st base l0 l1 /\
            ((E / 10 <= e)%Z -> (e < E / 2)%Z -> l0 == base /\ l1 == base
               \/ (if Sched.active E e 0 then l0 else l1) == base /\
                   (e < E / 2 -> l1 == base)%Z /\
                   ((E / 10 <= e + 1)%Z -> l0 == base)) /\
            ((e < E / 2)%Z -> l1 == base)).
  { destruct Hpre as [(l0 & l1 & Hr & H1 & H0)|(l0 & l1 & Hr & Ha & H1 & H0)];
      exists l0, l1; (split; [exact Hr|]); split.
    - intros. left. split; [apply H0|apply H1]; lia.
    - intros. apply H1. lia.
    - intros. right. rewrite scale_constant, Qmult_1_l in Ha by assumption.
      repeat split; auto.
    - exact H1. }
  clear Hpre. destruct Hpre' as (l0 & l1 & (Hd0 & Hd1 & Hl0 & Hl1) & Hmid & Hone).
  unfold Sched.in_epoch, Sched.rates, Sched.active in *.
  change (0 =? 0)%Z with true in *. change (1 =? 0)%Z with false.
  change (1 =? 1)%Z with true. cbv iota in *.
  destruct (10 * e <=? 3 * E)%Z eqn:Hact.
  - (* the head-only optimizer steps *)
    apply Z.leb_le in Hact.
    assert (Hn : (3 * E <? 10 * e)%Z = false) by (apply Z.ltb_ge; lia).
    rewrite Hn. cbn [fst snd Sched.opt0 Sched.opt1 Sched.weights Sched.step].
    destruct (scheduled_rate E e (Sched.opt0 st) l0 HE He Hl0)
      as (l' & Hl' & Hout & Hin).
    exists l', l1. cbn [Sched.lr_of Sched.param_groups Sched.defaults_lr].
    fold (Sched.lr_of (Sched.scheduled E e (Sched.opt0 st))).
    rewrite scheduled_defaults, Hd0 in *.
    repeat split; try assumption.
    + destruct (Z.lt_ge_cases e (E / 10)) as [Hlt|Hge].
      { apply Hout. left. exact Hlt. }
      destruct (Z.lt_ge_cases e (E / 2)) as [Hlt2|Hge2].
      { rewrite (Hin Hge Hlt2), scale_constant, Qmult_1_l by assumption.
        destruct (Hmid Hge Hlt2) as [[? ?]|[? ?]]; assumption. }
      apply Hout. right. exact Hge2.
    + intros Hs Hlt2.
      destruct (Z.lt_ge_cases e (E / 10)) as [Hlt|Hge].
      { rewrite Hout by (left; exact Hlt).
        rewrite scale_warm_up_end by lia. apply Qmult_1_l. }
      rewrite (Hin Hge Hlt2).
      destruct (Hmid Hge Hlt2) as [[? ?]|[? ?]]; assumption.
  - (* the head-and-encoder optimizer steps *)
    apply Z.leb_gt in Hact.
    assert (Hn : (3 * E <? 10 * e)%Z = true) by (apply Z.ltb_lt; lia).
    rewrite Hn. cbn [fst snd Sched.opt0 Sched.opt1 Sched.weights Sched.step].
    destruct (scheduled_rate E e (Sched.opt1 st) l1 HE He Hl1)
      as (l' & Hl' & Hout & Hin).
    exists l0, l'. cbn [Sched.lr_of Sched.param_groups Sched.defaults_lr].
    fold (Sched.lr_of (Sched.scheduled E e (Sched.opt1 st))).
    rewrite scheduled_defaults, Hd1 in *.
    assert (Hge : (E / 10 <= e)%Z) by lia.
    repeat split; try assumption.
    + destruct (Z.lt_ge_cases e (E / 2)) as [Hlt2|Hge2].
      { rewrite (Hin Hge Hlt2), scale_constant, Qmult_1_l by assumption.
        apply Hone. exact Hlt2. }
      apply Hout. right. exact Hge2.
    + intros Hlt2. rewrite (Hin Hge Hlt2). apply Hone. exact Hlt2.
    + intros _ Hlt2.
      destruct (Hmid Hge Hlt2) as [[? ?]|(? & ? & H0)]; [assumption|].
      apply H0. lia.
Qed.

Lemma training_epoch_rates base E e n (st : @Sched.FitState Tensor) :
  (0 < E)%Z -> (0 <= e)%Z -> Sched.in_epoch base E e st ->
  exists st', Sched.training_epoch update E e n st = inr st' /\
              Sched.in_epoch base E e st'.
Proof.
  intros HE He. revert st. induction n as [|n IH]; intros st Hin.
  - exists st. split; [reflexivity|exact Hin].
  - destruct (training_batch_rates base E e st HE He (or_intror Hin))
      as (st1 & Hb & Hin1).
    destruct (IH st1 Hin1) as (st2 & Hr & Hin2).
    exists st2. split; [|exact Hin2].
    cbn [Sched.training_epoch]. rewrite Hb. exact Hr.
Qed.

Lemma in_epoch_next base E e (st : @Sched.FitState Tensor) :
  Sched.in_epoch base E e st -> Sched.epoch_start base E (e + 1) st.
Proof.
  intros (l0 & l1 & Hr & _ & H1 & H0). exists l0, l1.
  split; [exact Hr|]. split; intros; [apply H1|apply H0]; lia.
Qed.

Lemma fit_epochs_rates base E nb first n (st : @Sched.FitState Tensor) :
  (0 < E)%Z -> (0 <= first)%Z -> (1 <= nb)%nat ->
  Sched.epoch_start base E first st ->
  exists st', Sched.fit_epochs update E nb first (S n) st = inr st' /\
              Sched.in_epoch base E (first + Z.of_nat n) st'.
Proof.
  intros HE Hf Hnb. revert first st Hf.
  induction n as [|n IH]; intros first st Hf Hstart.
  - destruct nb as [|nb]; [lia|].
    destruct (training_batch_rates base E first st HE Hf (or_introl Hstart))
      as (st1 & Hb & Hin1).
    destruct (training_epoch_rates base E first nb st1 HE Hf Hin1)
      as (st2 & Hr & Hin2).
    exists st2. rewrite Z.add_0_r. split; [|exact Hin2].
    cbn [Sched.fit_epochs Sched.training_epoch]. rewrite Hb. cbn [Py.bind].
    rewrite Hr. reflexivity.
  - destruct nb as [|nb]; [lia|].
    destruct (training_batch_rates base E first st HE Hf (or_introl Hstart))
      as (st1 & Hb & Hin1).
    destruct (training_epoch_rates base E first nb st1 HE Hf Hin1)
      as (st2 & Hr & Hin2).
    destruct (IH (first + 1)%Z st2 ltac:(lia) (in_epoch_next _ _ _ _ Hin2))
      as (st3 & Hfit & Hin3).
    exists st3. split.
    + change (Sched.fit_epochs update E (S nb) first (S (S n)) st)
        with (let* st := Sched.training_epoch update E first (S nb) st in
              Sched.fit_epochs update E (S nb) (first + 1) (S n) st).
      cbn [Sched.training_epoch]. rewrite Hb. cbn [Py.bind]. rewrite Hr.
      exact Hfit.
    + replace (first + Z.of_nat (S n))%Z with (first + 1 + Z.of_nat n)%Z by lia.
      exact Hin3.
Qed.

Lemma fit_init_start base (w : gmap string Tensor) E :
  Sched.epoch_start base E 0 (Sched.fit_init base w).
Proof.
  exists base, base. repeat split; intros; reflexivity.
Qed.

(** C3. In a fit of the staged variant ([num_epochs = E > 0], at least
    one batch per epoch, both optimizers created with rate [base]), the
    optimizer that steps in epoch [e] does so with rate
    [base * (e+1)/(E//10)] while [e < E//10] (a linear warm-up that reaches
    [base] in the last warm-up epoch and would be [0] one epoch before the
    first), with rate [base] while [E//10 <= e < E//2], and with rate
    [base * (1 - (e - E//2)/(E - E//2))] from [E//2] on (a linear decay that
    starts at [base] and reaches [0] at [e = E]).  With [E = 10] and
    [e = 0] optimizer 0 steps with rate [base * 1/1]. *)
Theorem C3_staged_learning_rate base E e nb (w : gmap string Tensor) :
  (0 < E)%Z -> (0 <= e)%Z -> (1 <= nb)%nat ->
  exists st l0 l1,
    Sched.fit_epochs update E nb 0 (S (Z.to_nat e)) (Sched.fit_init base w)
    = inr st /\
    Sched.lr_of (Sched.opt0 st) = [l0] /\
    Sched.lr_of (Sched.opt1 st) = [l1] /\
    let lr := if Sched.active E e 0 then l0 else l1 in
    ((e < E / 10)%Z ->
       lr == base * (inject_Z (e + 1) / inject_Z (E / 10))) /\
    ((E / 10 <= e)%Z -> (e < E / 2)%Z -> lr == base) /\
    ((E / 2 <= e)%Z ->
       lr == base * (1 - inject_Z (e - E / 2) / inject_Z (E - E / 2))) /\
    ((e + 1 = E / 10)%Z -> lr == base) /\
    ((e = E / 2)%Z -> lr == base) /\
    (E = 10%Z -> e = 0%Z ->
       Sched.active E e 0 = true /\ Sched.active E e 1 = false /\
       l0 == base * (1 / 1)).
Proof.
  intros HE He Hnb.
  destruct (fit_epochs_rates base E nb 0 (Z.to_nat e) (Sched.fit_init base w)
              HE ltac:(lia) Hnb (fit_init_start base w E))
    as (st & Hfit & l0 & l1 & (_ & _ & Hl0 & Hl1) & Hact & _ & _).
  rewrite Z.add_0_l, Z2Nat.id in Hact by exact He.
  exists st, l0, l1. split; [exact Hfit|]. split; [exact Hl0|].
  split; [exact Hl1|]. cbv zeta.
  assert (Hhalf : (E / 2 < E)%Z) by (apply Z.div_lt; lia).
  assert (Hten : (10 * (E / 10) <= E)%Z) by (apply Z.mul_div_le; lia).
  assert (Hth : (E / 10 <= E / 2)%Z) by (apply Z.div_le_lower_bound; lia).
  repeat split.
  - intros Hw. rewrite Hact. unfold Sched.scale.
    apply Z.ltb_lt in Hw. rewrite Hw. apply Qmult_comm.
  - intros H1 H2. rewrite Hact, scale_constant by assumption.
    apply Qmult_1_l.
  - intros Hd. rewrite Hact. unfold Sched.scale.
    destruct (e <? E / 10)%Z eqn:Hw; [apply Z.ltb_lt in Hw; lia|].
    destruct (e <? E / 2)%Z eqn:Hd'; [apply Z.ltb_lt in Hd'; lia|].
    apply Qmult_comm.
  - intros Hend. rewrite Hact, scale_warm_up_end by assumption.
    apply Qmult_1_l.
  - intros Heq. rewrite Hact. unfold Sched.scale.
    destruct (e <? E / 10)%Z eqn:Hw.
    + apply Z.ltb_lt in Hw. assert (e + 1 = E / 10)%Z by lia.
      assert (E / 10 = E / 2)%Z by lia. lia.
    + destruct (e <? E / 2)%Z eqn:Hd'; [apply Qmult_1_l|].
      rewrite Heq, Z.sub_diag. unfold Qdiv. rewrite Qmult_0_l. ring.
  - subst. reflexivity.
  - subst. reflexivity.
  - subst. rewrite Hact.
    change (Sched.scale 10 0) with (inject_Z 1 / inject_Z 1)%Q.
    apply Qmult_comm.
Qed.

Lemma training_batch_configured E e (st : @Sched.FitState Tensor) :
  (0 < E)%Z -> (0 <= e)%Z -> Sched.configured st ->
  exists st', Sched.training_batch update E e st = inr st' /\
    Sched.configured st' /\
    st' = (if Sched.active E e 0
           then {| Sched.opt0 :=
                     fst (Sched.step update
                            (Sched.scheduled E e (Sched.opt0 st))
                            (Sched.weights st));
                   Sched.opt1 := Sched.opt1 st;
                   Sched.weights :=
                     snd (Sched.step update
                            (Sched.scheduled E e (Sched.opt0 st))
                            (Sched.weights st)) |}
           else {| Sched.opt0 := Sched.opt0 st;
                   Sched.opt1 :=
                     fst (Sched.step update
                            (Sched.scheduled E e (Sched.opt1 st))
                            (Sched.weights st));
                   Sched.weights :=
                     snd (Sched.step update
                            (Sched.scheduled E e (Sched.opt1 st))
                            (Sched.weights st)) |}).
Proof.
  intros HE He [Hc0 Hc1]. unfold Sched.training_batch.
  rewrite optimizer_step_eq by assumption. cbn [Py.bind].
  rewrite optimizer_step_eq by assumption. cbn [Py.bind].
  eexists. split; [reflexivity|].
  unfold Sched.active. change (0 =? 0)%Z with true.
  change (1 =? 0)%Z with false. change (1 =? 1)%Z with true. cbv iota.
  destruct (10 * e <=? 3 * E)%Z eqn:Hact.
  - apply Z.leb_le in Hact.
    replace (3 * E <? 10 * e)%Z with false by (symmetry; apply Z.ltb_ge; lia).
    split; [|reflexivity]. split; cbn [Sched.opt0 Sched.opt1 fst snd].
    + change (Sched.group_params (Sched.scheduled E e (Sched.opt0 st))
              = [[Sched.linear_layer]]).
      rewrite scheduled_params. exact Hc0.
    + exact Hc1.
  - apply Z.leb_gt in Hact.
    replace (3 * E <? 10 * e)%Z with true by (symmetry; apply Z.ltb_lt; lia).
    split; [|reflexivity]. split; cbn [Sched.opt0 Sched.opt1 fst snd].
    + exact Hc0.
    + change (Sched.group_params (Sched.scheduled E e (Sched.opt1 st))
              = [[Sched.feature_projection; Sched.encoder;
                  Sched.linear_layer]]).
      rewrite scheduled_params. exact Hc1.
Qed.

(** C4 (amended). For [E > 0] and every epoch [e], one batch of the
    trainer lets exactly one optimizer step: optimizer 0 (head only) while
    [e/E <= 0.3], optimizer 1 (feature projection, encoder and head)
    afterwards; the other optimizer is left as it was, and optimizer 0,
    once inactive, stays inactive for every later epoch.  Tensors outside
    the stepping optimizer's list keep their value, so feature projection
    and encoder do not move during the first 30%; the head, which is in
    both lists, is rewritten by optimizer 1 in every later batch.  At
    epoch 6 of 10 optimizer 0 is inactive and optimizer 1 steps in the
    linear-decay phase, at 4/5 of its base rate. *)
Theorem C4_staged_groups E e (st : @Sched.FitState Tensor) :
  (0 < E)%Z -> (0 <= e)%Z -> Sched.configured st ->
  exists st', Sched.training_batch update E e st = inr st' /\
    Sched.configured st' /\
    ((10 * e <= 3 * E)%Z ->
       Sched.active E e 0 = true /\ Sched.active E e 1 = false /\
       Sched.n_steps (Sched.opt0 st') = S (Sched.n_steps (Sched.opt0 st)) /\
       Sched.opt1 st' = Sched.opt1 st /\
       forall name, name <> Sched.linear_layer ->
         Sched.weights st' !! name = Sched.weights st !! name) /\
    ((3 * E < 10 * e)%Z ->
       Sched.active E e 0 = false /\ Sched.active E e 1 = true /\
       Sched.n_steps (Sched.opt1 st') = S (Sched.n_steps (Sched.opt1 st)) /\
       Sched.opt0 st' = Sched.opt0 st /\
       (forall name,
          name ∉ [Sched.feature_projection; Sched.encoder; Sched.linear_layer] ->
          Sched.weights st' !! name = Sched.weights st !! name) /\
       exists l, Sched.lr_of (Sched.opt1 st') = [l] /\
         Sched.weights st' !! Sched.linear_layer
         = update l Sched.linear_layer <$> Sched.weights st !! Sched.linear_layer) /\
    (forall e', (e <= e')%Z ->
       Sched.active E e 0 = false -> Sched.active E e' 0 = false) /\
    (E = 10%Z -> e = 6%Z ->
       Sched.active E e 0 = false /\ Sched.active E e 1 = true /\
       (E / 2 <= e)%Z /\
       exists l, Sched.lr_of (Sched.opt1 st') = [l] /\
         l == (4 # 5) * Sched.defaults_lr (Sched.opt1 st)).
Proof.
  intros HE He Hc.
  destruct (training_batch_configured E e st HE He Hc) as (st' & Hb & Hc' & Hst).
  exists st'. split; [exact Hb|]. split; [exact Hc'|].
  destruct Hc as [Hc0 Hc1].
  unfold Sched.active in *. change (0 =? 0)%Z with true in *.
  change (1 =? 0)%Z with false. change (1 =? 1)%Z with true. cbv iota in *.
  repeat split.
  - apply Z.leb_le. assumption.
  - apply Z.ltb_ge. lia.
  - replace (10 * e <=? 3 * E)%Z with true in Hst
      by (symmetry; apply Z.leb_le; assumption).
    subst st'. cbn [Sched.opt0 Sched.step fst Sched.n_steps].
    unfold Sched.scheduled.
    destruct (e <? E / 10)%Z; [|destruct (e >=? E / 2)%Z]; reflexivity.
  - replace (10 * e <=? 3 * E)%Z with true in Hst
      by (symmetry; apply Z.leb_le; assumption).
    subst st'. reflexivity.
  - intros name Hname.
    replace (10 * e <=? 3 * E)%Z with true in Hst
      by (symmetry; apply Z.leb_le; assumption).
    subst st'. cbn [Sched.weights]. apply step_other.
    rewrite scheduled_params, Hc0. cbn [concat app].
    intros Hin. apply list_elem_of_singleton in Hin. contradiction.
  - apply Z.leb_gt. assumption.
  - apply Z.ltb_lt. assumption.
  - replace (10 * e <=? 3 * E)%Z with false in Hst
      by (symmetry; apply Z.leb_gt; assumption).
    subst st'. cbn [Sched.opt1 Sched.step fst Sched.n_steps].
    unfold Sched.scheduled.
    destruct (e <? E / 10)%Z; [|destruct (e >=? E / 2)%Z]; reflexivity.
  - replace (10 * e <=? 3 * E)%Z with false in Hst
      by (symmetry; apply Z.leb_gt; assumption).
    subst st'. reflexivity.
  - intros name Hname.
    replace (10 * e <=? 3 * E)%Z with false in Hst
      by (symmetry; apply Z.leb_gt; assumption).
    subst st'. cbn [Sched.weights]. apply step_other.
    rewrite scheduled_params, Hc1. cbn [concat app]. exact Hname.
  - replace (10 * e <=? 3 * E)%Z with false in Hst
      by (symmetry; apply Z.leb_gt; assumption).
    subst st'. cbn [Sched.weights Sched.opt1].
    destruct (step_head (Sched.scheduled E e (Sched.opt1 st))
                (Sched.weights st)) as (l & Hl & Hw).
    { rewrite scheduled_params. exact Hc1. }
    exists l. split; [exact Hl|exact Hw].
  - intros e' Hle Hin. apply Z.leb_gt in Hin. apply Z.leb_gt. lia.
  - subst. reflexivity.
  - subst. reflexivity.
  - subst. discriminate.
  - subst E e. change (10 * 6 <=? 3 * 10)%Z with false in Hst.
    subst st'. cbn [Sched.opt1 Sched.step fst].
    assert (Hone : exists l1, Sched.lr_of (Sched.opt1 st) = [l1]).
    { unfold Sched.group_params, Sched.lr_of in *.
      destruct (Sched.param_groups (Sched.opt1 st)) as [|pg [|? ?]];
        try discriminate. eexists. reflexivity. }
    destruct Hone as (l1 & Hl1).
    destruct (scheduled_rate 10 6 (Sched.opt1 st) l1 HE He Hl1)
      as (l' & Hl' & Hout & _).
    exists l'. split; [exact Hl'|].
    rewrite Hout by (right; discriminate).
    apply Qmult_comp; reflexivity.
Qed.
End StepFacts.

(** C4, as stated, fails.  At epoch 6 of 10 optimizer 0 is inactive, yet the
    head's tensor, which is in optimizer 0's parameter list, is updated by
    the batch (through optimizer 1). *)
Lemma C4_inactive_group_still_updated :
  exists st',
    Sched.training_batch Sched.sgd_unit 10 6
      (Sched.fit_init (1 # 10) Sched.example_weights) = inr st' /\
    Sched.active 10 6 0 = false /\
    Sched.linear_layer
      ∈ concat (Sched.group_params
                  (Sched.opt0 (Sched.fit_init (1 # 10) Sched.example_weights))) /\
    Sched.weights (Sched.fit_init (1 # 10) Sched.example_weights)
      !! Sched.linear_layer = Some 5%Q /\
    Sched.weights st' !! Sched.linear_layer = Some (123 # 25)%Q.
Proof.
  eexists. split; [vm_compute; reflexivity|].
  split; [reflexivity|]. split; [left|]. split; vm_compute; reflexivity.
Qed.

(** ** Training and evaluation mode *)

Lemma all_eval_nn_eval (m : Modes.Module) :
  Modes.all_eval (Modes.nn_eval m) = true.
Proof.
  revert m. fix IH 1. intros [t cs]. unfold Modes.nn_eval. cbn.
  induction cs as [|[name c] cs IHcs]; [reflexivity|].
  cbn. fold (Modes.nn_eval c). rewrite (IH c). exact IHcs.
Qed.

Lemma get_update_same name f cs :
  Modes.get_child name (Modes.update_child name f cs)
  = f <$> Modes.get_child name cs.
Proof.
  induction cs as [|[n c] cs IH]; [reflexivity|]. cbn.
  destruct (String.eqb n name) eqn:E; cbn; rewrite E; [reflexivity|exact IH].
Qed.

Lemma get_update_other name name' f cs :
  String.eqb name name' = false ->
  Modes.get_child name' (Modes.update_child name f cs)
  = Modes.get_child name' cs.
Proof.
  intros Hne. induction cs as [|[n c] cs IH]; [reflexivity|]. cbn.
  destruct (String.eqb n name) eqn:E; cbn.
  - apply String.eqb_eq in E. subst n. rewrite Hne. reflexivity.
  - destruct (String.eqb n name'); [reflexivity|exact IH].
Qed.

Lemma submodule_call_at_same path f m :
  Modes.submodule path (Modes.call_at path f m) = f <$> Modes.submodule path m.
Proof.
  revert m. induction path as [|name path IH]; intros m; [reflexivity|].
  cbn. rewrite get_update_same.
  destruct (Modes.get_child name (Modes.children m)); [apply IH|reflexivity].
Qed.

Lemma submodule_call_at_diverge p q f m :
  Modes.diverge p q = true ->
  Modes.submodule p (Modes.call_at q f m) = Modes.submodule p m.
Proof.
  revert q m. induction p as [|a p IH]; intros [|b q] m Hd; try discriminate.
  cbn in *. destruct (String.eqb b a) eqn:E.
  - apply String.eqb_eq in E. subst b. rewrite get_update_same.
    destruct (Modes.get_child a (Modes.children m)); [|reflexivity].
    cbn. apply IH. exact Hd.
  - rewrite get_update_other by exact E. reflexivity.
Qed.

Lemma get_child_nn_train mode name cs :
  Modes.get_child name (Modes.children (Modes.nn_train mode (Modes.Node true cs)))
  = Modes.nn_train mode <$> Modes.get_child name cs.
Proof.
  cbn. induction cs as [|[n c] cs IH]; [reflexivity|]. cbn.
  destruct (String.eqb n name); [reflexivity|exact IH].
Qed.

Lemma submodule_nn_train mode path m :
  Modes.submodule path (Modes.nn_train mode m)
  = Modes.nn_train mode <$> Modes.submodule path m.
Proof.
  revert m. induction path as [|name path IH]; intros [t cs]; [reflexivity|].
  cbn [Modes.submodule].
  change (Modes.children (Modes.nn_train mode (Modes.Node t cs)))
    with (Modes.children (Modes.nn_train mode (Modes.Node true cs))).
  rewrite get_child_nn_train. cbn [Modes.children].
  destruct (Modes.get_child name cs); [apply IH|reflexivity].
Qed.

Lemma training_nn_train mode m : Modes.training (Modes.nn_train mode m) = mode.
Proof. destruct m. reflexivity. Qed.

(** C9 (amended). Take any module tree [self] of a variant [v] and any
    sub-module that the constructor of [v] froze.  After [self.train()] the
    sub-module is still there; for [Wav2VecComplete] and
    [Wav2VecFeezingEncoderOnly], which override [train], it and everything
    below it is in evaluation mode; for the other variants, which inherit
    [nn.Module.train], it is in training mode. *)
Theorem C9_frozen_submodules_after_train v self path sub0 :
  path ∈ Modes.frozen v -> Modes.submodule path self = Some sub0 ->
  exists sub, Modes.submodule path (Modes.train v self) = Some sub /\
    match v with
    | Modes.Wav2VecComplete _ | Modes.Wav2VecFeezingEncoderOnly =>
        Modes.all_eval sub = true
    | _ => Modes.training sub = true
    end.
Proof.
  intros Hin Hsub.
  assert (Hinh : exists sub,
            Modes.submodule path (Modes.nn_train true self) = Some sub /\
            Modes.training sub = true).
  { rewrite submodule_nn_train, Hsub. eexists. split; [reflexivity|].
    apply training_nn_train. }
  destruct v as [|ft|ft| | |ft|]; cbn [Modes.train]; try exact Hinh;
    clear Hinh; cbn [Modes.frozen] in Hin.
  - destruct ft; [apply elem_of_nil in Hin; contradiction|].
    apply list_elem_of_singleton in Hin. subst path.
    rewrite submodule_call_at_diverge by reflexivity.
    rewrite submodule_call_at_same, Hsub. eexists. split; [reflexivity|].
    apply all_eval_nn_eval.
  - apply list_elem_of_singleton in Hin. subst path.
    rewrite !submodule_call_at_diverge by reflexivity.
    rewrite submodule_call_at_same, Hsub. eexists. split; [reflexivity|].
    apply all_eval_nn_eval.
Qed.

(** C9, as stated, fails: [Wav2VecCLSPaperFinetuning] freezes the feature
    extractor, and after [train()] the feature extractor is in training
    mode. *)
Lemma C9_paper_variant_frozen_in_training_mode :
  [Modes.pretrained_model; Modes.feature_extractor]
    ∈ Modes.frozen Modes.Wav2VecCLSPaperFinetuning /\
  Modes.submodule [Modes.pretrained_model; Modes.feature_extractor]
    (Modes.init [] [] [] [] Modes.Wav2VecCLSPaperFinetuning)
  = Some (Modes.Node false []) /\
  Modes.submodule [Modes.pretrained_model; Modes.feature_extractor]
    (Modes.train Modes.Wav2VecCLSPaperFinetuning
       (Modes.init [] [] [] [] Modes.Wav2VecCLSPaperFinetuning))
  = Some (Modes.Node true []).
Proof.
  split; [left|]. split; reflexivity.
Qed.

(** ** [forward] of the randomly initialised token variant *)

(** C10. Whatever the sub-modules compute and whatever the input batch,
    [Wav2VecCLSTokenNotPretrained.forward] raises: the constructor sets
    only [pretrained_model] and [linear_layer], and once the speech model
    has returned and its result has been unpacked, looking up
    [softmax_activation] is an [AttributeError].  [utils.get_model] builds
    this class for the option ["cls_token_not_pretrained"]. *)
Theorem C10_forward_always_raises {Tensor : Type} (rows : Tensor -> list Tensor)
    (pretrained_model linear_layer : Forward.Callable Tensor)
    (x : Forward.Value Tensor) :
  Py.raises
    (Forward.forward rows (Forward.init pretrained_model linear_layer) x) /\
  Forward.init pretrained_model linear_layer !! "softmax_activation" = None /\
  (forall r p, pretrained_model x = inr r ->
     Forward.unpack2 rows r = inr p ->
     Forward.forward rows (Forward.init pretrained_model linear_layer) x
     = inl (Py.AttributeError "Wav2VecCLSTokenNotPretrained"
              "softmax_activation")) /\
  (forall finetuning,
     Forward.get_model_wav2vec "cls_token_not_pretrained" finetuning
     = Some Modes.Wav2VecCLSTokenNotPretrained).
Proof.
  assert (Hpm : Forward.init pretrained_model linear_layer !! "pretrained_model"
                = Some pretrained_model).
  { unfold Forward.init. rewrite lookup_insert_ne by discriminate.
    apply lookup_insert_eq. }
  assert (Hsm : Forward.init pretrained_model linear_layer !! "softmax_activation"
                = None).
  { unfold Forward.init. rewrite !lookup_insert_ne by discriminate.
    apply lookup_empty. }
  assert (Hstep : Forward.forward rows
                    (Forward.init pretrained_model linear_layer) x
                  = let* r := pretrained_model x in
                    let* p := Forward.unpack2 rows r in
                    inl (Py.AttributeError "Wav2VecCLSTokenNotPretrained"
                           "softmax_activation")).
  { unfold Forward.forward, Forward.getattr. rewrite Hpm, Hsm.
    cbn [Py.bind Py.ret Py.raise].
    destruct (pretrained_model x) as [e|r]; [reflexivity|].
    cbn [Py.bind]. destruct (Forward.unpack2 rows r); reflexivity. }
  split; [|split; [exact Hsm|split]].
  - rewrite Hstep. destruct (pretrained_model x) as [e|r].
    + exists e. reflexivity.
    + cbn [Py.bind]. destruct (Forward.unpack2 rows r) as [e|p];
        eexists; reflexivity.
  - intros r p Hr Hp. rewrite Hstep, Hr. cbn [Py.bind]. rewrite Hp. reflexivity.
  - intros finetuning. reflexivity.
Qed.

(** ** Best-checkpoint selection *)

Lemma ltb_false_le (a b : Q) : Py.ltb a b = false <-> (b <= a)%Q.
Proof.
  split; intros H.
  - apply Qnot_lt_le. intros Hlt. apply ltb_lt in Hlt. congruence.
  - destruct (Py.ltb a b) eqn:E; [|reflexivity].
    apply ltb_lt in E. exfalso. apply (Qlt_not_le _ _ E). exact H.
Qed.

(** The order of the floats: NaN is below, above and beside nothing. *)
Lemma xlt_Num (x y : Q) : Py.xlt (Py.Num x) (Py.Num y) = true <-> (x < y)%Q.
Proof. apply ltb_lt. Qed.

Lemma xle_Num (x y : Q) : Py.xle (Py.Num x) (Py.Num y) = true <-> (x <= y)%Q.
Proof.
  cbn [Py.xle]. rewrite negb_true_iff. apply ltb_false_le.
Qed.

Lemma xlt_nan_r (a : Py.xfloat) : Py.xlt a Py.NaN = false.
Proof. destruct a; reflexivity. Qed.

Lemma xle_nan_l (a : Py.xfloat) : Py.xle Py.NaN a = false.
Proof. reflexivity. Qed.

Lemma xlt_not_nan (a b : Py.xfloat) :
  Py.xlt a b = true -> Py.is_nan a = false /\ Py.is_nan b = false.
Proof. destruct a, b; cbn; intros H; try discriminate; split; reflexivity. Qed.

Lemma xle_refl (a : Py.xfloat) : Py.is_nan a = false -> Py.xle a a = true.
Proof.
  destruct a as [x|[]|]; cbn; intros H; try reflexivity; try discriminate.
  rewrite negb_true_iff. apply ltb_false_le. apply Qle_refl.
Qed.

Lemma xlt_xle (a b : Py.xfloat) : Py.xlt a b = true -> Py.xle a b = true.
Proof.
  destruct a as [x|[]|], b as [y|[]|]; cbn; intros H;
    try reflexivity; try discriminate.
  rewrite negb_true_iff. apply ltb_false_le. apply ltb_lt in H.
  apply Qlt_le_weak. exact H.
Qed.

Lemma xlt_false_xle (a b : Py.xfloat) :
  Py.is_nan a = false -> Py.is_nan b = false ->
  Py.xlt a b = false -> Py.xle b a = true.
Proof.
  destruct a as [x|[]|], b as [y|[]|]; cbn; intros Ha Hb H;
    try reflexivity; try discriminate.
  rewrite H. reflexivity.
Qed.

Lemma xle_trans (a b c : Py.xfloat) :
  Py.xle a b = true -> Py.xle b c = true -> Py.xle a c = true.
Proof.
  destruct a as [x|[]|], b as [y|[]|], c as [z|[]|]; cbn; intros H1 H2;
    try reflexivity; try discriminate.
  rewrite negb_true_iff in *. apply ltb_false_le in H1, H2.
  apply ltb_false_le. eapply Qle_trans; eassumption.
Qed.

Lemma xlt_xle_trans (a b c : Py.xfloat) :
  Py.xlt a b = true -> Py.xle b c = true -> Py.xlt a c = true.
Proof.
  destruct a as [x|[]|], b as [y|[]|], c as [z|[]|]; cbn; intros H1 H2;
    try reflexivity; try discriminate.
  rewrite negb_true_iff in H2. apply ltb_false_le in H2.
  apply ltb_lt in H1. apply ltb_lt. eapply Qlt_le_trans; eassumption.
Qed.

(** A checkpoint whose loss is NaN is never replaced. *)
Lemma best_after_nan sd first (observed : list (Py.xfloat * Q))
    (b : Train.Checkpoint) :
  Py.is_nan (Train.Loss b) = true ->
  Train.best_after sd first observed (Some b) = Some b.
Proof.
  intros Hnan. revert first.
  induction observed as [|[l a] rest IH]; intros first; [reflexivity|].
  cbn [Train.best_after]. unfold Train.save_decision.
  destruct (Train.Loss b); try discriminate.
  rewrite xlt_nan_r. apply IH.
Qed.

Lemma best_after_some sd first (observed : list (Py.xfloat * Q))
    (b : Train.Checkpoint) :
  Py.is_nan (Train.Loss b) = false ->
  exists b', Train.best_after sd first observed (Some b) = Some b' /\
    Py.is_nan (Train.Loss b') = false /\
    Py.xle (Train.Loss b') (Train.Loss b) = true /\
    (forall k l a, observed !! k = Some (l, a) -> Py.is_nan l = false ->
                   Py.xle (Train.Loss b') l = true) /\
    (b' = b \/
     Py.xlt (Train.Loss b') (Train.Loss b) = true /\
     exists k a, observed !! k = Some (Train.Loss b', a) /\
       Train.Epoch b' = (first + k)%nat /\ Train.Accuracy b' = a /\
       Train.State_Dict b' = sd /\
       forall j l a', (j < k)%nat -> observed !! j = Some (l, a') ->
                      Py.is_nan l = false ->
                      Py.xlt (Train.Loss b') l = true).
Proof.
  revert first b. induction observed as [|[l a] rest IH]; intros first b Hb.
  - exists b. cbn. repeat split;
      [exact Hb|apply xle_refl; exact Hb|discriminate|left; reflexivity].
  - cbn [Train.best_after]. unfold Train.save_decision.
    destruct (Py.xlt l (Train.Loss b)) eqn:Hlt.
    + pose proof (xlt_not_nan _ _ Hlt) as [Hl _].
      set (new := {| Train.State_Dict := sd; Train.Epoch := first;
                     Train.Loss := l; Train.Accuracy := a |}).
      destruct (IH (S first) new Hl)
        as (b' & Hb' & Hnan & Hle & Hall & Hwhich).
      exists b'. split; [exact Hb'|]. split; [exact Hnan|].
      cbn [Train.Loss new] in Hle.
      split; [eapply xle_trans; [exact Hle|apply xlt_xle; exact Hlt]|].
      split.
      * intros [|k] l' a' Hk Hl'; cbn in Hk.
        -- injection Hk as <- <-. exact Hle.
        -- apply (Hall k l' a' Hk Hl').
      * right.
        destruct Hwhich
          as [->|(Hlt' & k & a0 & Hk & He & Ha & Hsd & Hbefore)].
        -- split; [exact Hlt|]. exists 0%nat, a. cbn.
           repeat split; [lia|intros; lia].
        -- cbn [Train.Loss new] in Hlt'.
           split; [eapply xlt_xle_trans; [exact Hlt'|apply xlt_xle; exact Hlt]|].
           exists (S k), a0. cbn. repeat split; try assumption; [lia|].
           intros [|j] l' a' Hj Hobs Hl'; cbn in Hobs.
           ++ injection Hobs as <- <-. exact Hlt'.
           ++ apply (Hbefore j l' a'); [lia|exact Hobs|exact Hl'].
    + destruct (IH (S first) b Hb) as (b' & Hb' & Hnan & Hle & Hall & Hwhich).
      exists b'. split; [exact Hb'|]. split; [exact Hnan|].
      split; [exact Hle|]. split.
      * intros [|k] l' a' Hk Hl'; cbn in Hk.
        -- injection Hk as <- <-.
           eapply xle_trans; [exact Hle|].
           apply xlt_false_xle; assumption.
        -- apply (Hall k l' a' Hk Hl').
      * destruct Hwhich
          as [->|(Hlt' & k & a0 & Hk & He & Ha & Hsd & Hbefore)];
          [left; reflexivity|right].
        split; [exact Hlt'|]. exists (S k), a0. cbn.
        repeat split; try assumption; [lia|].
        intros [|j] l' a' Hj Hobs Hl'; cbn in Hobs.
        -- injection Hobs as <- <-.
           eapply xlt_xle_trans; [exact Hlt'|].
           apply xlt_false_xle; assumption.
        -- apply (Hbefore j l' a'); [lia|exact Hobs|exact Hl'].
Qed.

(** ** Loss accumulation *)

Lemma accumulate_from (n : nat) (ls : list Q) (a : Q) :
  fold_left (fun loss l : Q => (loss + l / inject_Z (Z.of_nat n))%Q) ls a
  == a + Train.Qsum ls / inject_Z (Z.of_nat n).
Proof.
  revert a. induction ls as [|l ls IH]; intros a;
    cbn [fold_left Train.Qsum fold_right].
  - unfold Qdiv. ring.
  - rewrite IH. fold (Train.Qsum ls). unfold Qdiv. ring.
Qed.

Lemma accumulate_loss_mean (n : nat) (ls : list Q) :
  Train.accumulate_loss n ls == Train.Qsum ls / inject_Z (Z.of_nat n).
Proof. unfold Train.accumulate_loss. rewrite accumulate_from. ring. Qed.


Section TrainFacts.
Context {X Tensor OptState : Type}.
Variable randperm_seeded : Z -> nat -> list nat.
Variable randperm_default : nat -> nat -> list nat.
Variable new_parameters : string -> nat -> list (string * Tensor).
Variable criterion_forward : list Tensor -> list (X * Z) -> Q.
Variable count_correct : list Tensor -> list (X * Z) -> Z.
Variable adam_init : OptState.
Variable adam_step :
  OptState -> list Tensor -> list (X * Z) -> OptState * list Tensor.

Abbreviation World := (Train.World X Tensor OptState).
Abbreviation train_batches :=
  (Train.train_batches (X:=X) criterion_forward adam_step).
Abbreviation training_step :=
  (Train.training_step (X:=X) criterion_forward adam_step).
Abbreviation training_losses :=
  (Train.training_losses (X:=X) criterion_forward adam_step).
Abbreviation evaluate := (Train.evaluate criterion_forward count_correct).
Abbreviation run_epoch :=
  (Train.run_epoch randperm_seeded randperm_default criterion_forward
     count_correct adam_step).
Abbreviation setup :=
  (Train.setup randperm_seeded randperm_default new_parameters adam_init).
Abbreviation train :=
  (Train.train randperm_seeded randperm_default new_parameters
     criterion_forward count_correct adam_init adam_step).

(** The progress message touches nothing but the trace. *)
Lemma report_progress_frame epoch i n loss (w w' : World) r :
  Train.report_progress epoch i n loss w = (w', r) ->
  Train.store w' = Train.store w /\ Train.adam w' = Train.adam w /\
  Train.files w' = Train.files w /\ Train.scalars w' = Train.scalars w /\
  Train.disk w' = Train.disk w.
Proof.
  unfold Train.report_progress, Train.bindM, Train.lift, Train.retM, Train.emit.
  unfold Py.floordiv. change ((10 =? 0)%Z) with false. cbv iota.
  unfold Py.modulo, Py.ret, Py.raise.
  destruct (Z.of_nat n / 10 =? 0)%Z.
  - intros [= <- _]. repeat split.
  - destruct (Z.of_nat i mod (Z.of_nat n / 10) =? 0)%Z.
    + destruct (Py.truediv _ _); intros [= <- _]; repeat split.
    + intros [= <- _]. repeat split.
Qed.

(** With between one and nine batches in the loader the progress check
    divides by zero. *)
Lemma report_progress_few epoch i n loss (w : World) :
  (n < 10)%nat ->
  Train.report_progress epoch i n loss w = (w, inl Py.ZeroDivisionError).
Proof.
  intros Hn.
  unfold Train.report_progress, Train.bindM, Train.lift.
  unfold Py.floordiv. change ((10 =? 0)%Z) with false. cbv iota.
  unfold Py.modulo, Py.ret. rewrite Z.div_small by lia. reflexivity.
Qed.

Lemma train_batches_losses m epoch n i batches acc (w w' : World) train_loss :
  train_batches m epoch n i batches acc w = (w', inr train_loss) ->
  train_loss
  = fold_left (fun loss l : Q => (loss + l / inject_Z (Z.of_nat n))%Q)
      (training_losses m (Train.store w) (Train.adam w) batches) acc /\
  Train.files w' = Train.files w /\ Train.scalars w' = Train.scalars w.
Proof.
  revert i acc w. induction batches as [|batch rest IH]; intros i acc w.
  - cbn. intros [= <- <-]. repeat split.
  - cbn [Train.train_batches Train.training_losses].
    unfold Train.bindM at 1. unfold Train.training_step at 1. cbn [fst snd].
    unfold Train.bindM at 1.
    destruct (Train.report_progress epoch i n _ _) as [w1 [e|[]]] eqn:Hrep;
      [discriminate|].
    apply report_progress_frame in Hrep.
    destruct Hrep as (Hs & Ha & Hf & Hsc & _).
    intros Hrest. apply IH in Hrest. destruct Hrest as (-> & Hf' & Hsc').
    rewrite Hs, Ha, Hf', Hsc', Hf, Hsc. cbn. repeat split.
Qed.






(** With one to nine batches in the loader, the first batch is stepped and
    the progress check then raises. *)
Lemma train_batches_few m epoch n i batch rest acc (w : World) :
  (n < 10)%nat ->
  train_batches m epoch n i (batch :: rest) acc w
  = (fst (training_step m epoch i batch w), inl Py.ZeroDivisionError).
Proof.
  intros Hn. cbn [Train.train_batches]. unfold Train.bindM at 1.
  unfold Train.training_step at 1. cbn [fst snd].
  unfold Train.bindM. rewrite report_progress_few by exact Hn. reflexivity.
Qed.

(** Every recorded checkpoint refers to the model's own tensors. *)
Lemma epochs_loop_state_dict body m epochs best (w w' : World) r :
  Train.epochs_loop body m epochs best w = (w', inr r) ->
  (forall b, best = Some b -> Train.State_Dict b = Train.state_dict m) ->
  forall b, r = Some b -> Train.State_Dict b = Train.state_dict m.
Proof.
  revert best w. induction epochs as [|epoch rest IH]; intros best w.
  - cbn. intros [= <- <-] H. exact H.
  - cbn [Train.epochs_loop]. unfold Train.bindM at 1.
    destruct (body epoch w) as [w1 [e|r1]]; [discriminate|].
    intros Hrest Hbest. eapply IH; [exact Hrest|].
    intros b. unfold Train.save_decision.
    destruct (match best with
              | Some b0 => Py.xlt r1.1 (Train.Loss b0)
              | None => true
              end).
    + intros [= <-]. reflexivity.
    + apply Hbest.
Qed.

Lemma best_path_not_last_path conf :
  Train.best_model_path conf <> Train.last_model_path conf.
Proof.
  unfold Train.best_model_path, Train.last_model_path, Train.join.
  intros H. do 3 apply String.app_inj in H. discriminate.
Qed.

Lemma finalize_files conf m b (w w' : World) :
  Train.finalize conf m (Some b) w = (w', inr tt) ->
  Train.store w' = Train.store w /\
  Train.files w'
  = <[Train.last_model_path conf :=
        Train.serialize (Train.store w) (Train.state_dict m)]>
      (<[Train.best_model_path conf :=
           Train.serialize (Train.store w) (Train.State_Dict b)]>
         (Train.files w)).
Proof.
  unfold Train.finalize, Train.bindM, Train.emit, Train.torch_save.
  cbn [Train.unwritable Train.files Train.store].
  destruct (decide (Train.best_model_path conf ∈ Train.unwritable w));
    [discriminate|].
  cbn [Train.unwritable Train.files Train.store].
  destruct (decide (Train.last_model_path conf ∈ Train.unwritable w));
    [discriminate|].
  intros [= <-]. split; reflexivity.
Qed.

(** X28. Whenever [train] completes, the two files it has written hold the
    same contents: the values the model's tensors have after the last
    epoch. *)
Lemma best_file_is_last_file conf (w w' : World) :
  train conf w = (w', inr tt) ->
  exists m,
    Train.files w' !! Train.best_model_path conf
    = Some (Train.serialize (Train.store w') (Train.state_dict m)) /\
    Train.files w' !! Train.last_model_path conf
    = Some (Train.serialize (Train.store w') (Train.state_dict m)).
Proof.
  unfold Train.train. unfold Train.bindM at 1.
  destruct (setup conf w) as [w1 [e|[train_dataset m]]]; [discriminate|].
  unfold Train.bindM at 1. cbn [fst snd].
  destruct (Train.epochs_loop _ m _ None w1) as [w2 [e|best]] eqn:Hloop;
    [discriminate|].
  destruct best as [b|]; [|discriminate].
  intros Hfin. apply finalize_files in Hfin.
  destruct Hfin as (Hstore & Hfiles). exists m.
  assert (Hsd : Train.State_Dict b = Train.state_dict m).
  { eapply epochs_loop_state_dict; [exact Hloop|discriminate|reflexivity]. }
  rewrite Hfiles, Hstore, Hsd. split.
  - rewrite lookup_insert_ne by (apply not_eq_sym, best_path_not_last_path).
    apply lookup_insert_eq.
  - apply lookup_insert_eq.
Qed.


(** The loop goes through the worlds that running the bodies alone goes
    through, and the checkpoint it returns is [best_after] of what the
    bodies returned. *)
Lemma epochs_loop_best_after body m first n best (w w' : World) r :
  Train.epochs_loop body m (seq first n) best w = (w', inr r) ->
  exists observed,
    Train.epoch_results body (seq first n) w = (w', inr observed) /\
    length observed = n /\
    r = Train.best_after (Train.state_dict m) first observed best.
Proof.
  revert first best w. induction n as [|n IH]; intros first best w.
  - cbn. intros [= <- <-]. exists []. repeat split.
  - cbn [seq Train.epochs_loop Train.epoch_results]. unfold Train.bindM at 1.
    destruct (body first w) as [w1 [e|[val_loss accuracy]]] eqn:Hbody;
      [discriminate|].
    intros Hrest. apply IH in Hrest.
    destruct Hrest as (observed & Hres & Hlen & ->).
    exists ((val_loss, accuracy) :: observed).
    unfold Train.bindM. rewrite Hbody, Hres. cbn. split; [reflexivity|].
    split; [lia|reflexivity].
Qed.

(** C6 (amended). Let the loop run the epochs [first .. first+n-1]
    ([n >= 1]) to the end, the bodies returning the validation losses and
    accuracies [observed].  Then a checkpoint is retained, and it is the
    record of one of the epochs, with the model's state dictionary.  When
    the loss of the first epoch is NaN, that first checkpoint is the one
    retained, whatever the later losses.  When it is not, the retained loss
    is not NaN, it is [<=] every observed loss that is not NaN, and every
    earlier epoch whose loss is not NaN had a strictly higher loss.  A
    recorded checkpoint is replaced exactly when the new loss compares
    strictly lower, and with no checkpoint yet the epoch is always
    recorded. *)
Theorem C6_best_checkpoint_minimal body m first n (w w' : World) r :
  (0 < n)%nat ->
  Train.epochs_loop body m (seq first n) None w = (w', inr r) ->
  exists observed best l0 a0,
    Train.epoch_results body (seq first n) w = (w', inr observed) /\
    length observed = n /\
    observed !! 0%nat = Some (l0, a0) /\
    r = Some best /\
    Train.State_Dict best = Train.state_dict m /\
    (exists k, observed !! k = Some (Train.Loss best, Train.Accuracy best) /\
               Train.Epoch best = (first + k)%nat) /\
    (Py.is_nan l0 = true ->
     Train.Epoch best = first /\ Train.Loss best = l0) /\
    (Py.is_nan l0 = false ->
     Py.is_nan (Train.Loss best) = false /\
     forall k l a, observed !! k = Some (l, a) -> Py.is_nan l = false ->
       Py.xle (Train.Loss best) l = true /\
       ((first + k < Train.Epoch best)%nat ->
        Py.xlt (Train.Loss best) l = true)) /\
    (forall b sd e l a,
       Train.save_decision (Some b) sd e l a
       = if Py.xlt l (Train.Loss b)
         then Some {| Train.State_Dict := sd; Train.Epoch := e;
                      Train.Loss := l; Train.Accuracy := a |}
         else Some b) /\
    (forall sd e l a,
       Train.save_decision None sd e l a
       = Some {| Train.State_Dict := sd; Train.Epoch := e;
                 Train.Loss := l; Train.Accuracy := a |}).
Proof.
  intros Hn Hloop. apply epochs_loop_best_after in Hloop.
  destruct Hloop as (observed & Hres & Hlen & ->).
  destruct observed as [|[l0 a0] rest]; [cbn in Hlen; lia|].
  cbn [Train.best_after Train.save_decision].
  set (b0 := {| Train.State_Dict := Train.state_dict m; Train.Epoch := first;
                Train.Loss := l0; Train.Accuracy := a0 |}).
  assert (Hsteps :
    (forall b sd e l a,
       Train.save_decision (Some b) sd e l a
       = if Py.xlt l (Train.Loss b)
         then Some {| Train.State_Dict := sd; Train.Epoch := e;
                      Train.Loss := l; Train.Accuracy := a |}
         else Some b) /\
    (forall sd e l a,
       Train.save_decision None sd e l a
       = Some {| Train.State_Dict := sd; Train.Epoch := e;
                 Train.Loss := l; Train.Accuracy := a |})).
  { split; [|reflexivity]. intros b sd e l a. unfold Train.save_decision.
    destruct (Py.xlt l (Train.Loss b)); reflexivity. }
  destruct (Py.is_nan l0) eqn:Hnan.
  - exists ((l0, a0) :: rest), b0, l0, a0.
    rewrite (best_after_nan _ _ _ b0 Hnan).
    split; [exact Hres|]. split; [exact Hlen|]. split; [reflexivity|].
    split; [reflexivity|]. split; [reflexivity|].
    split; [exists 0%nat; split; [reflexivity|cbn; lia]|].
    split; [intros _; split; reflexivity|].
    split; [intros H; congruence|exact Hsteps].
  - destruct (best_after_some (Train.state_dict m) (S first) rest b0 Hnan)
      as (b' & Hb' & Hnan' & Hle & Hall & Hwhich).
    exists ((l0, a0) :: rest), b', l0, a0. rewrite Hb'.
    split; [exact Hres|]. split; [exact Hlen|]. split; [reflexivity|].
    split; [reflexivity|].
    split; [destruct Hwhich as [->|(_ & _ & _ & _ & _ & _ & Hsd & _)];
            [reflexivity|exact Hsd]|].
    split.
    { destruct Hwhich as [->|(_ & k & a & Hk & He & Ha & _)].
      - exists 0%nat. split; [reflexivity|cbn; lia].
      - exists (S k). rewrite Ha. split; [exact Hk|lia]. }
    split; [intros H; congruence|]. split; [|exact Hsteps].
    intros _. split; [exact Hnan'|].
    intros [|k] l a Hk Hl; cbn in Hk.
    + injection Hk as <- <-. split; [exact Hle|].
      destruct Hwhich as [->|(Hlt & _)]; [cbn; lia|].
      intros _. exact Hlt.
    + split; [apply (Hall k l a Hk Hl)|].
      destruct Hwhich as [->|(_ & k' & a' & _ & He & _ & _ & Hbefore)];
        [cbn; lia|].
      intros Hearlier. apply (Hbefore k l a); [lia|exact Hk|exact Hl].
Qed.

(** X29. What an epoch logs: the train loss accumulated by [train_batches],
    the validation loss accumulated by [evaluate] at the parameters the epoch
    ends with, and the accuracy; the last two are what it returns. *)
Lemma run_epoch_reports conf train_dataset m epoch (w w' : World) val_loss accuracy :
  run_epoch conf train_dataset m epoch w = (w', inr (val_loss, accuracy)) ->
  exists train_loader val_loader train_loss,
    train_loss
    = Train.accumulate_loss (length train_loader)
        (training_losses m (Train.store w) (Train.adam w) train_loader) /\
    val_loss
    = snd (evaluate (Train.read (Train.store w') (Train.parameters m)) val_loader) /\
    Train.scalars w'
    = Train.scalars w
      ++ [ {| Train.main_tag := "Loss"; Train.tag := "Train";
              Train.value := train_loss;
              Train.global_step := Z.of_nat epoch |};
           {| Train.main_tag := "Loss"; Train.tag := "Validation";
              Train.value := val_loss;
              Train.global_step := Z.of_nat epoch |};
           {| Train.main_tag := "Accuracy"; Train.tag := "Validation";
              Train.value := accuracy;
              Train.global_step := Z.of_nat epoch |} ].
Proof.
  unfold Train.run_epoch. unfold Train.bindM at 1. cbn [Train.emit].
  unfold Train.bindM at 1. unfold Train._get_dataset_split at 1.
  unfold Train.bindM at 1. cbn [Train.randperm Train.default_rng Train.lift].
  match goal with
  | |- context [Data._get_dataset_split ?p ?d ?part ?f] =>
      destruct (Data._get_dataset_split p d part f) as [e|sp]
  end; [discriminate|].
  destruct sp as [train_split val_split| |]; [|discriminate..].
  unfold Train.bindM at 1. unfold Train.lift at 1.
  destruct (Train.DataLoader train_split _) as [e|train_loader]; [discriminate|].
  unfold Train.bindM at 1. unfold Train.lift at 1.
  destruct (Train.DataLoader val_split _) as [e|val_loader]; [discriminate|].
  unfold Train.bindM at 1.
  match goal with
  | |- context [Train.train_batches ?c ?a m epoch ?n 0 train_loader 0%Q ?w0] =>
      destruct (Train.train_batches c a m epoch n 0 train_loader 0%Q w0)
        as [w1 [e|train_loss]] eqn:Htrain
  end; [discriminate|].
  apply train_batches_losses in Htrain. cbn [Train.store Train.adam
    Train.files Train.scalars] in Htrain. destruct Htrain as (Htl & _ & Hsc).
  unfold Train.bindM at 1.
  destruct (evaluate (Train.read (Train.store w1) (Train.parameters m)) val_loader)
    as [[total correct] vl] eqn:Hev.
  unfold Train.bindM at 1. cbn [Train.add_scalars].
  unfold Train.bindM at 1. unfold Train.lift at 1.
  destruct (Py.truediv _ _) as [e|acc]; [discriminate|].
  unfold Train.bindM at 1. cbn [Train.add_scalars].
  unfold Train.bindM at 1. cbn [Train.emit Train.retM].
  intros [= <- <- <-]. exists train_loader, val_loader, train_loss.
  cbn [Train.store Train.scalars]. rewrite Hev, Hsc. cbn [snd map app].
  split; [exact Htl|]. split; [reflexivity|].
  rewrite <- app_assoc. reflexivity.
Qed.

(** What [test] prints: the loss accumulated by [evaluate] over the test
    loader, at the parameters loaded from the best-model file. *)
Lemma test_reports conf (w w' : World) :
  Train.test randperm_seeded randperm_default new_parameters
    criterion_forward count_correct conf w = (w', inr tt) ->
  exists m test_loader loss accuracy,
    last (Train.trace w') = Some (Train.EvTestSummary loss accuracy) /\
    loss = snd (evaluate (Train.read (Train.store w') (Train.parameters m))
                         test_loader).
Proof.
  unfold Train.test. unfold Train.bindM at 1.
  destruct ((match Train.server_config conf with
             | Some f => Train.emit (Train.EvServerSetup f)
             | None => Train.retM tt
             end) w) as [w1 [e|[]]]; [discriminate|].
  unfold Train.bindM at 1.
  destruct (Train._get_dataset (Train.dataset conf) w1)
    as [w2 [e|dataset]]; [discriminate|].
  unfold Train.bindM at 1.
  destruct (Train._get_dataset_split _ _ _ _ _ _ w2) as [w3 [e|sp]];
    [discriminate|].
  destruct sp as [| test_dataset |]; [discriminate| |discriminate].
  unfold Train.bindM at 1. unfold Train.lift at 1.
  destruct (Train.DataLoader test_dataset _) as [e|test_loader] eqn:Hloader;
    [discriminate|].
  unfold Train.bindM at 1.
  destruct (Train.get_classes dataset w3) as [w4 [e|classes]]; [discriminate|].
  unfold Train.bindM at 1.
  destruct (Train._get_model _ _ _ _ w4) as [w5 [e|model]]; [discriminate|].
  unfold Train.bindM at 1.
  destruct (Train.to_device model w5) as [w6 [e|m]]; [discriminate|].
  unfold Train.bindM at 1.
  destruct (Train.load_state_dict m _ w6) as [w7 [e|[]]]; [discriminate|].
  unfold Train.bindM at 1. cbn [Train.emit].
  unfold Train.bindM at 1. unfold Train.lift at 1.
  unfold Train.bindM at 1.
  match goal with
  | |- context [evaluate ?v test_loader] =>
      destruct (evaluate v test_loader) as [[total correct] loss] eqn:Hev
  end.
  unfold Train.bindM at 1. unfold Train.lift at 1.
  destruct (Py.truediv _ _) as [e|accuracy]; [discriminate|].
  unfold Train.bindM at 1. cbn [Train.add_scalars Train.emit].
  intros [= <-]. exists m, test_loader, loss, accuracy.
  cbn [Train.trace Train.store]. split.
  - apply last_snoc.
  - cbn [Train.store] in Hev. rewrite Hev. reflexivity.
Qed.

(** C8 (amended). When the dataset name or the model name is not one that
    [_get_dataset] / [_get_model] know, [train] raises before any model is
    built, any optimizer or log writer is created, any epoch is run or any
    file is written: store, files and scalar log are untouched.  With an
    unknown dataset name nothing has been loaded at that point; with a known
    dataset and an unknown model name the dataset has already been
    loaded. *)
Theorem C8_unknown_names_raise conf (w : World) :
  Train.supported_dataset (Train.dataset conf) = false
  \/ Train.supported_model (Train.model conf) = false ->
  exists w' e evs, train conf w = (w', inl e) /\
    Train.store w' = Train.store w /\ Train.files w' = Train.files w /\
    Train.scalars w' = Train.scalars w /\
    Train.trace w' = Train.trace w ++ evs /\
    forallb Train.before_model evs = true /\
    (Train.supported_dataset (Train.dataset conf) = false ->
     forallb Train.before_data evs = true) /\
    (Train.supported_dataset (Train.dataset conf) = true ->
     (exists d, Train.disk w !! (if String.eqb (Py.lower (Train.dataset conf)) "demos"
                                 then Train.join Train.data_path "DEMoS_dataset"
                                 else Train.join Train.data_path
                                        "DEMoS_dataset_short_test") = Some d) ->
     existsb (fun ev => negb (Train.before_data ev)) evs = true).
Proof.
  intros Hunknown.
  unfold Train.train, Train.setup. unfold Train.bindM at 1 2.
  set (w0 := (match Train.server_config conf with
              | Some f => Train.emit (Train.EvServerSetup f)
              | None => Train.retM tt
              end) w).
  assert (Hw0 : exists evs0, w0 = (({|
              Train.disk := Train.disk w; Train.store := Train.store w;
              Train.next_loc := Train.next_loc w; Train.adam := Train.adam w;
              Train.files := Train.files w;
              Train.unwritable := Train.unwritable w;
              Train.scalars := Train.scalars w;
              Train.trace := Train.trace w ++ evs0;
              Train.default_rng := Train.default_rng w |}), inr tt)
            /\ forallb Train.before_data evs0 = true).
  { subst w0. destruct (Train.server_config conf) as [f|].
    - exists [Train.EvServerSetup f]. split; reflexivity.
    - exists []. rewrite app_nil_r. destruct w. split; reflexivity. }
  destruct Hw0 as (evs0 & -> & Hevs0).
  cbv beta iota. unfold Train.bindM at 1.
  unfold Train.supported_dataset, Train.supported_model in *.
  unfold Train._get_dataset.
  destruct (String.eqb (Py.lower (Train.dataset conf)) "demos") eqn:Hd1;
    [|destruct (String.eqb (Py.lower (Train.dataset conf)) "demos_short_test")
        eqn:Hd2].
  3:{ (* unknown dataset name *)
    unfold Train.retM. cbv beta iota. unfold Train.bindM at 1.
    cbn [Train._get_dataset_split fmap option_fmap option_map Train.raiseM].
    eexists _, _, evs0. split; [reflexivity|]. cbn.
    split; [reflexivity|]. split; [reflexivity|]. split; [reflexivity|].
    split; [reflexivity|]. split; [|split].
    - clear -Hevs0. induction evs0 as [|[] evs IH]; cbn in *;
        try discriminate; auto.
    - intros _. exact Hevs0.
    - intros H. cbn in H. discriminate H. }
  all: destruct Hunknown as [Hunknown|Hunknown]; [cbn in Hunknown; discriminate|].
  all: apply orb_false_iff in Hunknown; destruct Hunknown as [Hm1 Hm2].
  all: unfold Train.bindM at 1; unfold Train.load_dataset; cbn [Train.disk].
  all: match goal with
       | |- context [Train.disk ?w0 !! ?root] =>
           destruct (Train.disk w0 !! root) as [d|] eqn:Hdisk
       end.
  all: cbv beta iota.
  2,4: (eexists _, _, evs0; split; [reflexivity|]; cbn;
        repeat split; try assumption;
        [ clear -Hevs0; induction evs0 as [|[] evs IH]; cbn in *;
            try discriminate; auto
        | discriminate
        | intros _ [d' Hd']; discriminate ]).
  all: cbn [Train.emit fst Train.retM].
  all: unfold Train.bindM at 1.
  all: cbn [Train._get_dataset_split fmap option_fmap option_map].
  all: unfold Train.bindM at 1; unfold Train.randperm.
  all: assert (Hbm : forallb Train.before_model
                       (evs0 ++ [Train.EvDatasetLoaded
                                   (if String.eqb (Py.lower (Train.dataset conf)) "demos"
                                    then Train.join Train.data_path "DEMoS_dataset"
                                    else Train.join Train.data_path
                                           "DEMoS_dataset_short_test")]) = true)
         by (rewrite forallb_app; apply andb_true_iff; split; [|reflexivity];
             clear -Hevs0; induction evs0 as [|[] evs IH]; cbn in *;
             try discriminate; auto).
  all: assert (Hex : existsb (fun ev => negb (Train.before_data ev))
                       (evs0 ++ [Train.EvDatasetLoaded
                                   (if String.eqb (Py.lower (Train.dataset conf)) "demos"
                                    then Train.join Train.data_path "DEMoS_dataset"
                                    else Train.join Train.data_path
                                           "DEMoS_dataset_short_test")]) = true)
         by (rewrite existsb_app; apply orb_true_iff; right; reflexivity).
  all: rewrite Hd1 in Hbm, Hex.
  all: destruct (Train.train_test_split_seed conf) as [seed|]; cbv beta iota;
       cbn [Train.lift Train.disk Train.store Train.next_loc Train.adam
            Train.files Train.scalars Train.trace Train.default_rng].
  all: match goal with
       | |- context [Data._get_dataset_split ?p ?d ?part ?f] =>
           destruct (Data._get_dataset_split p d part f) as [e|sp]
       end.
  all: cbv beta iota.
  all: try (eexists _, _, _; split; [reflexivity|]; cbn;
            rewrite <- ?app_assoc;
            repeat split; [exact Hbm|congruence|intros _ _; exact Hex]).
  all: unfold Train.bindM at 1; cbn [Train.get_classes Train.retM].
  all: unfold Train.bindM at 1; unfold Train._get_model; rewrite Hm1, Hm2.
  all: cbn [Train.retM]; unfold Train.bindM at 1; cbn [Train.to_device Train.raiseM].
  all: eexists _, _, _; split; [reflexivity|]; cbn;
       rewrite <- ?app_assoc;
       repeat split; [exact Hbm|congruence|intros _ _; exact Hex].
Qed.

End TrainFacts.

(** ** The entry points on concrete runs *)

(** C1. A two-epoch run on 24 samples with batches of 2.  Epoch 0 ends
    with [weight = 10] (what a one-epoch run saves as its last model) and
    validation loss 94/3; epoch 1 ends with [weight = 20] and the higher
    validation loss 124/3, so the summary names epoch 0 as the best one.
    The file written as the best model nevertheless holds [weight = 20],
    the same contents as the last-model file: the recorded state dictionary
    refers to the tensors that the optimizer keeps updating in place. *)
Theorem C1_best_model_file_holds_last_epoch :
  snd (Demo.train (Demo.conf 2 "cnn" 2) (Demo.world 24)) = inr tt /\
  filter Demo.is_summary
    (Train.trace (fst (Demo.train (Demo.conf 2 "cnn" 2) (Demo.world 24))))
  = [Train.EvSavingModels 0 (Py.Num (3384 # 108)) (2 # 5)] /\
  map Train.value
    (filter (fun sc => String.eqb (Train.tag sc) "Validation"
                       && String.eqb (Train.main_tag sc) "Loss")
       (Train.scalars (fst (Demo.train (Demo.conf 2 "cnn" 2) (Demo.world 24)))))
  = [3384 # 108; 4464 # 108] /\
  Train.files (fst (Demo.train (Demo.conf 1 "cnn" 2) (Demo.world 24)))
    !! Train.last_model_path (Demo.conf 1 "cnn" 2)
  = Some [("weight", 10%Z)] /\
  Train.files (fst (Demo.train (Demo.conf 2 "cnn" 2) (Demo.world 24)))
    !! Train.best_model_path (Demo.conf 2 "cnn" 2)
  = Some [("weight", 20%Z)] /\
  Train.files (fst (Demo.train (Demo.conf 2 "cnn" 2) (Demo.world 24)))
    !! Train.last_model_path (Demo.conf 2 "cnn" 2)
  = Some [("weight", 20%Z)].
Proof.
  split; [vm_compute; reflexivity|].
  split; [vm_compute; reflexivity|].
  split; [vm_compute; reflexivity|].
  split; [vm_compute; reflexivity|].
  split; vm_compute; reflexivity.
Qed.

(** C5. One epoch on a two-class dataset of 10 samples with batch size 5:
    the 8 training samples make 2 batches, [len(train_loader)//10] is 0,
    and the progress check of the first batch raises [ZeroDivisionError].
    One optimizer step has been made, no epoch summary exists, no
    checkpoint is recorded and no file is written. *)
Theorem C5_short_run_raises :
  snd (Demo.train (Demo.conf 1 "cnn" 5) (Demo.world 10))
  = inl Py.ZeroDivisionError /\
  Train.files (fst (Demo.train (Demo.conf 1 "cnn" 5) (Demo.world 10))) = ∅ /\
  filter Demo.is_step
    (Train.trace (fst (Demo.train (Demo.conf 1 "cnn" 5) (Demo.world 10))))
  = [Train.EvOptimizerStep 0 0] /\
  filter Demo.is_summary
    (Train.trace (fst (Demo.train (Demo.conf 1 "cnn" 5) (Demo.world 10))))
  = [] /\
  Train.scalars (fst (Demo.train (Demo.conf 1 "cnn" 5) (Demo.world 10))) = [].
Proof.
  split; [vm_compute; reflexivity|].
  split; [vm_compute; reflexivity|].
  split; [vm_compute; reflexivity|].
  split; vm_compute; reflexivity.
Qed.

(** C8, as stated, fails: with the unknown model name ["resnet"] the run
    raises only after the dataset has been loaded. *)
Lemma C8_unknown_model_raises_after_loading :
  Train.supported_model "resnet" = false /\
  snd (Demo.train (Demo.conf 1 "resnet" 2) (Demo.world 24))
  = inl (Py.AttributeError "NoneType" "to") /\
  Train.trace (fst (Demo.train (Demo.conf 1 "resnet" 2) (Demo.world 24)))
  = [Train.EvDatasetLoaded "./Assets/Data/DEMoS_dataset"].
Proof.
  split; [reflexivity|]. split; vm_compute; reflexivity.
Qed.


(** C6, as stated, fails: when the validation loss of epoch 0 is NaN and
    that of epoch 1 is 1, the comparison [1 < nan] is false, the checkpoint
    of epoch 0 is retained, and its loss is not [<=] the loss of
    epoch 1. *)
Lemma C6_nan_loss_never_replaced :
  Train.epochs_loop (Demo.epochs_with [Py.NaN; Py.Num 1])
    Demo.model (seq 0 2) None Demo.world_with_model
  = (Demo.world_with_model,
     inr (Some {| Train.State_Dict := Train.state_dict Demo.model;
                  Train.Epoch := 0; Train.Loss := Py.NaN;
                  Train.Accuracy := 1 # 2 |})) /\
  Py.xle Py.NaN (Py.Num 1) = false.
Proof. split; reflexivity. Qed.

(** C7, as stated, fails: for 10 samples and the fraction 1.5,
    [round(N*f)] is 15 and [N - round(N*f)] is -5, and the split returns
    the 10 samples and none. *)
Lemma C7_fraction_above_one_keeps_all :
  Data.split_point (Data.Base (Demo.samples 10))
    (Py.Float (Py.float_literal (3 # 2))) = inr 15%Z /\
  Data.split_dataset (seq 0 10) (Data.Base (Demo.samples 10))
    (Py.Float (Py.float_literal (3 # 2)))
  = inr (Data.Subset (Data.Base (Demo.samples 10)) (seq 0 10),
         Data.Subset (Data.Base (Demo.samples 10)) []) /\
  Data.len (Data.Subset (Data.Base (Demo.samples 10)) (seq 0 10)) = 10%nat.
Proof.
  split; [vm_compute; reflexivity|]. split; [vm_compute; reflexivity|].
  reflexivity.
Qed.

(** ** The theorems at concrete inputs *)

(** 45 samples split at 0.7, a fraction between 0 and 1: the float
    product [45 * 0.7] is 31.499999999999996, which rounds to 31, and the
    subsets have 31 and 14 samples. *)
Lemma C7_split_sizes_witness :
  Py.in_unit (Py.Float (Py.float_literal (7 # 10))) = true /\
  exists A B,
    Data.split_dataset (seq 0 45) (Data.Base (Demo.samples 45))
      (Py.Float (Py.float_literal (7 # 10)))
    = inr (A, B) /\
    Z.of_nat (Data.len A) = 31%Z /\ Z.of_nat (Data.len B) = 14%Z.
Proof.
  split; [vm_compute; reflexivity|].
  destruct (C7_split_sizes (seq 0 45) (Data.Base (Demo.samples 45)))
    as (Hsizes & _ & _); [reflexivity|].
  destruct (Hsizes (Py.Float (Py.float_literal (7 # 10))) 31%Z)
    as (A & B & Hs & _ & Ha & Hb & _).
  - vm_compute. reflexivity.
  - vm_compute. split; discriminate.
  - exists A, B. split; [exact Hs|]. split; [exact Ha|].
    rewrite Hb. reflexivity.
Defined.

(** Epoch 6 of 10, two batches per epoch, base rate 1/10: the
    head-and-encoder optimizer steps at 4/5 of the base rate. *)
Lemma C3_staged_learning_rate_witness :
  exists st l1,
    Sched.fit_epochs Sched.sgd_unit 10 2 0 7
      (Sched.fit_init (1 # 10) Sched.example_weights) = inr st /\
    Sched.lr_of (Sched.opt1 st) = [l1] /\
    l1 == (1 # 10) * (4 # 5).
Proof.
  destruct (C3_staged_learning_rate Sched.sgd_unit (1 # 10) 10 6 2
              Sched.example_weights)
    as (st & l0 & l1 & Hfit & _ & Hl1 & _ & _ & Hdecay & _); [lia..|].
  exists st, l1. split; [exact Hfit|]. split; [exact Hl1|].
  assert (H : (10 / 2 <= 6)%Z) by (vm_compute; discriminate).
  specialize (Hdecay H). change (Sched.active 10 6 0) with false in Hdecay.
  cbv iota in Hdecay. rewrite Hdecay. reflexivity.
Defined.

(** One batch of epoch 6 of 10 from the configured optimizers: optimizer 1
    has made one step, optimizer 0 is as before. *)
Lemma C4_staged_groups_witness :
  exists st',
    Sched.training_batch Sched.sgd_unit 10 6
      (Sched.fit_init (1 # 10) Sched.example_weights) = inr st' /\
    Sched.n_steps (Sched.opt1 st') = 1%nat /\
    Sched.opt0 st' = Sched.opt0 (Sched.fit_init (1 # 10) Sched.example_weights).
Proof.
  destruct (C4_staged_groups Sched.sgd_unit 10 6
              (Sched.fit_init (1 # 10) Sched.example_weights))
    as (st' & Hb & _ & _ & Hlate & _).
  - lia.
  - lia.
  - split; reflexivity.
  - destruct Hlate as (_ & _ & Hn & H0 & _); [lia|].
    exists st'. split; [exact Hb|]. split; [exact Hn|exact H0].
Defined.

(** Three epochs with validation losses 3, 2 and 5/2: the checkpoint of
    epoch 1 is retained. *)
Lemma C6_best_checkpoint_minimal_witness :
  exists best,
    Train.epochs_loop (Demo.epochs_with [Py.Num 3; Py.Num 2; Py.Num (5 # 2)])
      Demo.model (seq 0 3) None Demo.world_with_model
    = (Demo.world_with_model, inr (Some best)) /\
    Train.Epoch best = 1%nat /\
    Py.xle (Train.Loss best) (Py.Num (5 # 2)) = true.
Proof.
  destruct (C6_best_checkpoint_minimal
              (Demo.epochs_with [Py.Num 3; Py.Num 2; Py.Num (5 # 2)])
              Demo.model 0 3 Demo.world_with_model Demo.world_with_model
              (Some {| Train.State_Dict := Train.state_dict Demo.model;
                       Train.Epoch := 1; Train.Loss := Py.Num 2;
                       Train.Accuracy := 1 # 2 |}))
    as (observed & best & l0 & a0 & _ & _ & _ & Hr & _).
  - lia.
  - reflexivity.
  - injection Hr as <-. eexists. split; [reflexivity|]. split; reflexivity.
Defined.

(** The model name ["resnet"] on the 24-sample world. *)
Lemma C8_unknown_names_raise_witness :
  exists w' e,
    Demo.train (Demo.conf 1 "resnet" 2) (Demo.world 24) = (w', inl e) /\
    Train.files w' = Train.files (Demo.world 24).
Proof.
  destruct (C8_unknown_names_raise Demo.randperm_seeded Demo.randperm_default
              Demo.new_parameters Demo.criterion_forward Demo.count_correct
              tt Demo.adam_step (Demo.conf 1 "resnet" 2) (Demo.world 24))
    as (w' & e & evs & Hrun & _ & Hfiles & _).
  - right. reflexivity.
  - exists w', e. split; [exact Hrun|exact Hfiles].
Defined.

(** [Wav2VecFeezingEncoderOnly] as built by its constructor: after
    [train()] the encoder is in evaluation mode. *)
Lemma C9_frozen_submodules_after_train_witness :
  exists sub,
    Modes.submodule [Modes.pretrained_model; Modes.encoder]
      (Modes.train Modes.Wav2VecFeezingEncoderOnly
         (Modes.init [] [] [] [] Modes.Wav2VecFeezingEncoderOnly)) = Some sub /\
    Modes.all_eval sub = true.
Proof.
  apply (C9_frozen_submodules_after_train Modes.Wav2VecFeezingEncoderOnly
           (Modes.init [] [] [] [] Modes.Wav2VecFeezingEncoderOnly)
           [Modes.pretrained_model; Modes.encoder] (Modes.Node false [])).
  - left.
  - reflexivity.
Defined.


(* ################################################################# *)
(** * Further properties of the staged optimizer step *)

Section MoreStepFacts.
Context {Tensor : Type}.
Variable update : Q -> string -> Tensor -> Tensor.
Implicit Types (o : Sched.Optimizer) (w : gmap string Tensor) (E e idx : Z).

Lemma scheduled_n_steps E e o :
  Sched.n_steps (Sched.scheduled E e o) = Sched.n_steps o.
Proof.
  unfold Sched.scheduled.
  destruct (e <? E / 10)%Z; [reflexivity|].
  destruct (e >=? E / 2)%Z; reflexivity.
Qed.

(** One batch, written out: the optimizer that [active] selects is
    rescheduled and stepped, the other one is handed on as it is. *)
Lemma training_batch_eq E e (st : @Sched.FitState Tensor) :
  (0 < E)%Z -> (0 <= e)%Z ->
  Sched.training_batch update E e st
  = inr (if Sched.active E e 0
         then {| Sched.opt0 :=
                   fst (Sched.step update (Sched.scheduled E e (Sched.opt0 st))
                          (Sched.weights st));
                 Sched.opt1 := Sched.opt1 st;
                 Sched.weights :=
                   snd (Sched.step update (Sched.scheduled E e (Sched.opt0 st))
                          (Sched.weights st)) |}
         else {| Sched.opt0 := Sched.opt0 st;
                 Sched.opt1 :=
                   fst (Sched.step update (Sched.scheduled E e (Sched.opt1 st))
                          (Sched.weights st));
                 Sched.weights :=
                   snd (Sched.step update (Sched.scheduled E e (Sched.opt1 st))
                          (Sched.weights st)) |}).
Proof.
  intros HE He. unfold Sched.training_batch.
  rewrite optimizer_step_eq by assumption. cbn [Py.bind].
  rewrite optimizer_step_eq by assumption. cbn [Py.bind].
  unfold Sched.active. change (0 =? 0)%Z with true.
  change (1 =? 0)%Z with false. change (1 =? 1)%Z with true. cbv iota.
  destruct (10 * e <=? 3 * E)%Z eqn:Hact.
  - apply Z.leb_le in Hact.
    replace (3 * E <? 10 * e)%Z with false by (symmetry; apply Z.ltb_ge; lia).
    reflexivity.
  - apply Z.leb_gt in Hact.
    replace (3 * E <? 10 * e)%Z with true by (symmetry; apply Z.ltb_lt; lia).
    reflexivity.
Qed.

(** X1. With [self.num_epochs = 0] the hook raises [ZeroDivisionError]
    for every epoch, optimizer and index (the progress [epoch / num_epochs]
    is computed first), so a fit with at least one batch fails in its first
    batch, before any optimizer has stepped. *)
Theorem zero_epochs_hook_raises e o idx w nb first n
    (st : @Sched.FitState Tensor) :
  (1 <= nb)%nat ->
  Sched.optimizer_step update 0 e o idx w = inl Py.ZeroDivisionError /\
  Sched.training_batch update 0 e st = inl Py.ZeroDivisionError /\
  Sched.fit_epochs update 0 nb first (S n) st = inl Py.ZeroDivisionError.
Proof.
  intros Hnb.
  assert (Hhook : forall e' o' idx' w',
            Sched.optimizer_step update 0 e' o' idx' w'
            = inl Py.ZeroDivisionError) by reflexivity.
  assert (Hbatch : forall e' st',
            Sched.training_batch update 0 e' st' = inl Py.ZeroDivisionError).
  { intros e' st'. unfold Sched.training_batch. rewrite Hhook. reflexivity. }
  split; [apply Hhook|]. split; [apply Hbatch|].
  destruct nb as [|nb]; [lia|].
  cbn [Sched.fit_epochs Sched.training_epoch]. rewrite Hbatch. reflexivity.
Qed.

Lemma training_batch_steps E e (st : @Sched.FitState Tensor) :
  (0 < E)%Z -> (0 <= e)%Z ->
  exists st', Sched.training_batch update E e st = inr st' /\
    (Sched.n_steps (Sched.opt0 st') + Sched.n_steps (Sched.opt1 st')
     = S (Sched.n_steps (Sched.opt0 st) + Sched.n_steps (Sched.opt1 st)))%nat.
Proof.
  intros HE He. rewrite training_batch_eq by assumption.
  eexists. split; [reflexivity|].
  destruct (Sched.active E e 0);
    cbn [Sched.opt0 Sched.opt1 Sched.step fst Sched.n_steps];
    rewrite scheduled_n_steps; lia.
Qed.

Lemma training_epoch_steps E e nb (st : @Sched.FitState Tensor) :
  (0 < E)%Z -> (0 <= e)%Z ->
  exists st', Sched.training_epoch update E e nb st = inr st' /\
    (Sched.n_steps (Sched.opt0 st') + Sched.n_steps (Sched.opt1 st')
     = Sched.n_steps (Sched.opt0 st) + Sched.n_steps (Sched.opt1 st) + nb)%nat.
Proof.
  intros HE He. revert st. induction nb as [|nb IH]; intros st.
  - exists st. split; [reflexivity|lia].
  - destruct (training_batch_steps E e st HE He) as (st1 & Hb & H1).
    destruct (IH st1) as (st2 & Hr & H2).
    exists st2. split; [|lia].
    cbn [Sched.training_epoch]. rewrite Hb. exact Hr.
Qed.

(** X2. For [num_epochs > 0] a fit never raises, and every batch steps
    exactly one of the two optimizers: after [n] epochs of [nb] batches
    the two step counts have grown by [n * nb] together. *)
Theorem fit_steps_once_per_batch E nb first n (st : @Sched.FitState Tensor) :
  (0 < E)%Z -> (0 <= first)%Z ->
  exists st', Sched.fit_epochs update E nb first n st = inr st' /\
    (Sched.n_steps (Sched.opt0 st') + Sched.n_steps (Sched.opt1 st')
     = Sched.n_steps (Sched.opt0 st) + Sched.n_steps (Sched.opt1 st)
       + n * nb)%nat.
Proof.
  intros HE. revert first st. induction n as [|n IH]; intros first st Hf.
  - exists st. split; [reflexivity|lia].
  - destruct (training_epoch_steps E first nb st HE Hf) as (st1 & He & H1).
    destruct (IH (first + 1)%Z st1 ltac:(lia)) as (st2 & Hr & H2).
    exists st2. split; [|lia].
    cbn [Sched.fit_epochs]. rewrite He. exact Hr.
Qed.

(** A relation between fit states that every batch of the admitted epochs
    establishes carries over to whole fits. *)
Lemma fit_epochs_preserves (R : @Sched.FitState Tensor -> @Sched.FitState Tensor -> Prop)
    (ok : Z -> Prop) E nb :
  (forall st, R st st) ->
  (forall a b c, R a b -> R b c -> R a c) ->
  (forall e st, (0 <= e)%Z -> ok e -> Sched.configured st ->
     exists st', Sched.training_batch update E e st = inr st' /\
                 Sched.configured st' /\ R st st') ->
  forall n first st,
    (0 <= first)%Z ->
    (forall e, (first <= e < first + Z.of_nat n)%Z -> ok e) ->
    Sched.configured st ->
    exists st', Sched.fit_epochs update E nb first n st = inr st' /\
                Sched.configured st' /\ R st st'.
Proof.
  intros Hrefl Htrans Hbatch.
  assert (Hepoch : forall e, (0 <= e)%Z -> ok e -> forall k st,
            Sched.configured st ->
            exists st', Sched.training_epoch update E e k st = inr st' /\
                        Sched.configured st' /\ R st st').
  { intros e He Hok k. induction k as [|k IH]; intros st Hc.
    - exists st. split; [reflexivity|]. split; [exact Hc|apply Hrefl].
    - destruct (Hbatch e st He Hok Hc) as (st1 & Hb & Hc1 & HR1).
      destruct (IH st1 Hc1) as (st2 & Hr & Hc2 & HR2).
      exists st2. split; [|split; [exact Hc2|eapply Htrans; eassumption]].
      cbn [Sched.training_epoch]. rewrite Hb. exact Hr. }
  induction n as [|n IH]; intros first st Hf Hok Hc.
  - exists st. split; [reflexivity|]. split; [exact Hc|apply Hrefl].
  - destruct (Hepoch first Hf (Hok first ltac:(lia)) nb st Hc)
      as (st1 & He & Hc1 & HR1).
    destruct (IH (first + 1)%Z st1 ltac:(lia)) as (st2 & Hr & Hc2 & HR2);
      [intros e He'; apply Hok; lia|exact Hc1|].
    exists st2. split; [|split; [exact Hc2|eapply Htrans; eassumption]].
    cbn [Sched.fit_epochs]. rewrite He. exact Hr.
Qed.

(** X3. Whatever the number of epochs and batches, a fit changes only the
    tensors of feature projection, encoder and head: the frozen feature
    extractor, and any other tensor that is in neither optimizer's list,
    ends the fit with the value it started with. *)
Theorem fit_leaves_unlisted_tensors E nb first n (st : @Sched.FitState Tensor) :
  (0 < E)%Z -> (0 <= first)%Z -> Sched.configured st ->
  exists st', Sched.fit_epochs update E nb first n st = inr st' /\
    Sched.weights st' !! Sched.feature_extractor
    = Sched.weights st !! Sched.feature_extractor /\
    forall name,
      name ∉ [Sched.feature_projection; Sched.encoder; Sched.linear_layer] ->
      Sched.weights st' !! name = Sched.weights st !! name.
Proof.
  intros HE Hf Hc.
  destruct (fit_epochs_preserves
              (fun a b => forall name,
                 name ∉ [Sched.feature_projection; Sched.encoder;
                         Sched.linear_layer] ->
                 Sched.weights b !! name = Sched.weights a !! name)
              (fun _ => True) E nb) with (n := n) (first := first) (st := st)
    as (st' & Hfit & _ & HR); try auto.
  - intros a b c Hab Hbc name Hn. rewrite Hbc, Hab by exact Hn. reflexivity.
  - intros e st0 He _ Hc0.
    destruct (training_batch_configured update E e st0 HE He Hc0)
      as (st1 & Hb & Hc1 & Hst).
    exists st1. split; [exact Hb|]. split; [exact Hc1|].
    intros name Hn. destruct Hc0 as [Hc00 Hc01]. subst st1.
    destruct (Sched.active E e 0); cbn [Sched.weights]; apply step_other;
      rewrite scheduled_params; [rewrite Hc00|rewrite Hc01];
      cbn [concat app]; [|exact Hn].
    intros Hin. apply Hn. apply list_elem_of_singleton in Hin. subst name.
    right. right. left.
  - exists st'. split; [exact Hfit|]. split; [|exact HR].
    apply HR. intros Hin.
    repeat (apply elem_of_cons in Hin; destruct Hin as [Hin|Hin];
            [discriminate Hin|]).
    apply elem_of_nil in Hin. exact Hin.
Qed.

(** X4. As long as every epoch of the fit has progress [e/E <= 0.3], only
    the head is trained: every other tensor keeps its value, and the
    head-and-encoder optimizer is exactly as it was (no step, rate
    untouched). *)
Theorem head_only_phase E nb first n (st : @Sched.FitState Tensor) :
  (0 < E)%Z -> (0 <= first)%Z -> Sched.configured st ->
  (10 * (first + Z.of_nat n - 1) <= 3 * E)%Z ->
  exists st', Sched.fit_epochs update E nb first n st = inr st' /\
    Sched.opt1 st' = Sched.opt1 st /\
    forall name, name <> Sched.linear_layer ->
      Sched.weights st' !! name = Sched.weights st !! name.
Proof.
  intros HE Hf Hc Hlast.
  destruct (fit_epochs_preserves
              (fun a b => Sched.opt1 b = Sched.opt1 a /\
                 forall name, name <> Sched.linear_layer ->
                 Sched.weights b !! name = Sched.weights a !! name)
              (fun e => (10 * e <= 3 * E)%Z) E nb)
    with (n := n) (first := first) (st := st)
    as (st' & Hfit & _ & HR); try assumption.
  - intros st0. split; reflexivity.
  - intros a b c [Hab1 Hab2] [Hbc1 Hbc2]. split; [congruence|].
    intros name Hn. rewrite Hbc2, Hab2 by exact Hn. reflexivity.
  - intros e st0 He Hok Hc0.
    destruct (training_batch_configured update E e st0 HE He Hc0)
      as (st1 & Hb & Hc1 & Hst).
    exists st1. split; [exact Hb|]. split; [exact Hc1|].
    destruct Hc0 as [Hc00 _]. subst st1. unfold Sched.active.
    change (0 =? 0)%Z with true. cbv iota.
    replace (10 * e <=? 3 * E)%Z with true by (symmetry; apply Z.leb_le; lia).
    cbn [Sched.opt1 Sched.weights]. split; [reflexivity|].
    intros name Hn. apply step_other. rewrite scheduled_params, Hc00.
    cbn [concat app]. intros Hin. apply list_elem_of_singleton in Hin.
    contradiction.
  - intros e He. lia.
  - exists st'. split; [exact Hfit|exact HR].
Qed.

Lemma scale_bounds E e :
  (0 < E)%Z -> (0 <= e)%Z -> (e < E)%Z ->
  (0 < Sched.scale E e)%Q /\ (Sched.scale E e <= 1)%Q.
Proof.
  intros HE He HeE. unfold Sched.scale.
  assert (Hhalf : (E / 2 < E)%Z) by (apply Z.div_lt; lia).
  destruct (e <? E / 10)%Z eqn:Hw.
  - apply Z.ltb_lt in Hw.
    pose proof (inject_Z_pos (E / 10) ltac:(lia)) as Hp.
    split.
    + apply Qlt_shift_div_l; [exact Hp|]. rewrite Qmult_0_l.
      apply inject_Z_pos. lia.
    + apply Qle_shift_div_r; [exact Hp|]. rewrite Qmult_1_l.
      rewrite <- Zle_Qle. lia.
  - destruct (e <? E / 2)%Z eqn:Hd; [split; [reflexivity|apply Qle_refl]|].
    apply Z.ltb_ge in Hd.
    pose proof (inject_Z_pos (E - E / 2) ltac:(lia)) as Hp.
    assert (H0 : (0 <= inject_Z (e - E / 2) / inject_Z (E - E / 2))%Q).
    { apply Qle_shift_div_l; [exact Hp|]. rewrite Qmult_0_l.
      change 0%Q with (inject_Z 0). rewrite <- Zle_Qle. lia. }
    assert (H1 : (inject_Z (e - E / 2) / inject_Z (E - E / 2) < 1)%Q).
    { apply Qlt_shift_div_r; [exact Hp|]. rewrite Qmult_1_l.
      rewrite <- Zlt_Qlt. lia. }
    split; lra.
Qed.

Lemma scale_after_last_epoch E e :
  (0 < E)%Z -> (E <= e)%Z ->
  (Sched.scale E e <= 0)%Q /\ ((E < e)%Z -> (Sched.scale E e < 0)%Q).
Proof.
  intros HE HeE. unfold Sched.scale.
  assert (Hhalf : (E / 2 < E)%Z) by (apply Z.div_lt; lia).
  assert (Hten : (10 * (E / 10) <= E)%Z) by (apply Z.mul_div_le; lia).
  destruct (e <? E / 10)%Z eqn:Hw; [apply Z.ltb_lt in Hw; lia|].
  destruct (e <? E / 2)%Z eqn:Hd; [apply Z.ltb_lt in Hd; lia|].
  pose proof (inject_Z_pos (E - E / 2) ltac:(lia)) as Hp.
  split.
  - assert (1 <= inject_Z (e - E / 2) / inject_Z (E - E / 2))%Q.
    { apply Qle_shift_div_l; [exact Hp|]. rewrite Qmult_1_l.
      rewrite <- Zle_Qle. lia. }
    lra.
  - intros Hlt.
    assert (1 < inject_Z (e - E / 2) / inject_Z (E - E / 2))%Q.
    { apply Qlt_shift_div_l; [exact Hp|]. rewrite Qmult_1_l.
      rewrite <- Zlt_Qlt. lia. }
    lra.
Qed.

(** X5. In a fit started from [configure_optimizers] with a positive base
    rate and at least one batch per epoch, the optimizer that steps in an
    epoch [0 <= e < num_epochs] does so with a rate that is positive and at
    most the base rate. *)
Theorem stepping_rate_within_base base E e nb (w : gmap string Tensor) :
  (0 < E)%Z -> (0 <= e)%Z -> (e < E)%Z -> (1 <= nb)%nat -> (0 < base)%Q ->
  exists st l0 l1,
    Sched.fit_epochs update E nb 0 (S (Z.to_nat e)) (Sched.fit_init base w)
    = inr st /\
    Sched.lr_of (Sched.opt0 st) = [l0] /\
    Sched.lr_of (Sched.opt1 st) = [l1] /\
    (0 < (if Sched.active E e 0 then l0 else l1))%Q /\
    ((if Sched.active E e 0 then l0 else l1) <= base)%Q.
Proof.
  intros HE He HeE Hnb Hbase.
  destruct (fit_epochs_rates update base E nb 0 (Z.to_nat e)
              (Sched.fit_init base w) HE ltac:(lia) Hnb
              (fit_init_start base w E))
    as (st & Hfit & l0 & l1 & (_ & _ & Hl0 & Hl1) & Hact & _ & _).
  rewrite Z.add_0_l, Z2Nat.id in Hact by exact He.
  exists st, l0, l1. split; [exact Hfit|]. split; [exact Hl0|].
  split; [exact Hl1|].
  destruct (scale_bounds E e HE He HeE) as [Hpos Hle].
  rewrite Hact. split; nra.
Qed.

(** X6. The decay has no lower clamp: when the trainer runs an epoch
    [e >= num_epochs], the head-and-encoder optimizer steps with rate 0 at
    [e = num_epochs] and with a negative rate beyond. *)
Theorem rate_not_clamped_below base E e nb (w : gmap string Tensor) :
  (0 < E)%Z -> (E <= e)%Z -> (1 <= nb)%nat -> (0 < base)%Q ->
  exists st l1,
    Sched.fit_epochs update E nb 0 (S (Z.to_nat e)) (Sched.fit_init base w)
    = inr st /\
    Sched.active E e 1 = true /\
    Sched.lr_of (Sched.opt1 st) = [l1] /\
    (l1 <= 0)%Q /\ ((E < e)%Z -> (l1 < 0)%Q).
Proof.
  intros HE HeE Hnb Hbase.
  destruct (fit_epochs_rates update base E nb 0 (Z.to_nat e)
              (Sched.fit_init base w) HE ltac:(lia) Hnb
              (fit_init_start base w E))
    as (st & Hfit & l0 & l1 & (_ & _ & Hl0 & Hl1) & Hact & _ & _).
  rewrite Z.add_0_l, Z2Nat.id in Hact by lia.
  assert (Ha0 : Sched.active E e 0 = false).
  { unfold Sched.active. change (0 =? 0)%Z with true. cbv iota.
    apply Z.leb_gt. lia. }
  rewrite Ha0 in Hact.
  exists st, l1. split; [exact Hfit|]. split.
  { unfold Sched.active. change (1 =? 0)%Z with false.
    change (1 =? 1)%Z with true. cbv iota. apply Z.ltb_lt. lia. }
  split; [exact Hl1|].
  destruct (scale_after_last_epoch E e HE HeE) as [Hle Hlt].
  rewrite Hact. split; [nra|].
  intros H. specialize (Hlt H). nra.
Qed.

End MoreStepFacts.

(* ################################################################# *)
(** * Further properties of [train()] and [eval()] *)

Lemma submodule_call_at_prefix p q f m :
  Modes.submodule (p ++ q) (Modes.call_at p f m)
  = Modes.submodule p m ≫= (fun s => Modes.submodule q (f s)).
Proof.
  revert m. induction p as [|name p IH]; intros m; [reflexivity|].
  cbn [app Modes.submodule Modes.call_at Modes.children].
  rewrite get_update_same.
  destruct (Modes.get_child name (Modes.children m)) as [c|]; [|reflexivity].
  cbn. apply IH.
Qed.

(** X7. For every variant, [eval()] puts every sub-module that the
    constructor froze, and everything below it, in evaluation mode. *)
Theorem eval_puts_frozen_in_eval_mode v self path sub0 :
  path ∈ Modes.frozen v -> Modes.submodule path self = Some sub0 ->
  exists sub, Modes.submodule path (Modes.eval v self) = Some sub /\
              Modes.all_eval sub = true.
Proof.
  intros Hin Hsub.
  assert (Hinh : exists sub,
            Modes.submodule path (Modes.nn_eval self) = Some sub /\
            Modes.all_eval sub = true).
  { unfold Modes.nn_eval at 1. rewrite submodule_nn_train, Hsub.
    eexists. split; [reflexivity|]. apply all_eval_nn_eval. }
  destruct v as [|ft|ft| | |ft|]; cbn [Modes.eval]; try exact Hinh;
    clear Hinh; cbn [Modes.frozen] in Hin.
  - destruct ft; [apply elem_of_nil in Hin; contradiction|].
    apply list_elem_of_singleton in Hin. subst path.
    rewrite submodule_call_at_diverge by reflexivity.
    rewrite submodule_call_at_same, Hsub. eexists. split; [reflexivity|].
    apply all_eval_nn_eval.
  - apply list_elem_of_singleton in Hin. subst path.
    rewrite submodule_call_at_diverge by reflexivity.
    change [Modes.pretrained_model; Modes.encoder]
      with ([Modes.pretrained_model] ++ [Modes.encoder]) in *.
    rewrite submodule_call_at_prefix.
    destruct (Modes.submodule [Modes.pretrained_model] self) as [pm|] eqn:Hpm.
    + cbn [mbind option_bind]. unfold Modes.nn_eval at 1.
      rewrite submodule_nn_train.
      assert (Hq : Modes.submodule [Modes.encoder] pm = Some sub0).
      { rewrite <- Hsub.
        change (Modes.submodule ([Modes.pretrained_model] ++ [Modes.encoder]) self)
          with (Modes.get_child Modes.pretrained_model (Modes.children self)
                ≫= Modes.submodule [Modes.encoder]).
        cbn [Modes.submodule] in Hpm.
        destruct (Modes.get_child Modes.pretrained_model (Modes.children self));
          [|discriminate].
        cbn in Hpm. injection Hpm as ->. reflexivity. }
      rewrite Hq. eexists. split; [reflexivity|]. apply all_eval_nn_eval.
    + exfalso.
      change (Modes.submodule ([Modes.pretrained_model] ++ [Modes.encoder]) self)
        with (Modes.get_child Modes.pretrained_model (Modes.children self)
              ≫= Modes.submodule [Modes.encoder]) in Hsub.
      cbn [Modes.submodule] in Hpm.
      destruct (Modes.get_child Modes.pretrained_model (Modes.children self));
        [discriminate|discriminate].
Qed.

(** X8. The [train()] and [eval()] overrides of [Wav2VecComplete] and
    [Wav2VecFeezingEncoderOnly] never touch the model's own [training]
    flag, whereas the inherited methods set it; and the override of
    [Wav2VecFeezingEncoderOnly.train] leaves the flag of [pretrained_model]
    itself as it was. *)
Theorem overrides_keep_own_flag v self :
  match v with
  | Modes.Wav2VecComplete _ | Modes.Wav2VecFeezingEncoderOnly =>
      Modes.training (Modes.train v self) = Modes.training self /\
      Modes.training (Modes.eval v self) = Modes.training self
  | _ =>
      Modes.training (Modes.train v self) = true /\
      Modes.training (Modes.eval v self) = false
  end /\
  Modes.training
    <$> Modes.submodule [Modes.pretrained_model]
          (Modes.train Modes.Wav2VecFeezingEncoderOnly self)
  = Modes.training <$> Modes.submodule [Modes.pretrained_model] self.
Proof.
  split.
  - destruct v as [|ft|ft| | |ft|], self as [t cs]; try (split; reflexivity).
    destruct ft; split; reflexivity.
  - cbn [Modes.train].
    rewrite submodule_call_at_diverge by reflexivity.
    change (Modes.call_at [Modes.pretrained_model; Modes.feature_projection])
      with (fun f => Modes.call_at [Modes.pretrained_model]
                       (Modes.call_at [Modes.feature_projection] f)).
    cbv beta. rewrite submodule_call_at_same.
    change (Modes.call_at [Modes.pretrained_model; Modes.feature_extractor])
      with (fun f => Modes.call_at [Modes.pretrained_model]
                       (Modes.call_at [Modes.feature_extractor] f)).
    cbv beta. rewrite submodule_call_at_same.
    change (Modes.call_at [Modes.pretrained_model; Modes.encoder])
      with (fun f => Modes.call_at [Modes.pretrained_model]
                       (Modes.call_at [Modes.encoder] f)).
    cbv beta. rewrite submodule_call_at_same.
    destruct (Modes.submodule [Modes.pretrained_model] self) as [[t cs]|];
      reflexivity.
Qed.

(** X9. What [train()] does to each part.  [Wav2VecFeezingEncoderOnly]:
    the encoder is put in evaluation mode; feature extractor, feature
    projection and head are put in training mode.  [Wav2VecComplete]: the
    speech model gets the mode [finetune_pretrained], the head training
    mode. *)
Theorem train_sets_each_part self ft :
  Modes.submodule [Modes.pretrained_model; Modes.encoder]
    (Modes.train Modes.Wav2VecFeezingEncoderOnly self)
  = Modes.nn_eval
    <$> Modes.submodule [Modes.pretrained_model; Modes.encoder] self /\
  Modes.submodule [Modes.pretrained_model; Modes.feature_extractor]
    (Modes.train Modes.Wav2VecFeezingEncoderOnly self)
  = Modes.nn_train true
    <$> Modes.submodule [Modes.pretrained_model; Modes.feature_extractor] self /\
  Modes.submodule [Modes.pretrained_model; Modes.feature_projection]
    (Modes.train Modes.Wav2VecFeezingEncoderOnly self)
  = Modes.nn_train true
    <$> Modes.submodule [Modes.pretrained_model; Modes.feature_projection] self /\
  Modes.submodule [Modes.linear_layer]
    (Modes.train Modes.Wav2VecFeezingEncoderOnly self)
  = Modes.nn_train true <$> Modes.submodule [Modes.linear_layer] self /\
  Modes.submodule [Modes.pretrained_model]
    (Modes.train (Modes.Wav2VecComplete ft) self)
  = Modes.nn_train ft <$> Modes.submodule [Modes.pretrained_model] self /\
  Modes.submodule [Modes.linear_layer]
    (Modes.train (Modes.Wav2VecComplete ft) self)
  = Modes.nn_train true <$> Modes.submodule [Modes.linear_layer] self.
Proof.
  cbn [Modes.train]. repeat split.
  - rewrite !submodule_call_at_diverge by reflexivity.
    apply submodule_call_at_same.
  - rewrite !submodule_call_at_diverge by reflexivity.
    rewrite submodule_call_at_same.
    rewrite submodule_call_at_diverge by reflexivity. reflexivity.
  - rewrite submodule_call_at_diverge by reflexivity.
    rewrite submodule_call_at_same.
    rewrite !submodule_call_at_diverge by reflexivity. reflexivity.
  - rewrite submodule_call_at_same.
    rewrite !submodule_call_at_diverge by reflexivity. reflexivity.
  - rewrite submodule_call_at_diverge by reflexivity.
    destruct ft; apply submodule_call_at_same.
  - rewrite submodule_call_at_same.
    destruct ft; rewrite submodule_call_at_diverge by reflexivity; reflexivity.
Qed.

(* ################################################################# *)
(** * Further properties of the token-pooling [forward] methods *)

(** X10. On the same sub-modules and input, whenever
    [Wav2VecCLSToken.forward] returns a prediction,
    [Wav2VecCLSTokenNotPretrained.forward] raises the [AttributeError];
    when the speech model or the unpacking of its result raises, both
    raise that same exception; and the result of the second never depends
    on the head, which it never applies. *)
Theorem token_forward_siblings {Tensor : Type} (rows : Tensor -> list Tensor)
    (pretrained_model linear_layer linear_layer' : Forward.Callable Tensor)
    (x : Forward.Value Tensor) :
  Forward.forward_cls_token rows (Forward.init pretrained_model linear_layer) x
  = (let* r := pretrained_model x in
     let* p := Forward.unpack2 rows r in
     linear_layer (fst p)) /\
  (forall y,
     Forward.forward_cls_token rows
       (Forward.init pretrained_model linear_layer) x = inr y ->
     Forward.forward rows (Forward.init pretrained_model linear_layer) x
     = inl (Py.AttributeError "Wav2VecCLSTokenNotPretrained"
              "softmax_activation")) /\
  (forall e,
     (let* r := pretrained_model x in Forward.unpack2 rows r) = inl e ->
     Forward.forward_cls_token rows
       (Forward.init pretrained_model linear_layer) x = inl e /\
     Forward.forward rows (Forward.init pretrained_model linear_layer) x
     = inl e) /\
  Forward.forward rows (Forward.init pretrained_model linear_layer') x
  = Forward.forward rows (Forward.init pretrained_model linear_layer) x.
Proof.
  assert (Hpm : forall ll, Forward.init pretrained_model ll !! "pretrained_model"
                           = Some pretrained_model).
  { intros ll. unfold Forward.init. rewrite lookup_insert_ne by discriminate.
    apply lookup_insert_eq. }
  assert (Hll : forall ll, Forward.init pretrained_model ll !! "linear_layer"
                           = Some ll).
  { intros ll. unfold Forward.init. apply lookup_insert_eq. }
  assert (Hsm : forall ll, Forward.init pretrained_model ll !! "softmax_activation"
                           = None).
  { intros ll. unfold Forward.init. rewrite !lookup_insert_ne by discriminate.
    apply lookup_empty. }
  assert (Hcls : Forward.forward_cls_token rows
                   (Forward.init pretrained_model linear_layer) x
                 = (let* r := pretrained_model x in
                    let* p := Forward.unpack2 rows r in
                    linear_layer (fst p))).
  { unfold Forward.forward_cls_token, Forward.getattr. rewrite Hpm, Hll.
    cbn [Py.bind Py.ret].
    destruct (pretrained_model x) as [e|r]; [reflexivity|]. cbn [Py.bind].
    destruct (Forward.unpack2 rows r) as [e|p]; [reflexivity|]. cbn [Py.bind].
    destruct (linear_layer p.1); reflexivity. }
  assert (Hfwd : forall ll, Forward.forward rows
                    (Forward.init pretrained_model ll) x
                  = let* r := pretrained_model x in
                    let* p := Forward.unpack2 rows r in
                    inl (Py.AttributeError "Wav2VecCLSTokenNotPretrained"
                           "softmax_activation")).
  { intros ll. unfold Forward.forward, Forward.getattr. rewrite Hpm, Hsm.
    cbn [Py.bind Py.ret Py.raise].
    destruct (pretrained_model x) as [e|r]; [reflexivity|].
    cbn [Py.bind]. destruct (Forward.unpack2 rows r); reflexivity. }
  split; [exact Hcls|]. split; [|split].
  - intros y. rewrite Hcls, Hfwd.
    destruct (pretrained_model x) as [e|r]; [discriminate|]. cbn [Py.bind].
    destruct (Forward.unpack2 rows r) as [e|p]; [discriminate|]. reflexivity.
  - intros e. rewrite Hcls, Hfwd.
    destruct (pretrained_model x) as [e'|r]; cbn [Py.bind].
    + intros [= ->]. split; reflexivity.
    + destruct (Forward.unpack2 rows r) as [e'|p]; [|discriminate].
      intros [= ->]. split; reflexivity.
  - rewrite !Hfwd. reflexivity.
Qed.

(* ################################################################# *)
(** * Further properties of the split engine and the loaders *)

Section MoreSplitFacts.
Context {X : Type}.
Implicit Types (d : Data.Dataset (X * Z)) (f : Py.number) (perm : list nat).

Lemma items_subset d (indices : list nat) :
  Train.items (Data.Subset d indices) = omap (Data.getitem d) indices.
Proof.
  unfold Train.items. cbn [Data.len].
  apply list_omap_ext. apply Forall2_same_length_lookup_2.
  - rewrite length_seq. reflexivity.
  - intros i j idx Hj Hidx. apply lookup_seq in Hj. destruct Hj as [Hj _].
    cbn in Hj. subst j. cbn [Data.getitem]. rewrite Hidx. reflexivity.
Qed.

(** X11. For a fraction [0 <= f <= 1] (on a dataset of fewer than [2^53]
    items), and more generally whenever [round(len(d) * f)] evaluates to
    some [a], be it within the dataset, beyond its end or negative (for a
    dataset of one item: to 0 or 1), the two subsets that [split_dataset]
    returns carry a prefix and the matching suffix of the drawn
    permutation: together their index lists are the permutation itself.
    When the permutation is one of [0 .. N-1], no index occurs twice and
    the samples of the two subsets are, up to order, exactly the samples of
    the dataset. *)
Theorem split_partitions_dataset perm d f :
  length perm = Data.len d ->
  (Py.in_unit f = true /\ (Z.of_nat (Data.len d) < 2 ^ 53)%Z) \/
  (exists a, Data.split_point d f = inr a /\
             (Data.len d = 1%nat -> (0 <= a <= 1)%Z)) ->
  exists ia ib,
    Data.split_dataset perm d f = inr (Data.Subset d ia, Data.Subset d ib) /\
    ia ++ ib = perm /\
    (perm ≡ₚ seq 0 (Data.len d) ->
     NoDup (ia ++ ib) /\
     Train.items (Data.Subset d ia) ++ Train.items (Data.Subset d ib)
     ≡ₚ Train.items d).
Proof.
  intros Hperm Hf.
  assert (Hpoint : exists a, Data.split_point d f = inr a /\
                             (Data.len d = 1%nat -> (0 <= a <= 1)%Z)).
  { destruct Hf as [[Hf HN]|Hf]; [|exact Hf].
    destruct (split_point_unit d f HN Hf) as (a & Ha & Hr).
    exists a. split; [exact Ha|]. intros H1. rewrite H1 in Hr. exact Hr. }
  destruct Hpoint as (a & Hpoint & Hone).
  destruct (split_dataset_point perm d f a Hperm Hpoint) as [Hs _].
  assert (Hin : ((Z.of_nat (Data.len d) =? 1) && ((a <? 0) || (1 <? a)))%Z
                = false).
  { destruct (Z.of_nat (Data.len d) =? 1)%Z eqn:E1; [|reflexivity].
    apply Z.eqb_eq in E1. cbn [andb]. apply orb_false_iff.
    split; apply Z.ltb_ge; lia. }
  rewrite Hin in Hs.
  eexists _, _. split; [exact Hs|]. split; [apply slice_partition|].
  intros Hp. split.
  - rewrite slice_partition, Hp. apply NoDup_seq.
  - rewrite !items_subset, <- omap_app, slice_partition.
    unfold Train.items. rewrite Hp. reflexivity.
Qed.

(** X12. A fraction above 1 is not rejected as such.  When
    [round(len(d) * f)] exceeds [N = len(d)] and [N] is not 1,
    [split_dataset] and [_get_dataset_split] still return, the first subset
    holding all [N] indices and the second none.  For a dataset of one item
    the two lengths sum to 1, [random_split] reads them as fractions and
    raises [ValueError]. *)
Theorem split_fraction_above_one perm d f a :
  length perm = Data.len d ->
  Data.split_point d f = inr a ->
  (Z.of_nat (Data.len d) < a)%Z ->
  (Data.len d <> 1%nat ->
   Data.split_dataset perm d f
   = inr (Data.Subset d perm, Data.Subset d []) /\
   Data._get_dataset_split perm d Data.PartBoth f
   = inr (Data.Both (Data.Subset d perm) (Data.Subset d []))) /\
  (Data.len d = 1%nat ->
   Data.split_dataset perm d f
   = inl (Py.ValueError "Fraction at index 0 is not between 0 and 1") /\
   Data._get_dataset_split perm d Data.PartBoth f
   = inl (Py.ValueError "Fraction at index 0 is not between 0 and 1")).
Proof.
  intros Hperm Hpoint Hbig.
  destruct (split_dataset_point perm d f a Hperm Hpoint) as [Hs Hg].
  specialize (Hg Data.PartBoth).
  assert (Hall : Py.slice perm 0 a = perm /\
                 Py.slice perm a (Z.of_nat (length perm)) = []).
  { unfold Py.slice, Py.slice_bound.
    change (0 <? 0)%Z with false. cbv iota.
    destruct (a <? 0)%Z eqn:Ea; [apply Z.ltb_lt in Ea; lia|].
    destruct (Z.of_nat (length perm) <? 0)%Z eqn:El;
      [apply Z.ltb_lt in El; lia|].
    rewrite (Z.min_l 0) by lia. rewrite (Z.min_r a) by lia.
    rewrite Z.min_id, Z.sub_0_r, Z.sub_diag, Nat2Z.id.
    cbn [Z.to_nat drop take]. split; [apply take_ge; lia|reflexivity]. }
  destruct Hall as [Hfirst Hsecond]. rewrite Hfirst, Hsecond in Hs, Hg.
  split; intros HN.
  - assert (E1 : (Z.of_nat (Data.len d) =? 1)%Z = false)
      by (apply Z.eqb_neq; lia).
    rewrite E1 in Hs, Hg. split; [exact Hs|exact Hg].
  - assert (E1 : (Z.of_nat (Data.len d) =? 1)%Z = true)
      by (apply Z.eqb_eq; lia).
    assert (E2 : (1 <? a)%Z = true) by (apply Z.ltb_lt; lia).
    rewrite E1, E2, orb_true_r in Hs, Hg. split; [exact Hs|exact Hg].
Qed.

Lemma chunks_spec fuel bs (l : list (X * Z)) :
  (1 <= bs)%nat -> (length l <= fuel)%nat ->
  concat (Train.chunks fuel bs l) = l /\
  Forall (fun b => (1 <= length b)%nat /\ (length b <= bs)%nat)
         (Train.chunks fuel bs l) /\
  length (Train.chunks fuel bs l) = ((length l + bs - 1) / bs)%nat.
Proof.
  intros Hbs. revert l. induction fuel as [|fuel IH]; intros l Hl.
  - destruct l; [|cbn in Hl; lia]. cbn. repeat split; [constructor|].
    symmetry. apply Nat.div_small. lia.
  - destruct l as [|x l'].
    + cbn. repeat split; [constructor|].
      symmetry. apply Nat.div_small. lia.
    + cbn [Train.chunks]. set (l := x :: l') in *.
      assert (Hpos : (1 <= length l)%nat) by (subst l; cbn [length]; lia).
      destruct (IH (drop bs l)) as (Hc & Hall & Hlen).
      { rewrite length_drop. lia. }
      clearbody l.
      split; [|split].
      * cbn [concat]. rewrite Hc. apply take_drop.
      * constructor; [|exact Hall]. rewrite length_take. lia.
      * cbn [length]. rewrite Hlen, length_drop.
        destruct (Nat.le_gt_cases (length l) bs) as [Hle|Hgt].
        -- replace (length l - bs)%nat with 0%nat by lia.
           rewrite (Nat.div_small (0 + bs - 1)) by lia.
           apply Nat.div_unique with (r := (length l - 1)%nat); lia.
        -- replace (length l + bs - 1)%nat
             with ((length l - bs + bs - 1) + 1 * bs)%nat by lia.
           rewrite Nat.div_add by lia. lia.
Qed.

(** X13. A loader with a positive batch size cuts the samples of its
    dataset, in order and without loss, into batches of between 1 and
    [batch_size] samples, [ceil(len / batch_size)] of them; a batch size of
    zero or less is a [ValueError]. *)
Theorem DataLoader_batches d batch_size :
  ((0 < batch_size)%Z ->
   exists loader, Train.DataLoader d batch_size = inr loader /\
     concat loader = Train.items d /\
     Forall (fun b => (1 <= length b)%nat /\
                      (Z.of_nat (length b) <= batch_size)%Z) loader /\
     length loader
     = ((length (Train.items d) + Z.to_nat batch_size - 1)
        / Z.to_nat batch_size)%nat) /\
  ((batch_size <= 0)%Z -> Py.raises (Train.DataLoader d batch_size)).
Proof.
  unfold Train.DataLoader. split; intros Hbs.
  - destruct (batch_size <=? 0)%Z eqn:E; [apply Z.leb_le in E; lia|].
    destruct (chunks_spec (length (Train.items d)) (Z.to_nat batch_size)
                (Train.items d)) as (Hc & Hall & Hlen); [lia|lia|].
    eexists. split; [reflexivity|]. split; [exact Hc|]. split; [|exact Hlen].
    eapply Forall_impl; [exact Hall|]. cbn. intros b [H1 H2]. lia.
  - apply Z.leb_le in Hbs. rewrite Hbs. eexists. reflexivity.
Qed.

End MoreSplitFacts.

(* ################################################################# *)
(** * Further properties of [train] and [test] *)

Section MoreTrainFacts.
Context {X Tensor OptState : Type}.
Variable randperm_seeded : Z -> nat -> list nat.
Variable randperm_default : nat -> nat -> list nat.
Variable new_parameters : string -> nat -> list (string * Tensor).
Variable criterion_forward : list Tensor -> list (X * Z) -> Q.
Variable count_correct : list Tensor -> list (X * Z) -> Z.
Variable adam_init : OptState.
Variable adam_step :
  OptState -> list Tensor -> list (X * Z) -> OptState * list Tensor.

Abbreviation World := (Train.World X Tensor OptState).
Abbreviation M := (Train.M X Tensor OptState).
Abbreviation train_batches :=
  (Train.train_batches (X:=X) criterion_forward adam_step).
Abbreviation training_losses :=
  (Train.training_losses (X:=X) criterion_forward adam_step).
Abbreviation evaluate := (Train.evaluate criterion_forward count_correct).
Abbreviation run_epoch :=
  (Train.run_epoch randperm_seeded randperm_default criterion_forward
     count_correct adam_step).
Abbreviation setup :=
  (Train.setup randperm_seeded randperm_default new_parameters adam_init).
Abbreviation train :=
  (Train.train randperm_seeded randperm_default new_parameters
     criterion_forward count_correct adam_init adam_step).
Abbreviation test :=
  (Train.test randperm_seeded randperm_default new_parameters
     criterion_forward count_correct).

(** A computation keeps a component of the world when it returns, or
    raises, with that component as it found it. *)
Abbreviation keeps f m :=
  (forall (w w' : World) r, m w = (w', r) -> f w' = f w).

Lemma keeps_bind {A B C} (f : World -> C) (m : M A) (k : A -> M B) :
  keeps f m -> (forall a, keeps f (k a)) -> keeps f (Train.bindM m k).
Proof.
  intros Hm Hk w w' r. unfold Train.bindM.
  destruct (m w) as [w1 [e|a]] eqn:E.
  - intros [= <- <-]. eapply Hm, E.
  - intros H. rewrite (Hk _ _ _ _ H). eapply Hm, E.
Qed.

Lemma keeps_lift {A C} (f : World -> C) (r : Py.res A) :
  keeps f (Train.lift (X:=X) (Tensor:=Tensor) (OptState:=OptState) r).
Proof. intros w w' r'. unfold Train.lift. intros [= <- _]. reflexivity. Qed.

Lemma keeps_ret {A C} (f : World -> C) (a : A) :
  keeps f (Train.retM (X:=X) (Tensor:=Tensor) (OptState:=OptState) a).
Proof. intros w w' r'. unfold Train.retM. intros [= <- _]. reflexivity. Qed.

Lemma keeps_raise {A C} (f : World -> C) e :
  keeps f (Train.raiseM (X:=X) (Tensor:=Tensor) (OptState:=OptState) (A:=A) e).
Proof. intros w w' r'. unfold Train.raiseM. intros [= <- _]. reflexivity. Qed.

Ltac keeps_prim :=
  let H := fresh "H" in
  intros ? ? ? H;
  cbv [Train.emit Train.retM Train.raiseM Train.lift Train.Adam
       Train.get_classes Train.to_device Train.add_scalars
       Train.load_state_dict Train.training_step] in H;
  repeat (case_match; simplify_eq/=); simplify_eq/=;
  try reflexivity.

Lemma _get_dataset_keeps {C} (f : World -> C) name :
  (forall ev w, f (fst (Train.emit ev w)) = f w) ->
  keeps f (Train._get_dataset (X:=X) name).
Proof.
  intros Hf. unfold Train._get_dataset.
  repeat case_match; try apply keeps_ret.
  all: apply keeps_bind; [|intros ?; apply keeps_ret].
  all: unfold Train.load_dataset; intros w w' r.
  all: case_match; intros [= <- _]; [apply Hf|reflexivity].
Qed.

Lemma _get_dataset_split_keeps {C} (f : World -> C) data part split_size seed :
  (forall w, f (fst (Train.randperm randperm_seeded randperm_default
                       None (Data.len (default (Data.Base []) data)) w)) = f w) ->
  keeps f (Train._get_dataset_split randperm_seeded randperm_default
             data part split_size seed).
Proof.
  intros Hf. unfold Train._get_dataset_split.
  destruct data as [d|]; [|apply keeps_raise].
  apply keeps_bind; [|intros ?; apply keeps_lift].
  intros w w' r. destruct seed; cbn; intros [= <- _]; [reflexivity|apply Hf].
Qed.

Lemma _get_model_keeps {C} (f : World -> C) name num_classes arch :
  (forall class w, f (fst (Train.build new_parameters class num_classes w)) = f w) ->
  keeps f (Train._get_model new_parameters name num_classes arch).
Proof.
  intros Hf. unfold Train._get_model.
  repeat case_match; try apply keeps_ret.
  all: apply keeps_bind; [|intros ?; apply keeps_ret].
  all: intros w w' r; unfold Train.build; intros [= <- _]; apply Hf.
Qed.

Ltac setup_keeps conf :=
  unfold Train.setup;
  repeat (apply keeps_bind; [|intros ?]);
  try apply keeps_ret; try apply keeps_raise; try apply keeps_lift;
  [ destruct (Train.server_config conf); keeps_prim
  | apply _get_dataset_keeps; reflexivity
  | apply _get_dataset_split_keeps; reflexivity
  | unfold Train.get_classes; keeps_prim
  | apply _get_model_keeps; reflexivity
  | unfold Train.to_device; keeps_prim
  | unfold Train.Adam; keeps_prim
  | keeps_prim
  | keeps_prim ].

Lemma setup_keeps_files conf : keeps Train.files (setup conf).
Proof. setup_keeps conf. Qed.


Lemma report_progress_keeps {C} (f : World -> C) epoch i n loss :
  (forall ev w, f (fst (Train.emit ev w)) = f w) ->
  keeps f (Train.report_progress (X:=X) epoch i n loss).
Proof.
  intros Hf. unfold Train.report_progress.
  apply keeps_bind; [apply keeps_lift|intros every].
  apply keeps_bind; [apply keeps_lift|intros r].
  destruct (r =? 0)%Z; [|apply keeps_ret].
  apply keeps_bind; [apply keeps_lift|intros fraction].
  intros w w' r'. intros [= <- _]. apply Hf.
Qed.

Lemma train_batches_keeps {C} (f : World -> C) m epoch n i batches acc :
  (forall ev w, f (fst (Train.emit ev w)) = f w) ->
  (forall σ o w, f (Train.set_adam o (Train.set_store σ w)) = f w) ->
  keeps f (train_batches m epoch n i batches acc).
Proof.
  intros Hemit Hset. revert i acc.
  induction batches as [|batch rest IH]; intros i acc.
  - apply keeps_ret.
  - cbn [Train.train_batches].
    apply keeps_bind; [|intros loss].
    { intros w w' r. unfold Train.training_step. intros [= <- _].
      set (R := adam_step (Train.adam w)
                  (Train.read (Train.store w) (Train.parameters m)) batch).
      exact (eq_trans
               (Hemit (Train.EvOptimizerStep epoch i)
                  (Train.set_adam (fst R)
                     (Train.set_store
                        (Train.write (Train.parameters m) (snd R) (Train.store w))
                        w)))
               (Hset _ _ _)). }
    apply keeps_bind; [apply report_progress_keeps; exact Hemit|intros _].
    apply IH.
Qed.

Lemma train_batches_keeps_files m epoch n i batches acc :
  keeps Train.files (train_batches m epoch n i batches acc).
Proof. apply train_batches_keeps; reflexivity. Qed.







(** X15. With no epoch to run ([num_epoches <= 0]) [train] never
    completes: once the dataset has been loaded and the model built, the
    loop body is skipped, [best_model] is still [None], and the summary line
    raises [TypeError]; no model file is written. *)
Theorem train_without_epochs_raises conf (w : World) :
  (Train.num_epoches conf <= 0)%Z ->
  exists w' e, train conf w = (w', inl e) /\
    Train.files w' = Train.files w /\
    forall w1 s, setup conf w = (w1, inr s) ->
      w' = w1 /\
      e = Py.TypeError "'NoneType' object is not subscriptable".
Proof.
  intros Hn. unfold Train.train. unfold Train.bindM at 1.
  destruct (setup conf w) as [w1 [e1|s]] eqn:Hsetup.
  - eexists _, _. split; [reflexivity|]. split; [|discriminate].
    eapply setup_keeps_files, Hsetup.
  - replace (Z.to_nat (Train.num_epoches conf)) with 0%nat by lia.
    cbn. eexists _, _. split; [reflexivity|]. split.
    + eapply setup_keeps_files, Hsetup.
    + intros w1' s' [= <- <-]. split; reflexivity.
Qed.

Lemma report_progress_enough epoch i n loss (w : World) :
  (10 <= n)%nat ->
  exists w', Train.report_progress epoch i n loss w = (w', inr tt).
Proof.
  intros Hn.
  unfold Train.report_progress, Train.bindM, Train.lift.
  unfold Py.floordiv. change ((10 =? 0)%Z) with false. cbv iota.
  unfold Py.modulo, Py.ret, Py.raise.
  assert (Hq : (1 <= Z.of_nat n / 10)%Z).
  { apply Z.div_le_lower_bound; lia. }
  destruct (Z.of_nat n / 10 =? 0)%Z eqn:E; [apply Z.eqb_eq in E; lia|].
  destruct (Z.of_nat i mod (Z.of_nat n / 10) =? 0)%Z.
  - unfold Py.truediv.
    destruct (Qeq_bool (inject_Z (Z.of_nat n)) 0) eqn:E0.
    + apply Qeq_bool_eq in E0.
      unfold Qeq, inject_Z in E0. cbn [Qnum Qden] in E0. lia.
    + eexists. reflexivity.
  - eexists. reflexivity.
Qed.

(** X16. With ten batches or more in the loader the progress check never
    divides by zero: the loop over the batches runs to its end and returns
    the accumulated loss, every batch loss divided by [len(train_loader)]. *)
Theorem train_batches_enough m epoch n i batches acc (w : World) :
  (10 <= n)%nat ->
  exists w',
    train_batches m epoch n i batches acc w
    = (w', inr (fold_left (fun loss l : Q => (loss + l / inject_Z (Z.of_nat n))%Q)
                  (training_losses m (Train.store w) (Train.adam w) batches)
                  acc)).
Proof.
  intros Hn. revert i acc w.
  induction batches as [|batch rest IH]; intros i acc w.
  - eexists. reflexivity.
  - cbn [Train.train_batches Train.training_losses].
    unfold Train.bindM at 1. unfold Train.training_step at 1. cbn [fst snd].
    unfold Train.bindM at 1.
    match goal with
    | |- context [Train.report_progress epoch i n ?l ?w0] =>
        destruct (report_progress_enough epoch i n l w0 Hn) as [w1 Hrep];
        pose proof (report_progress_frame _ _ _ _ _ _ _ Hrep)
          as (Hs & Ha & _);
        rewrite Hrep
    end.
    destruct (IH (S i) (acc + criterion_forward
                           (Train.read (Train.store w) (Train.parameters m)) batch
                         / inject_Z (Z.of_nat n))%Q w1) as [w' Hw'].
    exists w'. rewrite Hw', Hs, Ha. reflexivity.
Qed.

Lemma evaluate_fold values n loader t c (a : Q) :
  Forall (fun b => (0 <= count_correct values b <= Z.of_nat (length b))%Z)
         loader ->
  let r := fold_left
             (fun acc batch =>
                match acc with
                | (total, correct, loss) =>
                    ((total + Z.of_nat (length batch))%Z,
                     (correct + count_correct values batch)%Z,
                     (loss + criterion_forward values batch
                             / inject_Z (Z.of_nat n))%Q)
                end) loader (t, c, a) in
  fst (fst r) = (t + Z.of_nat (length (concat loader)))%Z /\
  (c <= snd (fst r) <= c + Z.of_nat (length (concat loader)))%Z.
Proof.
  intros Hall. revert t c a.
  induction Hall as [|batch rest Hb _ IH]; intros t c a; cbn zeta.
  - cbn. lia.
  - cbn [fold_left concat]. rewrite length_app.
    specialize (IH (t + Z.of_nat (length batch))%Z
                   (c + count_correct values batch)%Z
                   (a + criterion_forward values batch
                        / inject_Z (Z.of_nat n))%Q).
    cbn zeta in IH. destruct IH as [-> IH]. lia.
Qed.

(** X17. The evaluation loop counts every sample of the loader once, and
    when the number of correct predictions of each batch lies between zero
    and the size of the batch, so does the sum: [correct / total] is an
    accuracy between 0 and 1. *)
Theorem evaluate_counts values loader :
  Forall (fun b => (0 <= count_correct values b <= Z.of_nat (length b))%Z)
         loader ->
  fst (fst (evaluate values loader)) = Z.of_nat (length (concat loader)) /\
  (0 <= snd (fst (evaluate values loader))
     <= fst (fst (evaluate values loader)))%Z.
Proof.
  intros Hall. unfold Train.evaluate.
  pose proof (evaluate_fold values (length loader) loader 0 0 0%Q Hall) as H.
  cbn zeta in H. destruct H as [Ht Hc]. rewrite Ht. split; [lia|lia].
Qed.

(** A computation never completes from a world, and leaves files and
    scalar log as they are. *)
Abbreviation never m w :=
  (forall (w' : World) r, m w = (w', r) ->
     (exists e, r = inl e) /\
     Train.scalars w' = Train.scalars w /\ Train.files w' = Train.files w).

Lemma bind_never {A B} (m : M A) (k : A -> M B) path :
  keeps Train.files m -> keeps Train.scalars m ->
  (forall a w1, Train.files w1 !! path = None -> never (k a) w1) ->
  forall w, Train.files w !! path = None -> never (Train.bindM m k) w.
Proof.
  intros Hf Hs Hk w Hw w' r. unfold Train.bindM.
  destruct (m w) as [w1 [e|a]] eqn:E.
  - intros [= <- <-]. split; [eexists; reflexivity|].
    split; [eapply Hs, E|eapply Hf, E].
  - intros H. pose proof (Hf _ _ _ E) as Hf1. pose proof (Hs _ _ _ E) as Hs1.
    apply Hk in H; [|rewrite Hf1; exact Hw].
    destruct H as (He & Hs2 & Hf2). split; [exact He|]. split; congruence.
Qed.

(** X18. Without the file [<simulation_name>_best_model.pt], [test] never
    completes, whatever the dataset and the model name: it raises before any
    scalar is logged, and it writes no model file. *)
Theorem test_requires_checkpoint conf (w : World) :
  Train.files w !! Train.best_model_path conf = None ->
  exists w' e, test conf w = (w', inl e) /\
    Train.scalars w' = Train.scalars w /\ Train.files w' = Train.files w.
Proof.
  intros Hw.
  assert (H : never (test conf) w).
  { revert w Hw. unfold Train.test.
    apply bind_never;
      [destruct (Train.server_config conf); keeps_prim
      |destruct (Train.server_config conf); keeps_prim|intros _].
    apply bind_never;
      [apply _get_dataset_keeps; reflexivity
      |apply _get_dataset_keeps; reflexivity|intros dataset].
    apply bind_never;
      [apply _get_dataset_split_keeps; reflexivity
      |apply _get_dataset_split_keeps; reflexivity|intros sp].
    assert (Hraise : forall A e (w1 : World),
              never (Train.raiseM (A:=A) e) w1).
    { intros A e w1 w' r [= <- <-]. split; [eexists; reflexivity|].
      split; reflexivity. }
    destruct sp as [| test_dataset |];
      [intros w1 _; apply Hraise| |intros w1 _; apply Hraise].
    apply bind_never; [apply keeps_lift|apply keeps_lift|intros _].
    apply bind_never;
      [unfold Train.get_classes; keeps_prim
      |unfold Train.get_classes; keeps_prim|intros classes].
    apply bind_never;
      [apply _get_model_keeps; reflexivity
      |apply _get_model_keeps; reflexivity|intros model].
    apply bind_never;
      [unfold Train.to_device; keeps_prim
      |unfold Train.to_device; keeps_prim|intros m].
    intros w1 Hw1 w' r. unfold Train.bindM, Train.load_state_dict.
    rewrite Hw1. intros [= <- <-]. split; [eexists; reflexivity|].
    split; reflexivity. }
  destruct (test conf w) as [w' r] eqn:E.
  destruct (H _ _ eq_refl) as ([e ->] & Hs & Hf).
  exists w', e. split; [reflexivity|]. split; assumption.
Qed.





(** X20. Every epoch draws its own train/validation split from the
    default generator, not from the seed of the configuration: the split an
    epoch uses is the one of the permutation the generator gives in the
    state the epoch finds it in, and the epoch leaves the generator one draw
    further, so the next epoch splits by another draw. *)
Theorem run_epoch_fresh_split conf train_dataset m epoch (w w' : World) r :
  run_epoch conf train_dataset m epoch w = (w', inr r) ->
  Train.default_rng w' = S (Train.default_rng w) /\
  exists train_split val_split train_loader val_loader,
    Data._get_dataset_split
      (randperm_default (Train.default_rng w) (Data.len train_dataset))
      train_dataset Data.PartBoth (Py.Float (Py.float_literal (8 # 10)))
    = inr (Data.Both train_split val_split) /\
    Train.DataLoader train_split (Train.training_batches conf)
    = inr train_loader /\
    Train.DataLoader val_split (Train.testing_batches conf) = inr val_loader /\
    fst r = snd (evaluate (Train.read (Train.store w') (Train.parameters m))
                          val_loader).
Proof.
  unfold Train.run_epoch. unfold Train.bindM at 1. cbn [Train.emit].
  unfold Train.bindM at 1. unfold Train._get_dataset_split at 1.
  unfold Train.bindM at 1. cbn [Train.randperm Train.default_rng Train.lift].
  match goal with
  | |- context [Data._get_dataset_split ?p ?d ?part ?f] =>
      destruct (Data._get_dataset_split p d part f) as [e|sp] eqn:Hsplit
  end; [discriminate|].
  destruct sp as [train_split val_split| |]; [|discriminate..].
  unfold Train.bindM at 1. unfold Train.lift at 1.
  destruct (Train.DataLoader train_split _) as [e|train_loader] eqn:Htl;
    [discriminate|].
  unfold Train.bindM at 1. unfold Train.lift at 1.
  destruct (Train.DataLoader val_split _) as [e|val_loader] eqn:Hvl;
    [discriminate|].
  unfold Train.bindM at 1.
  match goal with
  | |- context [Train.train_batches ?c ?a m epoch ?n 0 train_loader 0%Q ?w0] =>
      destruct (Train.train_batches c a m epoch n 0 train_loader 0%Q w0)
        as [w1 [e|train_loss]] eqn:Htrain
  end; [discriminate|].
  apply (train_batches_keeps Train.default_rng) in Htrain;
    [|reflexivity|reflexivity].
  cbn [Train.default_rng] in Htrain.
  unfold Train.bindM at 1.
  destruct (evaluate (Train.read (Train.store w1) (Train.parameters m)) val_loader)
    as [[total correct] vl] eqn:Hev.
  unfold Train.bindM at 1. cbn [Train.add_scalars].
  unfold Train.bindM at 1. unfold Train.lift at 1.
  destruct (Py.truediv _ _) as [e|acc]; [discriminate|].
  unfold Train.bindM at 1. cbn [Train.add_scalars].
  unfold Train.bindM at 1. cbn [Train.emit Train.retM].
  intros [= <- <-]. cbn [Train.default_rng Train.store fst].
  split; [exact Htrain|].
  exists train_split, val_split, train_loader, val_loader.
  rewrite Hev. repeat split; assumption || reflexivity.
Qed.

End MoreTrainFacts.

(* ################################################################# *)
(** * The Lightning steps *)

Section StepsFacts.
Context {Tensor : Type}.
Variable rows : Tensor -> list Tensor.
Variable cross_entropy :
  Forward.Value Tensor -> Forward.Value Tensor -> Py.res (Forward.Value Tensor).
Variable argmax : Forward.Value Tensor -> Py.res (Forward.Value Tensor).
Variable accuracy :
  Forward.Value Tensor -> Forward.Value Tensor -> Py.res (Forward.Value Tensor).

Lemma forward_not_pretrained_raises
    (pretrained_model linear_layer : Forward.Callable Tensor) x :
  Py.raises (Forward.forward rows
               (Forward.init pretrained_model linear_layer) x).
Proof.
  unfold Forward.forward, Forward.getattr, Forward.init.
  rewrite lookup_insert_ne by discriminate. rewrite lookup_insert_eq.
  rewrite !lookup_insert_ne by discriminate. rewrite lookup_empty.
  unfold Py.bind, Py.ret, Py.raise.
  destruct (pretrained_model x) as [e|r]; [eexists; reflexivity|].
  destruct (Forward.unpack2 rows r) as [e|p]; eexists; reflexivity.
Qed.

(** X21. No step of [Wav2VecCLSTokenNotPretrained] ever returns a loss:
    [training_step], [validation_step] and [test_step] call [forward]
    before they log anything, so each of them raises on every batch and
    leaves the log as it found it. *)
Theorem not_pretrained_steps_raise
    (pretrained_model linear_layer : Forward.Callable Tensor)
    batch batch_idx optimizer_idx log :
  let forward :=
    Forward.forward rows (Forward.init pretrained_model linear_layer) in
  (exists e, Steps.training_step rows cross_entropy argmax accuracy forward
               batch batch_idx optimizer_idx log = (log, inl e)) /\
  (exists e, Steps.validation_step rows cross_entropy argmax accuracy forward
               batch batch_idx log = (log, inl e)) /\
  (exists e, Steps.test_step rows cross_entropy argmax accuracy forward
               batch batch_idx log = (log, inl e)).
Proof.
  intros forward.
  assert (H : forall loss_name acc_name when,
             exists e, Steps.step rows cross_entropy argmax accuracy
                         loss_name acc_name when forward batch log
                       = (log, inl e)).
  { intros loss_name acc_name when. unfold Steps.step.
    destruct (Forward.unpack2 rows batch) as [e|[x y]]; [eexists; reflexivity|].
    destruct (forward_not_pretrained_raises pretrained_model linear_layer x)
      as [e He].
    subst forward. cbv beta. rewrite He. eexists. reflexivity. }
  split; [apply H|]. split; apply H.
Qed.

(** X22. When [training_step] returns, it returns the cross entropy of
    the prediction, and it has logged two values: that loss under
    ["train_loss"], then the accuracy under ["val_acc"], the name under
    which [validation_step] logs its accuracy; on the same batch
    [validation_step] returns the same loss. *)
Theorem training_step_logs_val_acc forward batch batch_idx optimizer_idx
    log log' loss :
  Steps.training_step rows cross_entropy argmax accuracy forward
    batch batch_idx optimizer_idx log = (log', inr loss) ->
  exists x y y_hat acc,
    Forward.unpack2 rows batch = inr (x, y) /\
    forward x = inr y_hat /\ cross_entropy y_hat y = inr loss /\
    log' = log ++ [ {| Steps.log_name := "train_loss";
                       Steps.log_value := loss;
                       Steps.log_when := Steps.on_step |};
                    {| Steps.log_name := "val_acc";
                       Steps.log_value := acc;
                       Steps.log_when := Steps.on_step |} ] /\
    forall log0,
      Steps.validation_step rows cross_entropy argmax accuracy forward
        batch batch_idx log0
      = (log0 ++ [ {| Steps.log_name := "val_loss";
                      Steps.log_value := loss;
                      Steps.log_when := Steps.on_epoch |};
                   {| Steps.log_name := "val_acc";
                      Steps.log_value := acc;
                      Steps.log_when := Steps.on_epoch |} ],
         inr loss).
Proof.
  unfold Steps.training_step, Steps.validation_step, Steps.step.
  destruct (Forward.unpack2 rows batch) as [e|[x y]]; [discriminate|].
  destruct (forward x) as [e|y_hat] eqn:Hf; [discriminate|].
  destruct (cross_entropy y_hat y) as [e|l] eqn:Hl; [discriminate|].
  destruct (argmax y_hat) as [e|y_hat']; [discriminate|].
  destruct (accuracy y_hat' y) as [e|acc]; [discriminate|].
  intros [= <- <-]. exists x, y, y_hat, acc.
  rewrite <- !app_assoc. repeat split; try assumption; try reflexivity.
  intros log0. rewrite <- app_assoc. reflexivity.
Qed.

End StepsFacts.

(* ################################################################# *)
(** * The factories and the server set-up of [utils.py] *)

(** X23. For the names ["cnn"] and ["wav2vec"] (in any letter case) and
    an existing checkpoint, [get_model_from_checkpoint] chooses the class
    [get_model] chooses, [None] included for an unknown wav2vec option.  For
    every other name it raises [TypeError], for ["efficientnet"] too, which
    [get_model] does build. *)
Theorem get_model_from_checkpoint_agrees checkpoints cfg checkpoint_path :
  checkpoint_path ∈ checkpoints ->
  (Py.lower (Utils.name cfg) = "cnn" \/ Py.lower (Utils.name cfg) = "wav2vec" ->
   Utils.get_model_from_checkpoint checkpoints cfg checkpoint_path
   = inr (Utils.get_model cfg)) /\
  (Py.lower (Utils.name cfg) <> "cnn" ->
   Py.lower (Utils.name cfg) <> "wav2vec" ->
   Utils.get_model_from_checkpoint checkpoints cfg checkpoint_path
   = inl (Py.TypeError "exceptions must derive from BaseException")) /\
  (Py.lower (Utils.name cfg) = "efficientnet" ->
   Utils.get_model cfg
   = Some (Utils.EfficientNet
             ("efficientnet-b" +:+ pretty (Utils.blocks cfg)))).
Proof.
  intros Hin. unfold Utils.get_model_from_checkpoint, Utils.get_model.
  split; [|split].
  - intros [-> | ->]; cbn [String.eqb Ascii.eqb Bool.eqb].
    + rewrite decide_True by exact Hin. reflexivity.
    + destruct (Forward.get_model_wav2vec _ _); [|reflexivity].
      rewrite decide_True by exact Hin. reflexivity.
  - intros H1 H2.
    apply String.eqb_neq in H1. apply String.eqb_neq in H2.
    rewrite H1, H2. reflexivity.
  - intros ->. reflexivity.
Qed.

Section GetDatasetFacts.
Context {Item : Type}.
Variable disk : gmap string (list Item).
Variable randperm : option Z -> nat -> list nat.

(** X24. A dataset name other than ["demos"], ["demos_test"] and
    ["ravdess"] makes [utils.get_dataset] raise its [Exception] before any
    directory is read, whatever [split] and [part]. *)
Theorem get_dataset_unknown_name cfg data_path split part :
  Py.lower (Utils.dataset_name cfg) <> "demos" ->
  Py.lower (Utils.dataset_name cfg) <> "demos_test" ->
  Py.lower (Utils.dataset_name cfg) <> "ravdess" ->
  Utils.get_dataset disk randperm cfg data_path split part
  = inl (Utils.Exception "Requested dataset, doesn't exist yet") /\
  forall disk' randperm',
    Utils.get_dataset disk' randperm' cfg data_path split part
    = Utils.get_dataset disk randperm cfg data_path split part.
Proof.
  intros H1 H2 H3.
  apply String.eqb_neq in H1. apply String.eqb_neq in H2.
  apply String.eqb_neq in H3.
  unfold Utils.get_dataset. rewrite H1, H2, H3. split; reflexivity.
Qed.

(** X25. For a known name and an existing directory, the split
    [utils.get_dataset] returns for a part is the one
    [train_test._get_dataset_split] returns for that part, on the dataset of
    that directory and on the same permutation; without [split], the part is
    ignored. *)
Theorem get_dataset_split_agrees cfg data_path part items :
  Py.lower (Utils.dataset_name cfg) = "demos"
  \/ Py.lower (Utils.dataset_name cfg) = "demos_test"
  \/ Py.lower (Utils.dataset_name cfg) = "ravdess" ->
  disk !! Train.join data_path (Utils.dir cfg) = Some items ->
  Utils.get_dataset disk randperm cfg data_path true part
  = match Data._get_dataset_split
            (randperm (Utils.split_seed cfg) (length items))
            (Data.Base items) part (Utils.split_size cfg) with
    | inl e => inl (Utils.Builtin e)
    | inr r => inr (Utils.Part r)
    end /\
  exists class,
    forall part',
      Utils.get_dataset disk randperm cfg data_path false part'
      = inr (Utils.Whole class (Data.Base items)).
Proof.
  unfold Utils.get_dataset, Utils.load. intros Hknown Hdisk.
  rewrite Hdisk.
  destruct Hknown as [-> | [-> | ->]];
    cbn [String.eqb Ascii.eqb Bool.eqb orb].
  all: cbn [negb Data.len].
  all: split; [|eexists; intros; reflexivity].
  all: unfold Data.split_dataset, Data._get_dataset_split.
  all: destruct (Py.bind _ _) as [e|[|a [|b [|c l]]]];
    try reflexivity.
  all: destruct part; reflexivity.
Qed.

End GetDatasetFacts.

(** X26. [server_setup] tests [gpu is not False]: every other value,
    the index 0 and [None] included, sets both variables, the second to
    [str(gpu)], and touches no other variable; setting up twice is setting
    up once.  [_server_setup] on a file holding these two strings sets the
    same environment. *)
Theorem server_setup_not_false gpu (environ : Utils.Environ) configs file :
  gpu <> Utils.VFalse ->
  let environ' := Utils.server_setup gpu environ in
  environ' !! Utils.CUDA_DEVICE_ORDER = Some "PCI_BUS_ID" /\
  environ' !! Utils.CUDA_VISIBLE_DEVICES = Some (Utils.str gpu) /\
  (forall key, key <> Utils.CUDA_DEVICE_ORDER ->
     key <> Utils.CUDA_VISIBLE_DEVICES -> environ' !! key = environ !! key) /\
  Utils.server_setup gpu environ' = environ' /\
  (configs !! Train.join Utils.conf_path file
   = Some (<[Utils.CUDA_VISIBLE_DEVICES := Utils.VStr (Utils.str gpu)]>
             (<[Utils.CUDA_DEVICE_ORDER := Utils.VStr "PCI_BUS_ID"]> ∅)) ->
   Utils._server_setup configs file environ = (environ', inr tt)).
Proof.
  intros Hgpu environ'.
  assert (Heq : environ'
                = <[Utils.CUDA_VISIBLE_DEVICES := Utils.str gpu]>
                    (<[Utils.CUDA_DEVICE_ORDER := "PCI_BUS_ID"]> environ)).
  { subst environ'. destruct gpu; try reflexivity. contradiction. }
  assert (Hagain : Utils.server_setup gpu environ'
                   = <[Utils.CUDA_VISIBLE_DEVICES := Utils.str gpu]>
                       (<[Utils.CUDA_DEVICE_ORDER := "PCI_BUS_ID"]> environ')).
  { destruct gpu; try reflexivity. contradiction. }
  split; [|split; [|split; [|split]]].
  - rewrite Heq. rewrite lookup_insert_ne by discriminate.
    apply lookup_insert_eq.
  - rewrite Heq. apply lookup_insert_eq.
  - intros key H1 H2. rewrite Heq. rewrite !lookup_insert_ne by congruence.
    reflexivity.
  - rewrite Hagain, Heq. apply map_eq. intros key.
    destruct (decide (key = Utils.CUDA_VISIBLE_DEVICES)) as [->|H2].
    { rewrite !lookup_insert_eq. reflexivity. }
    rewrite (lookup_insert_ne _ Utils.CUDA_VISIBLE_DEVICES) by congruence.
    destruct (decide (key = Utils.CUDA_DEVICE_ORDER)) as [->|H1].
    { rewrite lookup_insert_eq.
      rewrite lookup_insert_ne by discriminate.
      rewrite lookup_insert_eq. reflexivity. }
    rewrite (lookup_insert_ne _ Utils.CUDA_DEVICE_ORDER) by congruence.
    reflexivity.
  - intros Hfile. unfold Utils._server_setup. rewrite Hfile.
    rewrite lookup_insert_ne by discriminate. rewrite lookup_insert_eq.
    cbn [Utils.environ_setitem]. rewrite lookup_insert_eq.
    rewrite Heq. reflexivity.
Qed.

(** X27. [_server_setup] is not atomic: when the file gives the device
    order as a string but has no usable entry for the visible devices (the
    key is missing, or its value is not a string), the call raises
    ([KeyError], [TypeError]) with the device order already set in the
    environment. *)
Theorem server_setup_file_partial_update configs file conf order
    (environ : Utils.Environ) :
  configs !! Train.join Utils.conf_path file = Some conf ->
  conf !! Utils.CUDA_DEVICE_ORDER = Some (Utils.VStr order) ->
  (forall s, conf !! Utils.CUDA_VISIBLE_DEVICES <> Some (Utils.VStr s)) ->
  exists e,
    Utils._server_setup configs file environ
    = (<[Utils.CUDA_DEVICE_ORDER := order]> environ, inl e) /\
    (conf !! Utils.CUDA_VISIBLE_DEVICES = None ->
     e = Utils.KeyError Utils.CUDA_VISIBLE_DEVICES).
Proof.
  intros Hfile Horder Hvisible. unfold Utils._server_setup.
  rewrite Hfile, Horder. cbn [Utils.environ_setitem].
  destruct (conf !! Utils.CUDA_VISIBLE_DEVICES) as [[| | | |s]|] eqn:Hv;
    cbn [Utils.environ_setitem];
    try (eexists; split; [reflexivity|discriminate]).
  - exfalso. exact (Hvisible s eq_refl).
  - eexists. split; reflexivity.
Qed.

(* ################################################################# *)
(** * The further properties on concrete inputs *)

(** A fit over zero epochs with three batches per epoch. *)
Lemma zero_epochs_hook_raises_witness :
  (1 <= 3)%nat /\
  Sched.fit_epochs Sched.sgd_unit 0 3 0 2
    (Sched.fit_init (1 # 10) Sched.example_weights)
  = inl Py.ZeroDivisionError.
Proof.
  split; [lia|].
  apply (zero_epochs_hook_raises Sched.sgd_unit 0
           (Sched.opt0 (Sched.fit_init (1 # 10) Sched.example_weights)) 0
           Sched.example_weights 3 0 1
           (Sched.fit_init (1 # 10) Sched.example_weights)).
  lia.
Defined.

(** Two epochs of three batches: six calls of the hook per optimizer. *)
Lemma fit_steps_once_per_batch_witness :
  exists st',
    Sched.fit_epochs Sched.sgd_unit 10 3 0 2
      (Sched.fit_init (1 # 10) Sched.example_weights) = inr st' /\
    (Sched.n_steps (Sched.opt0 st') + Sched.n_steps (Sched.opt1 st')
     = 0 + 0 + 2 * 3)%nat.
Proof.
  apply (fit_steps_once_per_batch Sched.sgd_unit 10 3 0 2
           (Sched.fit_init (1 # 10) Sched.example_weights)); lia.
Defined.

(** The feature extractor keeps its value 5 through ten epochs. *)
Lemma fit_leaves_unlisted_tensors_witness :
  exists st',
    Sched.fit_epochs Sched.sgd_unit 10 3 0 10
      (Sched.fit_init (1 # 10) Sched.example_weights) = inr st' /\
    Sched.weights st' !! Sched.feature_extractor = Some 5%Q.
Proof.
  destruct (fit_leaves_unlisted_tensors Sched.sgd_unit 10 3 0 10
              (Sched.fit_init (1 # 10) Sched.example_weights))
    as (st' & Hfit & Hfe & _).
  - lia.
  - lia.
  - split; reflexivity.
  - exists st'. split; [exact Hfit|]. rewrite Hfe. reflexivity.
Defined.

(** Epochs 0 to 3 of 10: the encoder keeps its value 5. *)
Lemma head_only_phase_witness :
  exists st',
    Sched.fit_epochs Sched.sgd_unit 10 3 0 4
      (Sched.fit_init (1 # 10) Sched.example_weights) = inr st' /\
    Sched.weights st' !! Sched.encoder = Some 5%Q.
Proof.
  destruct (head_only_phase Sched.sgd_unit 10 3 0 4
              (Sched.fit_init (1 # 10) Sched.example_weights))
    as (st' & Hfit & _ & Hw).
  - lia.
  - lia.
  - split; reflexivity.
  - lia.
  - exists st'. split; [exact Hfit|].
    rewrite Hw by discriminate. reflexivity.
Defined.

(** Epoch 2 of 10 with base rate 1/10. *)
Lemma stepping_rate_within_base_witness :
  exists st l0 l1,
    Sched.fit_epochs Sched.sgd_unit 10 3 0 3
      (Sched.fit_init (1 # 10) Sched.example_weights) = inr st /\
    Sched.lr_of (Sched.opt0 st) = [l0] /\
    Sched.lr_of (Sched.opt1 st) = [l1] /\
    (0 < (if Sched.active 10 2 0 then l0 else l1))%Q /\
    ((if Sched.active 10 2 0 then l0 else l1) <= 1 # 10)%Q.
Proof.
  apply (stepping_rate_within_base Sched.sgd_unit (1 # 10) 10 2 3
           Sched.example_weights); try lia.
  reflexivity.
Defined.

(** Epoch 12 of a hook told that there are 10 epochs. *)
Lemma rate_not_clamped_below_witness :
  exists st l1,
    Sched.fit_epochs Sched.sgd_unit 10 1 0 13
      (Sched.fit_init (1 # 10) Sched.example_weights) = inr st /\
    Sched.lr_of (Sched.opt1 st) = [l1] /\ (l1 < 0)%Q.
Proof.
  destruct (rate_not_clamped_below Sched.sgd_unit (1 # 10) 10 12 1
              Sched.example_weights)
    as (st & l1 & Hfit & _ & Hl1 & _ & Hneg); try lia.
  - reflexivity.
  - exists st, l1. split; [exact Hfit|]. split; [exact Hl1|].
    apply Hneg. lia.
Defined.

(** [Wav2VecFeezingEncoderOnly] as built by its constructor: after
    [eval()] the encoder is in evaluation mode. *)
Lemma eval_puts_frozen_in_eval_mode_witness :
  exists sub,
    Modes.submodule [Modes.pretrained_model; Modes.encoder]
      (Modes.eval Modes.Wav2VecFeezingEncoderOnly
         (Modes.init [] [] [] [] Modes.Wav2VecFeezingEncoderOnly)) = Some sub /\
    Modes.all_eval sub = true.
Proof.
  apply (eval_puts_frozen_in_eval_mode Modes.Wav2VecFeezingEncoderOnly
           (Modes.init [] [] [] [] Modes.Wav2VecFeezingEncoderOnly)
           [Modes.pretrained_model; Modes.encoder] (Modes.Node false [])).
  - left.
  - reflexivity.
Defined.

(** Ten samples split at 0.8 under the identity permutation. *)
Lemma split_partitions_dataset_witness :
  exists ia ib,
    Data.split_dataset (seq 0 10) (Data.Base (Demo.samples 10))
      (Py.Float (Py.float_literal (4 # 5)))
    = inr (Data.Subset (Data.Base (Demo.samples 10)) ia,
           Data.Subset (Data.Base (Demo.samples 10)) ib) /\
    ia ++ ib = seq 0 10.
Proof.
  destruct (split_partitions_dataset (seq 0 10)
              (Data.Base (Demo.samples 10))
              (Py.Float (Py.float_literal (4 # 5))))
    as (ia & ib & Hs & Happ & _).
  - reflexivity.
  - left. split; vm_compute; reflexivity.
  - exists ia, ib. split; [exact Hs|exact Happ].
Defined.

(** Four samples and the integer 2 as the fraction: [round(4 * 2) = 8]. *)
Lemma split_fraction_above_one_witness :
  Data.split_dataset (seq 0 4) (Data.Base (Demo.samples 4)) (Py.Int 2)
  = inr (Data.Subset (Data.Base (Demo.samples 4)) (seq 0 4),
         Data.Subset (Data.Base (Demo.samples 4)) []).
Proof.
  apply (split_fraction_above_one (seq 0 4)
           (Data.Base (Demo.samples 4)) (Py.Int 2) 8).
  - reflexivity.
  - reflexivity.
  - vm_compute. reflexivity.
  - vm_compute. discriminate.
Defined.


(** A configuration with [num_epoches = 0]. *)
Lemma train_without_epochs_raises_witness :
  exists w' e,
    Demo.train (Demo.conf 0 "cnn" 2) (Demo.world 24) = (w', inl e) /\
    Train.files w' = Train.files (Demo.world 24).
Proof.
  destruct (train_without_epochs_raises Demo.randperm_seeded
              Demo.randperm_default Demo.new_parameters Demo.criterion_forward
              Demo.count_correct tt Demo.adam_step (Demo.conf 0 "cnn" 2)
              (Demo.world 24))
    as (w' & e & Hrun & Hfiles & _).
  - simpl. lia.
  - exists w', e. split; [exact Hrun|exact Hfiles].
Defined.

(** Ten one-sample batches. *)
Lemma train_batches_enough_witness :
  exists w' train_loss,
    Train.train_batches Demo.criterion_forward Demo.adam_step Demo.model 0
      10 0 Demo.ten_batches 0%Q Demo.world_with_model
    = (w', inr train_loss).
Proof.
  destruct (train_batches_enough Demo.criterion_forward Demo.adam_step
              Demo.model 0 10 0 Demo.ten_batches 0%Q Demo.world_with_model)
    as (w' & Hrun).
  - lia.
  - eexists w', _. exact Hrun.
Defined.

(** The loader with batches of 2, 2 and 1 samples: five samples, two of
    them classified correctly. *)
Lemma evaluate_counts_witness :
  fst (fst (Train.evaluate Demo.criterion_forward Demo.count_correct
              [0%Z] Demo.uneven_loader)) = 5%Z.
Proof.
  apply (evaluate_counts Demo.criterion_forward Demo.count_correct
           [0%Z] Demo.uneven_loader).
  repeat (constructor; [vm_compute; split; discriminate|]). constructor.
Defined.

(** [test] in a world where nothing has been trained. *)
Lemma test_requires_checkpoint_witness :
  exists w' e,
    Demo.test (Demo.conf_half 1 2) (Demo.world 48) = (w', inl e) /\
    Train.scalars w' = [].
Proof.
  destruct (test_requires_checkpoint Demo.randperm_seeded
              Demo.randperm_default Demo.new_parameters Demo.criterion_forward
              Demo.count_correct (Demo.conf_half 1 2) (Demo.world 48))
    as (w' & e & Hrun & Hsc & _).
  - vm_compute. reflexivity.
  - exists w', e. split; [exact Hrun|exact Hsc].
Defined.


(** One epoch on 24 samples with batches of 2. *)
Lemma run_epoch_fresh_split_witness :
  Train.default_rng
    (fst (Train.run_epoch Demo.randperm_seeded Demo.randperm_default
            Demo.criterion_forward Demo.count_correct Demo.adam_step
            (Demo.conf 1 "cnn" 2) (Data.Base (Demo.samples 24)) Demo.model 0
            Demo.world_with_model))
  = 1%nat.
Proof.
  refine (let H := _ in
          proj1 (run_epoch_fresh_split Demo.randperm_seeded
                   Demo.randperm_default Demo.criterion_forward
                   Demo.count_correct Demo.adam_step (Demo.conf 1 "cnn" 2)
                   (Data.Base (Demo.samples 24)) Demo.model 0
                   Demo.world_with_model _ (3384 # 108, 2 # 5) H)).
  vm_compute. reflexivity.
Defined.

(** The same epoch: three scalars are logged. *)
Lemma run_epoch_reports_witness :
  exists train_loss,
    Train.scalars
      (fst (Train.run_epoch Demo.randperm_seeded Demo.randperm_default
              Demo.criterion_forward Demo.count_correct Demo.adam_step
              (Demo.conf 1 "cnn" 2) (Data.Base (Demo.samples 24)) Demo.model 0
              Demo.world_with_model))
    = [ {| Train.main_tag := "Loss"; Train.tag := "Train";
           Train.value := train_loss; Train.global_step := 0 |};
        {| Train.main_tag := "Loss"; Train.tag := "Validation";
           Train.value := 3384 # 108; Train.global_step := 0 |};
        {| Train.main_tag := "Accuracy"; Train.tag := "Validation";
           Train.value := 2 # 5; Train.global_step := 0 |} ].
Proof.
  refine (let H := _ in
          match run_epoch_reports Demo.randperm_seeded
                  Demo.randperm_default Demo.criterion_forward
                  Demo.count_correct Demo.adam_step (Demo.conf 1 "cnn" 2)
                  (Data.Base (Demo.samples 24)) Demo.model 0
                  Demo.world_with_model _ (3384 # 108) (2 # 5) H with
          | ex_intro _ tl (ex_intro _ vl (ex_intro _ train_loss
              (conj _ (conj _ Hsc)))) => ex_intro _ train_loss Hsc
          end).
  vm_compute. reflexivity.
Defined.

(** The two-epoch run on 24 samples. *)
Lemma best_file_is_last_file_witness :
  exists m,
    Train.files (fst (Demo.train (Demo.conf 2 "cnn" 2) (Demo.world 24)))
      !! Train.best_model_path (Demo.conf 2 "cnn" 2)
    = Some (Train.serialize
              (Train.store (fst (Demo.train (Demo.conf 2 "cnn" 2)
                                   (Demo.world 24))))
              (Train.state_dict m)).
Proof.
  refine (let H := _ in
          match best_file_is_last_file Demo.randperm_seeded
                  Demo.randperm_default Demo.new_parameters
                  Demo.criterion_forward Demo.count_correct tt Demo.adam_step
                  (Demo.conf 2 "cnn" 2) (Demo.world 24) _ H with
          | ex_intro _ m (conj Hbest _) => ex_intro _ m Hbest
          end).
  vm_compute. reflexivity.
Defined.

(** A step whose libraries are identities, on the batch [(1, 2)]. *)
Lemma training_step_logs_val_acc_witness :
  exists x y y_hat acc,
    Forward.unpack2 (fun _ : Z => [])
      (Forward.VPair (Forward.VTensor 1%Z) (Forward.VTensor 2%Z)) = inr (x, y) /\
    (inr x : Py.res (Forward.Value Z)) = inr y_hat /\
    acc = Forward.VTensor 2%Z.
Proof.
  destruct (training_step_logs_val_acc (fun _ : Z => [])
              (fun y_hat _ => inr y_hat) (fun y_hat => inr y_hat)
              (fun _ y => inr y) (fun x => inr x)
              (Forward.VPair (Forward.VTensor 1%Z) (Forward.VTensor 2%Z))
              0 0 [] _ (Forward.VTensor 1%Z) eq_refl)
    as (x & y & y_hat & acc & Hu & Hf & _ & Hlog & _).
  exists x, y, y_hat, acc. split; [exact Hu|]. split; [exact Hf|].
  cbn in Hlog. congruence.
Defined.

(** The name ["CNN"] and an existing checkpoint. *)
Lemma get_model_from_checkpoint_agrees_witness :
  Utils.get_model_from_checkpoint {["last.ckpt"]}
    {| Utils.name := "CNN"; Utils.model_option := "all";
       Utils.finetuning := true; Utils.blocks := 0 |} "last.ckpt"
  = inr (Some Utils.SpectrogramCNN).
Proof.
  apply (get_model_from_checkpoint_agrees {["last.ckpt"]}
           {| Utils.name := "CNN"; Utils.model_option := "all";
              Utils.finetuning := true; Utils.blocks := 0 |} "last.ckpt").
  - apply elem_of_singleton. reflexivity.
  - left. reflexivity.
Defined.

(** The name ["iemocap"]. *)
Lemma get_dataset_unknown_name_witness :
  Utils.get_dataset (∅ : gmap string (list Z)) (fun _ n => seq 0 n)
    {| Utils.dataset_name := "iemocap"; Utils.dir := "IEMOCAP";
       Utils.split_size := Py.Float (Py.float_literal (4 # 5)); Utils.split_seed := None |}
    "data" true Data.PartBoth
  = inl (Utils.Exception "Requested dataset, doesn't exist yet").
Proof.
  apply (get_dataset_unknown_name (∅ : gmap string (list Z))
           (fun _ n => seq 0 n)
           {| Utils.dataset_name := "iemocap"; Utils.dir := "IEMOCAP";
              Utils.split_size := Py.Float (Py.float_literal (4 # 5)); Utils.split_seed := None |}
           "data" true Data.PartBoth); vm_compute; discriminate.
Defined.

(** The name ["DEMoS"] and a directory of four items. *)
Lemma get_dataset_split_agrees_witness :
  exists class,
    Utils.get_dataset ({[ "data/demos" := [1; 2; 3; 4]%Z ]})
      (fun _ n => seq 0 n)
      {| Utils.dataset_name := "DEMoS"; Utils.dir := "demos";
         Utils.split_size := Py.Float (Py.float_literal (1 # 2)); Utils.split_seed := None |}
      "data" false Data.PartTest
    = inr (Utils.Whole class (Data.Base [1; 2; 3; 4]%Z)).
Proof.
  destruct (get_dataset_split_agrees ({[ "data/demos" := [1; 2; 3; 4]%Z ]})
              (fun _ n => seq 0 n)
              {| Utils.dataset_name := "DEMoS"; Utils.dir := "demos";
                 Utils.split_size := Py.Float (Py.float_literal (1 # 2)); Utils.split_seed := None |}
              "data" Data.PartBoth [1; 2; 3; 4]%Z)
    as (_ & class & Hwhole).
  - left. reflexivity.
  - vm_compute. reflexivity.
  - exists class. apply Hwhole.
Defined.

(** The GPU index 0. *)
Lemma server_setup_not_false_witness :
  Utils.server_setup (Utils.VInt 0) ∅ !! Utils.CUDA_VISIBLE_DEVICES
  = Some "0".
Proof.
  apply (server_setup_not_false (Utils.VInt 0) ∅ ∅ "server.json").
  discriminate.
Defined.

(** A server file that gives only the device order. *)
Lemma server_setup_file_partial_update_witness :
  exists e,
    Utils._server_setup
      {[ Train.join Utils.conf_path "server.json"
         := {[ Utils.CUDA_DEVICE_ORDER := Utils.VStr "PCI_BUS_ID" ]} ]}
      "server.json" ∅
    = (<[Utils.CUDA_DEVICE_ORDER := "PCI_BUS_ID"]> ∅, inl e).
Proof.
  destruct (server_setup_file_partial_update
              {[ Train.join Utils.conf_path "server.json"
                 := {[ Utils.CUDA_DEVICE_ORDER := Utils.VStr "PCI_BUS_ID" ]} ]}
              "server.json"
              {[ Utils.CUDA_DEVICE_ORDER := Utils.VStr "PCI_BUS_ID" ]}
              "PCI_BUS_ID" ∅)
    as (e & Hrun & _).
  - vm_compute. reflexivity.
  - vm_compute. reflexivity.
  - intros s. vm_compute. discriminate.
  - exists e. exact Hrun.
Defined.
